(** * Synapse SDK: bridge route resolution and transaction-shape selection

    A shallow embedding of [common/networks.ts] and of the [Bridge]
    namespace (class [SynapseBridge]) of the SDK, with the properties of the
    design document stated and settled against it.

    Conventions.
    - A JavaScript [number] (chain ids, pool indices) is a [Z]; an ethers
      [BigNumber] is a [Z] as well, and a [uint256] returned by a contract
      call is an [N].
    - A value that may be [null]/[undefined] is an [option].
    - A [Promise] is its outcome ([Resolved] or [Rejected]) together with the
      ordered list of collaborator calls issued while it was computed.
    - Modules of the SDK whose source is not part of this development
      (the chain-id constants, the token catalogue, [SwapPools],
      [TokenSwap], [BridgeUtils], the contract bindings) are record
      parameters: every theorem holds for all of their values, under the
      hypotheses it names. *)

From Stdlib Require Import ZArith Lia.
From stdpp Require Import base option list gmap strings.

Local Open Scope string_scope.
Local Open Scope list_scope.
Local Open Scope Z_scope.

Set Warnings "-register-all".

(** ** JavaScript helpers *)

(** [Array.prototype.includes]. *)
Definition includes {A} `{EqDecision A} (l : list A) (x : A) : bool :=
  bool_decide (x ∈ l).

(** [Array.prototype.findIndex]: position of the first element satisfying
    [p], or [-1]. *)
Fixpoint findIndex {A} (p : A -> bool) (l : list A) : Z :=
  match l with
  | [] => -1
  | x :: l' =>
      if p x then 0
      else let i := findIndex p l' in
           if i <? 0 then -1 else i + 1
  end.

(** ** Tokens ([@token], [@internal/swaptype], [@internal/entity]) *)

(** Token identities are unique symbols; only their equality matters. *)
Definition ID := N.

(** The members of the [SwapType] enumeration that the bridge names, and
    the remaining ones by their label. *)
Inductive SwapType :=
  | SwapType_ETH
  | SwapType_AVAX
  | SwapType_MOVR
  | SwapType_other (label : string).

#[global] Instance SwapType_eq_dec : EqDecision SwapType.
Proof. solve_decision. Defined.

(** The [Token] interface. A [WrappedToken] carries its underlying token and
    reports [isWrappedToken = true]; a [BaseToken] carries none and reports
    [false], so the flag is read off the [underlyingToken] field. *)
Inductive Token := mkToken {
  id              : ID;
  symbol          : string;
  swapType        : SwapType;
  underlyingToken : option Token;
  address         : Z -> option string;
  wrapperAddress  : Z -> option string;
  decimals        : Z -> Z;
}.

Definition isWrappedToken (t : Token) : bool :=
  match underlyingToken t with Some _ => true | None => false end.

(** [Token.isEqual]: equality is by logical id. *)
Definition isEqual (a b : Token) : bool := bool_decide (id a = id b).

(** ** Chain identifiers ([@chainid]) *)

Module ChainId.
(** The numeric constants of the [ChainId] enumeration. *)
Record t := {
  ETH       : Z;
  OPTIMISM  : Z;
  BSC       : Z;
  POLYGON   : Z;
  FANTOM    : Z;
  BOBA      : Z;
  MOONBEAM  : Z;
  MOONRIVER : Z;
  ARBITRUM  : Z;
  AVALANCHE : Z;
  HARMONY   : Z;
}.

(** The enumeration gives every chain its own number. *)
Definition distinct (c : t) : Prop :=
  NoDup [ETH c; OPTIMISM c; BSC c; POLYGON c; FANTOM c; BOBA c;
         MOONBEAM c; MOONRIVER c; ARBITRUM c; AVALANCHE c; HARMONY c].
End ChainId.

(** ** [common/networks.ts] *)

Module Networks.
Section WithChains.
Context (cid : ChainId.t).

Definition ETH_TOKEN_CHAINS : list Z :=
  [ChainId.ETH cid; ChainId.BOBA cid; ChainId.ARBITRUM cid].

Record Network := {
  name           : string;
  names          : list string;
  chainCurrency  : string;
  chainId        : Z;
  tokens         : list Token;
  tokenAddresses : list (option string);
}.

(** The constructor; [swappable] is
    [SwapPools.getAllSwappableTokensForNetwork]. *)
Definition new_Network (swappable : Z -> list Token)
    (nm : string) (nms : option (list string)) (c : Z) (cur : string)
    : Network :=
  let toks := swappable c in
  {| name := nm;
     names := default [] nms;
     chainCurrency := cur;
     chainId := c;
     tokens := toks;
     tokenAddresses := map (fun t => address t c) toks |}.

Definition zapIsL2BridgeZap (n : Network) : bool :=
  negb (bool_decide (chainId n = ChainId.ETH cid)).

Definition supportsToken (n : Network) (token : Token) : bool :=
  if bool_decide (symbol token = "ETH")
     && includes ETH_TOKEN_CHAINS (chainId n)
  then true
  else includes (tokenAddresses n) (address token (chainId n)).

(** *** The networks of the SDK *)

(** [SwapPools.getAllSwappableTokensForNetwork], which the constructor
    reads. *)
Context (swappable : Z -> list Token).

Definition ETH : Network :=
  new_Network swappable "Ethereum Mainnet" (Some ["eth"; "mainnet"])
    (ChainId.ETH cid) "ETH".

Definition BSC : Network :=
  new_Network swappable "Binance Smart Chain" (Some ["smart chain"; "bsc"])
    (ChainId.BSC cid) "BNB".

Definition POLYGON : Network :=
  new_Network swappable "Polygon" (Some ["poly"; "matic"])
    (ChainId.POLYGON cid) "MATIC".

Definition FANTOM : Network :=
  new_Network swappable "Fantom" (Some ["ftm"]) (ChainId.FANTOM cid) "FTM".

Definition BOBA : Network :=
  new_Network swappable "Boba Network" None (ChainId.BOBA cid) "ETH".

Definition MOONRIVER : Network :=
  new_Network swappable "Moonriver" None (ChainId.MOONRIVER cid) "MOVR".

Definition ARBITRUM : Network :=
  new_Network swappable "Arbitrum" (Some ["arbi"; "arb"])
    (ChainId.ARBITRUM cid) "ETH".

Definition AVALANCHE : Network :=
  new_Network swappable "Avalanche C-Chain" (Some ["avalanche"; "avax"])
    (ChainId.AVALANCHE cid) "AVAX".

Definition HARMONY : Network :=
  new_Network swappable "Harmony" None (ChainId.HARMONY cid) "ONE".

(** The object literal: a later entry with an equal key overwrites an
    earlier one. *)
Definition CHAINID_NETWORK_MAP : gmap Z Network :=
  <[ChainId.HARMONY cid   := HARMONY]>
  (<[ChainId.AVALANCHE cid := AVALANCHE]>
  (<[ChainId.ARBITRUM cid  := ARBITRUM]>
  (<[ChainId.MOONRIVER cid := MOONRIVER]>
  (<[ChainId.BOBA cid      := BOBA]>
  (<[ChainId.FANTOM cid    := FANTOM]>
  (<[ChainId.POLYGON cid   := POLYGON]>
  (<[ChainId.BSC cid       := BSC]>
  (<[ChainId.ETH cid       := ETH]> ∅)))))))).

(** [CHAINID_NETWORK_MAP[ChainId.asNumber(chainId)] ?? null] *)
Definition fromChainId (c : Z) : option Network :=
  CHAINID_NETWORK_MAP !! c.

(** [None] stands for the [TypeError] of calling [supportsToken] on the
    [null] that [fromChainId] returned. *)
Definition networkSupportsToken (network : Network + Z) (token : Token)
    : option bool :=
  let found := match network with
               | inl n => Some n
               | inr c => fromChainId c
               end in
  match found with
  | Some n => Some (supportsToken n token)
  | None => None
  end.
End WithChains.
End Networks.

(** ** The token catalogue ([@tokens]) *)

Module Tokens.
(** The catalogue entries the bridge names, and the mint/burn test. *)
Record t := {
  NUSD   : Token;
  SYN    : Token;
  HIGH   : Token;
  DOG    : Token;
  FRAX   : Token;
  NETH   : Token;
  GMX    : Token;
  ETH    : Token;
  WETH   : Token;
  WETH_E : Token;
  AVWETH : Token;
  AVAX   : Token;
  WAVAX  : Token;
  MOVR   : Token;
  WMOVR  : Token;
  isMintBurnToken : Token -> bool;
}.
End Tokens.

(** ** Pool registry ([@swappools]) *)

Module SwapPools.
Record t := {
  (** [bridgeSwappableTypePoolsByChain[chainId]?.[swapType]?.poolTokens] *)
  bridgeSwappableTypePoolsByChain : Z -> SwapType -> option (list Token);
  getAllSwappableTokensForNetwork : Z -> list Token;
}.
End SwapPools.

(** ** Swap compatibility ([@tokenswap]) *)

Module TokenSwap.
Record SwapSupportedResult := {
  swapSupported      : bool;
  (** the [reason] of [reasonNotSupported], when there is one *)
  reasonNotSupported : option string;
}.

Record IntermediateTokens := {
  intermediateToken             : Token;
  bridgeConfigIntermediateToken : Token;
}.

Record t := {
  (** arguments: tokenFrom, tokenTo, chainIdTo, chainIdFrom *)
  bridgeSwapSupported : Token -> Token -> Z -> Z -> SwapSupportedResult;
  intermediateTokens  : Z -> Token -> IntermediateTokens;
}.
End TokenSwap.

(** ** Contract calls and populated transactions ([@contracts]) *)

Inductive Contract := L1BridgeZap | L2BridgeZap | SynapseBridgeContract.

Inductive Method :=
  | redeem | deposit | depositETH
  | zapAndDeposit | depositETHAndSwap | zapAndDepositAndSwap
  | redeemAndSwap | swapAndRedeemAndSwap | swapETHAndRedeemAndSwap
  | swapAndRedeem | swapETHAndRedeem
  | redeemAndRemove | swapAndRedeemAndRemove.

Inductive Arg :=
  | AString (s : option string)   (* an address *)
  | ANumber (n : Z)               (* a chain id or a pool index *)
  | ABigNumber (n : Z)            (* an amount or a deadline *)
  | AArray (l : list Z).          (* liquidity amounts *)

(** What [contract.populateTransaction.method(...args, overrides)] is asked
    to encode, and what gas population may add to it. *)
Record PopulatedTransaction := {
  target   : Contract;
  method   : Method;
  args     : list Arg;
  value    : option Z;
  gasPrice : option Z;
  gasLimit : option Z;
}.

Definition mkCall (c : Contract) (m : Method) (a : list Arg)
    (v : option Z) : PopulatedTransaction :=
  {| target := c; method := m; args := a; value := v;
     gasPrice := None; gasLimit := None |}.

(** The calls the bridge issues to its collaborators. *)
Inductive Call :=
  (** [BridgeConfigV3.calculateSwapFee(address,uint256,uint256)] *)
  | calculateSwapFee (tokenAddress : option string) (chainIdTo : Z)
                     (amount : Z)
  (** [L1BridgeZap.calculateTokenAmount] on Ethereum mainnet *)
  | calculateTokenAmount (amounts : list Z) (isDeposit : bool)
  (** [calculateSwap] of the zap contract of chain [zapChainId] *)
  | calculateSwap (zapChainId : Z) (token : option string)
                  (tokenIndexFrom tokenIndexTo : Z) (dx : Z)
  (** [calculateRemoveLiquidityOneToken] of the zap of [zapChainId] *)
  | calculateRemoveLiquidityOneToken (zapChainId : Z) (tokenAmount : Z)
                                     (tokenIndex : Z)
  (** [populateTransaction]: the contract-call encoder *)
  | populateTransaction (tx : PopulatedTransaction)
  (** [signer.getAddress()] *)
  | getAddress
  (** the ERC-20 reads of the pre-flight checks, on chain [chain] *)
  | balanceOf (owner : string) (tokenAddress : option string) (chain : Z)
  | allowanceOf (owner spender : string) (tokenAddress : option string)
                (chain : Z).

Definition isSwapMathQuery (c : Call) : bool :=
  match c with
  | calculateTokenAmount _ _
  | calculateSwap _ _ _ _ _
  | calculateRemoveLiquidityOneToken _ _ _ => true
  | calculateSwapFee _ _ _ | populateTransaction _ | getAddress
  | balanceOf _ _ _ | allowanceOf _ _ _ _ => false
  end.

(** ** Promises *)

Inductive Error :=
  (** [checkSwapSupported]: [reject(errReason)] *)
  | RouteUnsupported (reason : string)
  (** [Error("BridgeTransactionParams.addressTo cannot be empty string or
      undefined")] *)
  | EmptyDestinationAddress
  (** a member access on [undefined] *)
  | TypeError
  (** [BigNumber.pow] with a negative exponent *)
  | NumericFault
  (** a contract call that rejects *)
  | CallException (c : Call)
  (** [Error(`Balance of token ${symbol} is too low; current balance is
      ${formatUnits(balance, decimals)}`)] *)
  | InsufficientBalance (symbol : string) (balance decimals : Z)
  (** [Error(`Spend allowance of Bridge too low for token ${symbol}; current
      allowance for Bridge is ${formatUnits(allowance, decimals)}`)] *)
  | InsufficientAllowance (symbol : string) (allowance decimals : Z)
  (** a rejection raised inside [executePopulatedTransaction] *)
  | SendFailed.

Inductive Outcome (A : Type) :=
  | Resolved (a : A)
  | Rejected (e : Error).
Arguments Resolved {A} a.
Arguments Rejected {A} e.

(** The calls issued, in order, and the outcome. *)
Definition Promise (A : Type) : Type := list Call * Outcome A.

Definition ret {A} (a : A) : Promise A := ([], Resolved a).
Definition throw {A} (e : Error) : Promise A := ([], Rejected e).

Definition bind {A B} (m : Promise A) (f : A -> Promise B) : Promise B :=
  match m with
  | (l, Resolved a) => let '(l', r) := f a in (l ++ l', r)
  | (l, Rejected e) => (l, Rejected e)
  end.

(** A synchronous computation that may throw, inside an [async] function;
    also: awaiting a promise that was started earlier. *)
Definition lift {A} (o : Outcome A) : Promise A := ([], o).

(** Starting a promise without awaiting it: its calls are issued now, its
    outcome is kept for later. *)
Definition start {A} (p : Promise A) : Promise (Outcome A) :=
  (fst p, Resolved (snd p)).

Notation "'await' x <- m ; k" := (bind m (fun x => k))
  (at level 10, x name, m at level 100, k at level 200,
   format "'[v' 'await'  x  <-  m ; '/' k ']'").

Definition calls {A} (p : Promise A) : list Call := fst p.
Definition outcome {A} (p : Promise A) : Outcome A := snd p.

(** ** Bridge helpers ([./bridgeutils]) *)

Module BridgeUtils.
Record DepositIfChainArgs := {
  chainId    : Z;
  tokens     : list Token;
  depositEth : bool;
  altChainId : option Z;
}.

(** The fields of [getSlippages]'s result that the bridge reads. *)
Record Slippages := {
  transactionDeadline                   : Z;
  bridgeTransactionDeadline             : Z;
  minToSwapDestFromOrigin               : Z;
  minToSwapDest                         : Z;
  minToSwapOriginMediumSlippage         : Z;
  minToSwapDestFromOriginMediumSlippage : Z;
  minToSwapOriginHighSlippage           : Z;
  minToSwapDestFromOriginHighSlippage   : Z;
}.

(** [BridgeTxParams]: the request as the parameter builders receive it
    ([args as BridgeUtils.BridgeTxParams] is the request object itself). *)
Record BridgeTxParams := {
  tokenFrom  : Token;
  tokenTo    : Token;
  chainIdTo  : Z;
  amountFrom : Z;
  amountTo   : Z;
  addressTo  : option string;
}.

(** [depositETHParams] is not part of the sources at hand, and the design
    document gives no parameter list for the shapes it feeds that the call
    site could supply (it is handed the request alone, without the chain a
    token address would need); it is left as a parameter, like the other
    imported helpers. *)
Record t := {
  isL2ETHChain         : Z -> bool;
  isETHLikeToken       : Token -> bool;
  DepositIfChainTokens : list DepositIfChainArgs;
  getSlippages         : Z -> Z -> Slippages;
  depositETHParams     : BridgeTxParams -> list Arg;
}.

(** Modelled from the spec: [BridgeUtils.subBigNumSafe] is not part of the
    sources at hand. Design document 4.5, step 5: "Subtract the bridge fee
    from the origin-side amount, clamped at zero (never negative)." *)
Definition subBigNumSafe (a b : Z) : Z :=
  if a - b <? 0 then 0 else a - b.

(** Modelled from the spec: [BridgeUtils.makeEasyParams] is not part of the
    sources at hand. Design document 4.6, step 2: the single-step shapes
    take "(destinationAddress, destinationChain, tokenAddress, amount[,
    nativeValue])". *)
Definition makeEasyParams (a : BridgeTxParams) (chain : Z) (tok : Token)
    : list Arg :=
  [AString (addressTo a); ANumber (chainIdTo a);
   AString (address tok chain); ABigNumber (amountFrom a)].

(** Modelled from the spec: [BridgeUtils.makeEasySubParams] is not part of
    the sources at hand; it is the prefix of [makeEasyParams] that the
    composite shapes continue with their own amount. *)
Definition makeEasySubParams (a : BridgeTxParams) (chain : Z) (tok : Token)
    : list Arg :=
  [AString (addressTo a); ANumber (chainIdTo a);
   AString (address tok chain)].

(** Modelled from the spec: [BridgeUtils.makeOverrides] is not part of the
    sources at hand. Design document 3: a shape has "an optional
    native-value override (for native-gas-token legs)". *)
Definition makeOverrides (amount : Z) (withValueOverride : bool)
    : option Z :=
  if withValueOverride then Some amount else None.
End BridgeUtils.

(** ** Gas population ([./gasutils]) *)

Module GasUtils.
Record t := {
  (** arguments: chain id, transaction, gas-limit kind *)
  populateGasParams :
    Z -> PopulatedTransaction -> string -> PopulatedTransaction;
}.
End GasUtils.

(** ** Signing and sending ([@ethersproject/abstract-signer],
    [@common/utils], [@entities]) *)

Record ContractTransaction := {
  hash : string;
}.

Module Signer.
  (** What the signer answers; [None] when the request rejects. *)
Record t := {
  address : option string;
}.
End Signer.

Module CommonUtils.
Record t := {
  executePopulatedTransaction :
    Promise PopulatedTransaction -> Signer.t -> Promise ContractTransaction;
}.
End CommonUtils.

Module SynapseEntities.
Record t := {
  (** the address of [SynapseEntities.zapBridge({chainId, ...})] *)
  zapBridgeAddress : Z -> string;
}.
End SynapseEntities.

(** Everything the [Bridge] namespace imports. *)
Record SDK := {
  chainIds    : ChainId.t;
  catalogue   : Tokens.t;
  pools       : SwapPools.t;
  tokenSwap   : TokenSwap.t;
  utils       : BridgeUtils.t;
  gasUtils    : GasUtils.t;
  commonUtils : CommonUtils.t;
  entities    : SynapseEntities.t;
}.

(** ** The [Bridge] namespace *)

Module Bridge.

Record BridgeOutputEstimate := {
  amountToReceive : Z;
  bridgeFee       : Z;
}.

Module BridgeParams.
Record t := {
  tokenFrom  : Token;
  tokenTo    : Token;
  chainIdTo  : Z;
  amountFrom : option Z;
}.
End BridgeParams.

Module BridgeTransactionParams.
Record t := {
  tokenFrom  : Token;
  tokenTo    : Token;
  chainIdTo  : Z;
  amountFrom : Z;
  amountTo   : Z;
  addressTo  : option string;
}.

(** A [BridgeTransactionParams] is a [BridgeParams]. *)
Definition asBridgeParams (a : t) : BridgeParams.t :=
  {| BridgeParams.tokenFrom  := tokenFrom a;
     BridgeParams.tokenTo    := tokenTo a;
     BridgeParams.chainIdTo  := chainIdTo a;
     BridgeParams.amountFrom := Some (amountFrom a) |}.

(** [args as BridgeUtils.BridgeTxParams] *)
Definition asBridgeTxParams (a : t) : BridgeUtils.BridgeTxParams :=
  {| BridgeUtils.tokenFrom  := tokenFrom a;
     BridgeUtils.tokenTo    := tokenTo a;
     BridgeUtils.chainIdTo  := chainIdTo a;
     BridgeUtils.amountFrom := amountFrom a;
     BridgeUtils.amountTo   := amountTo a;
     BridgeUtils.addressTo  := addressTo a |}.

(** [{...args, tokenFrom, tokenTo}] *)
Definition withTokens (a : t) (tf tt : Token) : t :=
  {| tokenFrom := tf; tokenTo := tt; chainIdTo := chainIdTo a;
     amountFrom := amountFrom a; amountTo := amountTo a;
     addressTo := addressTo a |}.

(** [args.addressTo = ...] *)
Definition withAddressTo (a : t) (addr : option string) : t :=
  {| tokenFrom := tokenFrom a; tokenTo := tokenTo a;
     chainIdTo := chainIdTo a;
     amountFrom := amountFrom a; amountTo := amountTo a;
     addressTo := addr |}.
End BridgeTransactionParams.

Module BridgeTokenArgs.
Record t := {
  fromChainTokens : list Token;
  toChainTokens   : list Token;
  tokenFrom       : Token;
  tokenTo         : Token;
  tokenIndexFrom  : Z;
  tokenIndexTo    : Z;
}.

Definition withTokenFrom (a : t) (tf : Token) : t :=
  {| fromChainTokens := fromChainTokens a;
     toChainTokens := toChainTokens a;
     tokenFrom := tf; tokenTo := tokenTo a;
     tokenIndexFrom := tokenIndexFrom a;
     tokenIndexTo := tokenIndexTo a |}.
End BridgeTokenArgs.

Record EasyArgsCheck := {
  isEasy   : bool;
  castArgs : BridgeUtils.BridgeTxParams;
  txn      : option (Promise PopulatedTransaction);
}.

Section WithChains.
Context (cid : ChainId.t).

(** The object literal: a later entry with an equal key overwrites an
    earlier one. *)
Definition REQUIRED_CONFS : gmap Z Z :=
  <[ChainId.HARMONY cid   := 1]>
  (<[ChainId.AVALANCHE cid := 5]>
  (<[ChainId.ARBITRUM cid  := 40]>
  (<[ChainId.MOONRIVER cid := 21]>
  (<[ChainId.MOONBEAM cid  := 21]>
  (<[ChainId.BOBA cid      := 1]>
  (<[ChainId.FANTOM cid    := 5]>
  (<[ChainId.POLYGON cid   := 128]>
  (<[ChainId.BSC cid       := 14]>
  (<[ChainId.OPTIMISM cid  := 1]>
  (<[ChainId.ETH cid       := 7]> ∅)))))))))).

Definition getRequiredConfirmationsForBridge
    (network : Networks.Network + Z) : Z :=
  let chainId := match network with
                 | inl n => Networks.chainId n
                 | inr c => c
                 end in
  default (-1) (REQUIRED_CONFS !! chainId).
End WithChains.

(** The fields of a [SynapseBridge] instance that its methods read. *)
Record SynapseBridge := {
  network               : Networks.Network;
  chainId               : Z;
  requiredConfirmations : Z;
  isL2Zap               : bool;
  isL2ETHChain          : bool;
  zapBridgeAddress      : string;
}.

(** [CanBridgeResult]: [[true, null]] or [[false, err]]. *)
Inductive CanBridgeResult :=
  | CanBridge
  | CannotBridge (err : Error).

Module CheckCanBridgeParams.
Record t := {
  address : string;
  token   : Token;
  amount  : Z;
}.
End CheckCanBridgeParams.

Section WithSDK.
Context (sdk : SDK).

Local Abbreviation C := (chainIds sdk).
Local Abbreviation T := (catalogue sdk).
Local Abbreviation U := (utils sdk).

(** The constructor, for a [Network] instance. *)
Definition new_SynapseBridge (net : Networks.Network) : SynapseBridge :=
  {| network := net;
     chainId := Networks.chainId net;
     requiredConfirmations :=
       getRequiredConfirmationsForBridge C (inl net);
     isL2Zap := Networks.zapIsL2BridgeZap C net;
     isL2ETHChain := BridgeUtils.isL2ETHChain U (Networks.chainId net);
     zapBridgeAddress :=
       SynapseEntities.zapBridgeAddress (entities sdk)
         (Networks.chainId net) |}.

Definition swapSupported (this : SynapseBridge) (args : BridgeParams.t)
    : bool * string :=
  let r := TokenSwap.bridgeSwapSupported (tokenSwap sdk)
             (BridgeParams.tokenFrom args) (BridgeParams.tokenTo args)
             (BridgeParams.chainIdTo args) (chainId this) in
  (TokenSwap.swapSupported r,
   default EmptyString (TokenSwap.reasonNotSupported r)).

Definition checkSwapSupported (this : SynapseBridge)
    (args : BridgeParams.t) : Promise bool :=
  let '(supported, errReason) := swapSupported this args in
  if negb supported then throw (RouteUnsupported errReason)
  else ret true.

(** *** Token-argument resolution *)

Definition checkAndChangeToken (t check swappy : Token) : Token :=
  if isEqual t check then swappy else t.

Definition checkAndChangeTokens (check swappy : Token)
    (t1 t2 : Token) : Token * Token :=
  (checkAndChangeToken t1 check swappy,
   checkAndChangeToken t2 check swappy).

Definition bridgeTokens (tokenFrom : Token)
    : Token -> Token -> Token * Token :=
  match swapType tokenFrom with
  | SwapType_ETH  => checkAndChangeTokens (Tokens.ETH T) (Tokens.WETH T)
  | SwapType_AVAX => checkAndChangeTokens (Tokens.AVAX T) (Tokens.WAVAX T)
  | SwapType_MOVR => checkAndChangeTokens (Tokens.MOVR T) (Tokens.WMOVR T)
  | SwapType_other _ => fun t1 t2 => (t1, t2)
  end.

Definition findSymbol (tokA tokB : Token) : bool :=
  let compareTok :=
    if isEqual tokB (Tokens.WETH_E T) then Tokens.AVWETH T
    else if isEqual tokB (Tokens.WETH T) then Tokens.WETH T
    else match underlyingToken tokB with
         | Some u => u
         | None => tokB
         end in
  isEqual tokA compareTok.

(** [toks.findIndex] throws when the pool list is [undefined]. *)
Definition makeTokenArgs (chain : Z) (t : Token)
    : Outcome (list Token * Z) :=
  match SwapPools.bridgeSwappableTypePoolsByChain (pools sdk)
          chain (swapType t) with
  | None => Rejected TypeError
  | Some toks =>
      Resolved (toks, findIndex (fun tok => findSymbol tok t) toks)
  end.

Definition makeBridgeTokenArgs (this : SynapseBridge)
    (args : BridgeParams.t) : Outcome BridgeTokenArgs.t :=
  let '(tokenFrom, tokenTo) :=
    bridgeTokens (BridgeParams.tokenFrom args)
      (BridgeParams.tokenFrom args) (BridgeParams.tokenTo args) in
  match makeTokenArgs (chainId this) tokenFrom with
  | Rejected e => Rejected e
  | Resolved (fromChainTokens, tokenIndexFrom) =>
      match makeTokenArgs (BridgeParams.chainIdTo args) tokenTo with
      | Rejected e => Rejected e
      | Resolved (toChainTokens, tokenIndexTo) =>
          Resolved
            {| BridgeTokenArgs.fromChainTokens := fromChainTokens;
               BridgeTokenArgs.toChainTokens := toChainTokens;
               BridgeTokenArgs.tokenFrom := tokenFrom;
               BridgeTokenArgs.tokenTo := tokenTo;
               BridgeTokenArgs.tokenIndexFrom := tokenIndexFrom;
               BridgeTokenArgs.tokenIndexTo := tokenIndexTo |}
      end
  end.
(** *** Collaborators *)

(** What the chain answers to a read-only call; [None] when the call
    rejects. *)
Context (reply : Call -> option N).

(** An awaited contract call. *)
Definition request (c : Call) : Promise N :=
  ([c], match reply c with
        | Some n => Resolved n
        | None => Rejected (CallException c)
        end).

(** A contract call that is sent now and awaited later: the pending
    promise is kept as its eventual answer. *)
Definition issue (c : Call) : Promise (option N) :=
  ([c], Resolved (reply c)).

(** The encoder, [contract.populateTransaction.<method>(...)]: the call it
    is handed is recorded, and the encoder is taken to accept it and hand it
    back. A rejection by the encoder itself (an argument that does not fit
    the contract's signature, such as the index [-1] for a [uint8]) is not
    modelled; what the builders are shown to do is select the call. *)
Definition populate (tx : PopulatedTransaction)
    : Promise PopulatedTransaction :=
  ([populateTransaction tx], Resolved tx).

(** Modelled from the spec: [BridgeUtils.calculateSwapL2Zap] is not part of
    the sources at hand. Design document 6: "SwapMathClient (any chain):
    swapOutput(poolAddress, indexFrom, indexTo, amountIn) -> amountOut";
    the first argument is the zap contract the query is sent to, given here
    by its chain. *)
Definition calculateSwapL2Zap (zapChainId : Z) (token : option string)
    (tokenIndexFrom tokenIndexTo : Z) (amount : Z) : Promise Z :=
  await r <- request
    (calculateSwap zapChainId token tokenIndexFrom tokenIndexTo amount);
  ret (Z.of_N r).

(** *** Output estimation *)

(** [BigNumber.from(10).pow(e)] *)
Definition bigNumTen_pow (e : Z) : Outcome Z :=
  if e <? 0 then Rejected NumericFault else Resolved (10 ^ e).

Definition checkEthy (c : Z) (t : Token) : bool :=
  BridgeUtils.isL2ETHChain U c
  && bool_decide (swapType t = SwapType_ETH).

Definition calculateBridgeRate (this : SynapseBridge)
    (args : BridgeParams.t) : Promise (option BridgeOutputEstimate) :=
  let chainIdTo := BridgeParams.chainIdTo args in
  await tokenArgs <- lift (makeBridgeTokenArgs this args);
  let tokenFrom := BridgeTokenArgs.tokenFrom tokenArgs in
  let tokenTo := BridgeTokenArgs.tokenTo tokenArgs in
  let tokenIndexFrom := BridgeTokenArgs.tokenIndexFrom tokenArgs in
  let tokenIndexTo := BridgeTokenArgs.tokenIndexTo tokenArgs in
  let fromChainTokens := BridgeTokenArgs.fromChainTokens tokenArgs in
  let its := TokenSwap.intermediateTokens (tokenSwap sdk)
               chainIdTo tokenFrom in
  let intermediateToken := TokenSwap.intermediateToken its in
  let bridgeConfigIntermediateToken :=
    TokenSwap.bridgeConfigIntermediateToken its in
  await amountFrom <-
    lift (match BridgeParams.amountFrom args with
          | Some a => Resolved a
          | None => Rejected TypeError
          end);
  await scale <-
    lift (bigNumTen_pow (18 - decimals tokenFrom (chainId this)));
  await bridgeFeeRequest <-
    issue (calculateSwapFee
             (address bridgeConfigIntermediateToken chainIdTo)
             chainIdTo
             (amountFrom * scale));
  let ethToEth :=
    (chainId this =? ChainId.ETH C) && checkEthy chainIdTo tokenTo in
  let ethFromEth :=
    (chainIdTo =? ChainId.ETH C) && checkEthy (chainId this) tokenFrom in
  await amountToReceive_from <-
    (if amountFrom =? 0 then ret 0
     else if ethToEth
             || Tokens.isMintBurnToken T tokenFrom
             || isWrappedToken tokenFrom
     then ret amountFrom
     else if chainId this =? ChainId.ETH C then
       let liquidityAmounts :=
         map (fun t => if isEqual tokenFrom t then amountFrom else 0)
             fromChainTokens in
       await r <- request (calculateTokenAmount liquidityAmounts true);
       ret (Z.of_N r)
     else
       calculateSwapL2Zap (chainId this)
         (address intermediateToken (chainId this))
         tokenIndexFrom 0 amountFrom);
  match bridgeFeeRequest with
  | None =>
      (* console.error(...); return null *)
      ret None
  | Some fee =>
      let bridgeFee := Z.of_N fee in
      let amountToReceive_from :=
        BridgeUtils.subBigNumSafe amountToReceive_from bridgeFee in
      await amountToReceive_to <-
        (if amountToReceive_from =? 0 then ret 0
         else if ethFromEth
                 || Tokens.isMintBurnToken T tokenTo
                 || isWrappedToken tokenTo
         then ret amountToReceive_from
         else if chainIdTo =? ChainId.ETH C then
           await r <- request
             (calculateRemoveLiquidityOneToken chainIdTo
                amountToReceive_from tokenIndexTo);
           ret (Z.of_N r)
         else
           calculateSwapL2Zap chainIdTo
             (address intermediateToken chainIdTo)
             0 tokenIndexTo amountToReceive_from);
      let amountToReceive := amountToReceive_to in
      ret (Some {| amountToReceive := amountToReceive;
                   bridgeFee := bridgeFee |})
  end.

Definition estimateBridgeTokenOutput (this : SynapseBridge)
    (args : BridgeParams.t) : Promise (option BridgeOutputEstimate) :=
  await _ok <- checkSwapSupported this args;
  calculateBridgeRate this args.

(** *** Transaction-shape selection *)

Definition checkEasyArgs (this : SynapseBridge)
    (args : BridgeTransactionParams.t) (zapBridge : Contract)
    (easyDeposits easyRedeems easyDepositETH : list ID) : EasyArgsCheck :=
  let castArgs := BridgeTransactionParams.asBridgeTxParams args in
  let tokenTo := BridgeTransactionParams.tokenTo args in
  let params := BridgeUtils.makeEasyParams castArgs (chainId this) tokenTo in
  if includes easyRedeems (id tokenTo) then
    {| castArgs := castArgs; isEasy := true;
       txn := Some (populate (mkCall zapBridge redeem params None)) |}
  else if includes easyDeposits (id tokenTo) then
    {| castArgs := castArgs; isEasy := true;
       txn := Some (populate (mkCall zapBridge deposit params None)) |}
  else if includes easyDepositETH (id tokenTo) then
    {| castArgs := castArgs; isEasy := true;
       txn := Some (populate
                (mkCall zapBridge depositETH
                   (BridgeUtils.depositETHParams U castArgs)
                   (Some (BridgeTransactionParams.amountFrom args)))) |}
  else
    {| castArgs := castArgs; isEasy := false; txn := None |}.

(** The membership sets of the mainnet gate. *)
Definition mainnetEasyRedeems : list ID := [id (Tokens.SYN T)].

Definition mainnetEasyDeposits (tokenFrom : Token) : list ID :=
  [id (Tokens.HIGH T); id (Tokens.DOG T); id (Tokens.FRAX T)]
  ++ (if isEqual tokenFrom (Tokens.NUSD T) then [id (Tokens.NUSD T)]
      else []).

Definition mainnetEasyDepositETH : list ID := [id (Tokens.NETH T)].

Definition buildETHMainnetBridgeTxn (this : SynapseBridge)
    (args : BridgeTransactionParams.t) (tokenArgs : BridgeTokenArgs.t)
    : Promise PopulatedTransaction :=
  let addressTo := BridgeTransactionParams.addressTo args in
  let chainIdTo := BridgeTransactionParams.chainIdTo args in
  let amountFrom := BridgeTransactionParams.amountFrom args in
  let amountTo := BridgeTransactionParams.amountTo args in
  let tokenFrom := BridgeTransactionParams.tokenFrom args in
  let tokenTo := BridgeTransactionParams.tokenTo args in
  let zapBridge := L1BridgeZap in
  let easyRedeems := mainnetEasyRedeems in
  let easyDeposits := mainnetEasyDeposits tokenFrom in
  let easyDepositETH := mainnetEasyDepositETH in
  let chk := checkEasyArgs this args zapBridge
               easyDeposits easyRedeems easyDepositETH in
  match isEasy chk, txn chk with
  | true, Some t => t
  | _, _ =>
    let sl := BridgeUtils.getSlippages U amountFrom amountTo in
    let liquidityAmounts :=
      map (fun t => if isEqual tokenFrom t then amountFrom else 0)
          (BridgeTokenArgs.fromChainTokens tokenArgs) in
    if bool_decide (id tokenTo = id (Tokens.NUSD T)) then
      if negb (isEqual tokenFrom (Tokens.NUSD T)) then
        populate (mkCall zapBridge zapAndDeposit
          [AString addressTo; ANumber chainIdTo;
           AString (address (Tokens.NUSD T) (chainId this));
           AArray liquidityAmounts;
           ABigNumber (BridgeUtils.minToSwapDest sl);
           ABigNumber (BridgeUtils.transactionDeadline sl)]
          None)
      else
        (* break: the function returns undefined, and the caller's
           newTxn.then throws *)
        throw TypeError
    else if BridgeUtils.isETHLikeToken U tokenTo
            || isEqual tokenTo (Tokens.WETH T) then
      populate (mkCall zapBridge depositETHAndSwap
        (BridgeUtils.depositETHParams U (castArgs chk)
         ++ [ANumber 0;
             ANumber (BridgeTokenArgs.tokenIndexTo tokenArgs);
             ABigNumber (BridgeUtils.minToSwapDestFromOrigin sl);
             ABigNumber (BridgeUtils.bridgeTransactionDeadline sl)])
        (Some amountFrom))
    else
      populate (mkCall zapBridge zapAndDepositAndSwap
        [AString addressTo; ANumber chainIdTo;
         AString (address (Tokens.NUSD T) (chainId this));
         AArray liquidityAmounts;
         ABigNumber (BridgeUtils.minToSwapOriginMediumSlippage sl);
         ABigNumber (BridgeUtils.transactionDeadline sl);
         ANumber 0;
         ANumber (BridgeTokenArgs.tokenIndexTo tokenArgs);
         ABigNumber (BridgeUtils.minToSwapDestFromOriginMediumSlippage sl);
         ABigNumber (BridgeUtils.bridgeTransactionDeadline sl)]
        None)
  end.

(** One round of the [DepositIfChainTokens.forEach] callback, on the
    triple (easyDeposits, easyRedeems, easyDepositETH). *)
Definition addDepositIfChain (this : SynapseBridge)
    (sets : list ID * list ID * list ID)
    (a : BridgeUtils.DepositIfChainArgs) : list ID * list ID * list ID :=
  let '(easyDeposits, easyRedeems, easyDepositETH) := sets in
  let tokenHashes := map id (BridgeUtils.tokens a) in
  if chainId this =? BridgeUtils.chainId a then
    if BridgeUtils.depositEth a
    then (easyDeposits, easyRedeems, easyDepositETH ++ tokenHashes)
    else (easyDeposits ++ tokenHashes, easyRedeems, easyDepositETH)
  else
    match BridgeUtils.altChainId a with
    | Some altChainId =>
        if chainId this =? altChainId
        then (easyDeposits, easyRedeems ++ tokenHashes, easyDepositETH)
        else sets
    | None => (easyDeposits, easyRedeems ++ tokenHashes, easyDepositETH)
    end.

(** The membership sets of the L2 gate:
    (easyDeposits, easyRedeems, easyDepositETH). *)
Definition l2EasySets (this : SynapseBridge) (tokenFrom : Token)
    : list ID * list ID * list ID :=
  let easyDeposits : list ID := [] in
  let easyRedeems : list ID :=
    [id (Tokens.SYN T); id (Tokens.HIGH T); id (Tokens.DOG T);
     id (Tokens.FRAX T)]
    ++ (if isEqual tokenFrom (Tokens.NUSD T) then [id (Tokens.NUSD T)]
        else []) in
  let easyDepositETH : list ID := [] in
  fold_left (addDepositIfChain this)
    (BridgeUtils.DepositIfChainTokens U)
    (easyDeposits, easyRedeems, easyDepositETH).

Definition buildL2BridgeTxn (this : SynapseBridge)
    (args : BridgeTransactionParams.t) (tokenArgs : BridgeTokenArgs.t)
    : Promise PopulatedTransaction :=
  let chainIdTo := BridgeTransactionParams.chainIdTo args in
  let amountFrom := BridgeTransactionParams.amountFrom args in
  let amountTo := BridgeTransactionParams.amountTo args in
  let tokenFrom := BridgeTransactionParams.tokenFrom args in
  let tokenTo := BridgeTransactionParams.tokenTo args in
  let zapBridge := L2BridgeZap in
  let tokenArgs :=
    BridgeTokenArgs.withTokenFrom tokenArgs
      (if isEqual (BridgeTokenArgs.tokenFrom tokenArgs) (Tokens.AVWETH T)
       then Tokens.WETH_E T
       else BridgeTokenArgs.tokenFrom tokenArgs) in
  let '(easyDeposits, easyRedeems, easyDepositETH) :=
    l2EasySets this tokenFrom in
  let chk := checkEasyArgs this args zapBridge
               easyDeposits easyRedeems easyDepositETH in
  match isEasy chk, txn chk with
  | true, Some t => t
  | _, _ =>
    let castArgs := castArgs chk in
    let sl := BridgeUtils.getSlippages U amountFrom amountTo in
    let tokenIndexFrom := BridgeTokenArgs.tokenIndexFrom tokenArgs in
    let tokenIndexTo := BridgeTokenArgs.tokenIndexTo tokenArgs in
    let easyRedeemAndSwap (baseToken : Token) :=
      populate (mkCall zapBridge redeemAndSwap
        (BridgeUtils.makeEasyParams castArgs (chainId this) baseToken
         ++ [ANumber 0; ANumber tokenIndexTo;
             ABigNumber (BridgeUtils.minToSwapDest sl);
             ABigNumber (BridgeUtils.transactionDeadline sl)])
        None) in
    let easySwapAndRedeemAndSwap (baseToken : Token)
        (withValueOverride : bool) :=
      populate (mkCall zapBridge swapAndRedeemAndSwap
        (BridgeUtils.makeEasySubParams castArgs (chainId this) baseToken
         ++ [ANumber tokenIndexFrom; ANumber 0; ABigNumber amountFrom;
             ABigNumber (BridgeUtils.minToSwapOriginHighSlippage sl);
             ABigNumber (BridgeUtils.transactionDeadline sl);
             ANumber 0; ANumber tokenIndexTo;
             ABigNumber (BridgeUtils.minToSwapDestFromOriginHighSlippage sl);
             ABigNumber (BridgeUtils.bridgeTransactionDeadline sl)])
        (BridgeUtils.makeOverrides amountFrom withValueOverride)) in
    if bool_decide (id tokenTo = id (Tokens.NUSD T)) then
      populate (mkCall zapBridge swapAndRedeem
        (BridgeUtils.makeEasySubParams castArgs (chainId this)
           (Tokens.NUSD T)
         ++ [ANumber tokenIndexFrom; ANumber 0; ABigNumber amountFrom;
             ABigNumber (BridgeUtils.minToSwapOriginHighSlippage sl);
             ABigNumber (BridgeUtils.transactionDeadline sl)])
        None)
    else if bool_decide (id tokenTo = id (Tokens.GMX T)) then
      let params :=
        BridgeUtils.makeEasyParams castArgs (chainId this) (Tokens.GMX T) in
      if chainId this =? ChainId.ARBITRUM C then
        populate (mkCall zapBridge deposit params None)
      else
        populate (mkCall SynapseBridgeContract redeem
          [AString (BridgeUtils.addressTo castArgs);
           ANumber (BridgeUtils.chainIdTo castArgs);
           AString (wrapperAddress (Tokens.GMX T) (chainId this));
           ABigNumber (BridgeUtils.amountFrom castArgs)]
          None)
    else if chainIdTo =? ChainId.ETH C then
      if isL2ETHChain this then
        if isEqual tokenFrom (Tokens.NETH T) then
          populate (mkCall zapBridge redeem
            (BridgeUtils.makeEasyParams castArgs (chainId this)
               (Tokens.NETH T))
            None)
        else if BridgeUtils.isETHLikeToken U tokenFrom then
          populate (mkCall zapBridge swapAndRedeem
            (BridgeUtils.makeEasySubParams castArgs (chainId this)
               (Tokens.NETH T)
             ++ [ANumber tokenIndexFrom; ANumber 0; ABigNumber amountFrom;
                 ABigNumber (BridgeUtils.minToSwapOriginHighSlippage sl);
                 ABigNumber (BridgeUtils.transactionDeadline sl)])
            None)
        else
          populate (mkCall zapBridge swapETHAndRedeem
            (BridgeUtils.makeEasySubParams castArgs (chainId this)
               (Tokens.NETH T)
             ++ [ANumber tokenIndexFrom; ANumber 0; ABigNumber amountFrom;
                 ABigNumber (BridgeUtils.minToSwapOriginHighSlippage sl);
                 ABigNumber (BridgeUtils.transactionDeadline sl)])
            (Some amountFrom))
      else if isEqual tokenFrom (Tokens.NUSD T) then
        populate (mkCall zapBridge redeemAndRemove
          (BridgeUtils.makeEasySubParams castArgs (chainId this)
             (Tokens.NUSD T)
           ++ [ABigNumber amountFrom; ANumber tokenIndexTo;
               ABigNumber (BridgeUtils.minToSwapDest sl);
               ABigNumber (BridgeUtils.transactionDeadline sl)])
          None)
      else
        populate (mkCall zapBridge swapAndRedeemAndRemove
          (BridgeUtils.makeEasySubParams castArgs (chainId this)
             (Tokens.NUSD T)
           ++ [ANumber tokenIndexFrom; ANumber 0; ABigNumber amountFrom;
               ABigNumber (BridgeUtils.minToSwapOriginHighSlippage sl);
               ABigNumber (BridgeUtils.transactionDeadline sl);
               ANumber tokenIndexTo;
               ABigNumber
                 (BridgeUtils.minToSwapDestFromOriginHighSlippage sl);
               ABigNumber (BridgeUtils.bridgeTransactionDeadline sl)])
          None)
    else
      if isEqual tokenFrom (Tokens.NUSD T) then
        easyRedeemAndSwap (Tokens.NUSD T)
      else if isEqual tokenFrom (Tokens.NETH T) then
        easyRedeemAndSwap (Tokens.NETH T)
      else if bool_decide (swapType tokenFrom = SwapType_ETH) then
        if BridgeUtils.isETHLikeToken U tokenFrom then
          easySwapAndRedeemAndSwap (Tokens.NETH T) false
        else
          populate (mkCall zapBridge swapETHAndRedeemAndSwap
            (BridgeUtils.makeEasySubParams castArgs (chainId this)
               (Tokens.NETH T)
             ++ [ANumber tokenIndexFrom; ANumber 0; ABigNumber amountFrom;
                 ABigNumber (BridgeUtils.minToSwapOriginHighSlippage sl);
                 ABigNumber (BridgeUtils.transactionDeadline sl);
                 ANumber 0; ANumber tokenIndexTo;
                 ABigNumber
                   (BridgeUtils.minToSwapDestFromOriginHighSlippage sl);
                 ABigNumber (BridgeUtils.bridgeTransactionDeadline sl)])
            (Some amountFrom))
      else
        easySwapAndRedeemAndSwap (Tokens.NUSD T) false
  end.

(** [(!addressTo) || addressTo === <empty string>] *)
Definition addressIsEmpty (addressTo : option string) : bool :=
  match addressTo with
  | None => true
  | Some s => bool_decide (s = EmptyString)
  end.

Definition buildBridgeTokenTransaction (this : SynapseBridge)
    (args : BridgeTransactionParams.t) : Promise PopulatedTransaction :=
  let addressTo := BridgeTransactionParams.addressTo args in
  await tokenArgs <-
    lift (makeBridgeTokenArgs this
            (BridgeTransactionParams.asBridgeParams args));
  let tokenFrom := BridgeTokenArgs.tokenFrom tokenArgs in
  let tokenTo := BridgeTokenArgs.tokenTo tokenArgs in
  if addressIsEmpty addressTo then throw EmptyDestinationAddress
  else
    let args := BridgeTransactionParams.withTokens args tokenFrom tokenTo in
    await txn <-
      (if chainId this =? ChainId.ETH C
       then buildETHMainnetBridgeTxn this args tokenArgs
       else buildL2BridgeTxn this args tokenArgs);
    ret (GasUtils.populateGasParams (gasUtils sdk)
           (chainId this) txn "bridge").

(** *** Execution *)

(** Modelled from the spec: [ERC20.balanceOf] is not part of the sources at
    hand. Design document 1 and 7: balances are read by an external
    collaborator for a pre-flight check; here it is the read-only
    [balanceOf] query for the token contract at [tokenAddress]. *)
Definition ERC20_balanceOf (owner : string) (tokenAddress : option string)
    (chain : Z) : Promise Z :=
  await r <- request (balanceOf owner tokenAddress chain);
  ret (Z.of_N r).

(** Modelled from the spec: [ERC20.allowanceOf] is not part of the sources
    at hand; as [ERC20_balanceOf], for the allowance granted to
    [spender]. *)
Definition ERC20_allowanceOf (owner spender : string)
    (tokenAddress : option string) (chain : Z) : Promise Z :=
  await r <- request (allowanceOf owner spender tokenAddress chain);
  ret (Z.of_N r).

(** For a [Token] instance; the result is [({spender, amount},
    tokenAddr)]. *)
Definition buildERC20ApproveArgs (this : SynapseBridge) (token : Token)
    (amount : Z) : (string * Z) * option string :=
  ((zapBridgeAddress this, amount), address token (chainId this)).

Definition checkNeedsApprove (this : SynapseBridge)
    (p : CheckCanBridgeParams.t) : Promise (bool * Z) :=
  let '((spender, _), tokenAddress) :=
    buildERC20ApproveArgs this (CheckCanBridgeParams.token p)
      (CheckCanBridgeParams.amount p) in
  await allowance <-
    ERC20_allowanceOf (CheckCanBridgeParams.address p) spender
      tokenAddress (chainId this);
  ret (allowance <? CheckCanBridgeParams.amount p, allowance).

Definition checkHasBalance (this : SynapseBridge)
    (p : CheckCanBridgeParams.t) : Promise (bool * Z) :=
  let '(_, tokenAddress) :=
    buildERC20ApproveArgs this (CheckCanBridgeParams.token p)
      (CheckCanBridgeParams.amount p) in
  await balance <-
    ERC20_balanceOf (CheckCanBridgeParams.address p) tokenAddress
      (chainId this);
  ret (CheckCanBridgeParams.amount p <=? balance, balance).

Definition checkCanBridge (this : SynapseBridge)
    (p : CheckCanBridgeParams.t) : Promise CanBridgeResult :=
  let token := CheckCanBridgeParams.token p in
  await hasBalanceRes <-
    start (await balanceRes <- checkHasBalance this p;
           let '(hasBalance, balance) := balanceRes in
           if negb hasBalance then
             ret (CannotBridge
                    (InsufficientBalance (symbol token) balance
                       (decimals token (chainId this))))
           else ret CanBridge);
  await approveRes <- checkNeedsApprove this p;
  let '(needsApprove, allowance) := approveRes in
  if needsApprove then
    ret (CannotBridge
           (InsufficientAllowance (symbol token) allowance
              (decimals token (chainId this))))
  else lift hasBalanceRes.

Definition signer_getAddress (signer : Signer.t) : Promise string :=
  ([getAddress],
   match Signer.address signer with
   | Some a => Resolved a
   | None => Rejected (CallException getAddress)
   end).

Definition executeBridgeTokenTransaction (this : SynapseBridge)
    (args : BridgeTransactionParams.t) (signer : Signer.t)
    : Promise ContractTransaction :=
  await _ok <-
    checkSwapSupported this (BridgeTransactionParams.asBridgeParams args);
  let tokenFrom := BridgeTransactionParams.tokenFrom args in
  let amountFrom := BridgeTransactionParams.amountFrom args in
  let addressTo := BridgeTransactionParams.addressTo args in
  await signerAddress <- signer_getAddress signer;
  let args :=
    BridgeTransactionParams.withAddressTo args
      (Some (default signerAddress addressTo)) in
  await canBridgeRes <-
    checkCanBridge this
      {| CheckCanBridgeParams.address := signerAddress;
         CheckCanBridgeParams.token := tokenFrom;
         CheckCanBridgeParams.amount := amountFrom |};
  match canBridgeRes with
  | CannotBridge err => throw err
  | CanBridge =>
      let txnProm := buildBridgeTokenTransaction this args in
      CommonUtils.executePopulatedTransaction (commonUtils sdk)
        txnProm signer
  end.

(** *** The constructor by chain id, and the allowance read *)

(** The constructor for either form of its [network] argument: a chain id
    goes through [Networks.fromChainId], and reading [chainId] off the
    [null] it returns for an unknown id throws. *)
Definition new_SynapseBridge_of (net : Networks.Network + Z)
    : Outcome SynapseBridge :=
  match net with
  | inl n => Resolved (new_SynapseBridge n)
  | inr c =>
      match Networks.fromChainId C
              (SwapPools.getAllSwappableTokensForNetwork (pools sdk)) c with
      | Some n => Resolved (new_SynapseBridge n)
      | None => Rejected TypeError
      end
  end.

Definition getAllowanceForAddress (this : SynapseBridge)
    (owner : string) (token : Token) : Promise Z :=
  let tokenAddress := address token (chainId this) in
  ERC20_allowanceOf owner (zapBridgeAddress this) tokenAddress
    (chainId this).

End WithSDK.
End Bridge.

(** ** Vocabulary of the statements *)

(** The fee query [calculateBridgeRate] sends for a request whose tokens
    resolved to [targs] and whose amount is [a]. *)
Definition bridgeFeeQuery (sdk : SDK) (this : Bridge.SynapseBridge)
    (args : Bridge.BridgeParams.t) (targs : Bridge.BridgeTokenArgs.t)
    (a : Z) : Call :=
  let chainIdTo := Bridge.BridgeParams.chainIdTo args in
  let tokenFrom := Bridge.BridgeTokenArgs.tokenFrom targs in
  let its := TokenSwap.intermediateTokens (tokenSwap sdk)
               chainIdTo tokenFrom in
  calculateSwapFee
    (address (TokenSwap.bridgeConfigIntermediateToken its) chainIdTo)
    chainIdTo
    (a * 10 ^ (18 - decimals tokenFrom (Bridge.chainId this))).

(** Mint/burn or wrapped: the tokens whose amount crosses a leg
    unchanged. *)
Definition mintBurnOrWrapped (sdk : SDK) (t : Token) : bool :=
  Tokens.isMintBurnToken (catalogue sdk) t || isWrappedToken t.

(** The same SDK with another [TokenSwap.bridgeSwapSupported]. *)
Definition withBridgeSwapSupported (s : SDK)
    (f : Token -> Token -> Z -> Z -> TokenSwap.SwapSupportedResult) : SDK :=
  {| chainIds := chainIds s; catalogue := catalogue s; pools := pools s;
     tokenSwap :=
       {| TokenSwap.bridgeSwapSupported := f;
          TokenSwap.intermediateTokens :=
            TokenSwap.intermediateTokens (tokenSwap s) |};
     utils := utils s; gasUtils := gasUtils s;
     commonUtils := commonUtils s; entities := entities s |}.

(** The gate of [buildL2BridgeTxn]: [checkEasyArgs] on the L2 membership
    sets. *)
Definition l2EasyCheck (sdk : SDK) (this : Bridge.SynapseBridge)
    (args : Bridge.BridgeTransactionParams.t) : Bridge.EasyArgsCheck :=
  let '(easyDeposits, easyRedeems, easyDepositETH) :=
    Bridge.l2EasySets sdk this
      (Bridge.BridgeTransactionParams.tokenFrom args) in
  Bridge.checkEasyArgs sdk this args L2BridgeZap
    easyDeposits easyRedeems easyDepositETH.

(** The gate of [buildETHMainnetBridgeTxn]. *)
Definition mainnetEasyCheck (sdk : SDK) (this : Bridge.SynapseBridge)
    (args : Bridge.BridgeTransactionParams.t) : Bridge.EasyArgsCheck :=
  Bridge.checkEasyArgs sdk this args L1BridgeZap
    (Bridge.mainnetEasyDeposits sdk
       (Bridge.BridgeTransactionParams.tokenFrom args))
    (Bridge.mainnetEasyRedeems sdk)
    (Bridge.mainnetEasyDepositETH sdk).

(** The ids of all tokens listed in [BridgeUtils.DepositIfChainTokens]. *)
Definition depositIfChainTokenIds (sdk : SDK) : list ID :=
  flat_map (fun a => map id (BridgeUtils.tokens a))
    (BridgeUtils.DepositIfChainTokens (utils sdk)).

(** The argument list shared by [swapAndRedeem] and [swapETHAndRedeem]. *)
Definition swapAndRedeemArgs (sdk : SDK) (this : Bridge.SynapseBridge)
    (args : Bridge.BridgeTransactionParams.t)
    (targs : Bridge.BridgeTokenArgs.t) (baseToken : Token) : list Arg :=
  let sl := BridgeUtils.getSlippages (utils sdk)
              (Bridge.BridgeTransactionParams.amountFrom args)
              (Bridge.BridgeTransactionParams.amountTo args) in
  [AString (Bridge.BridgeTransactionParams.addressTo args);
   ANumber (Bridge.BridgeTransactionParams.chainIdTo args);
   AString (address baseToken (Bridge.chainId this));
   ANumber (Bridge.BridgeTokenArgs.tokenIndexFrom targs);
   ANumber 0;
   ABigNumber (Bridge.BridgeTransactionParams.amountFrom args);
   ABigNumber (BridgeUtils.minToSwapOriginHighSlippage sl);
   ABigNumber (BridgeUtils.transactionDeadline sl)].

(** The argument list of the single-step shapes [redeem] and [deposit]. *)
Definition directArgs (this : Bridge.SynapseBridge)
    (args : Bridge.BridgeTransactionParams.t) (tok : Token) : list Arg :=
  [AString (Bridge.BridgeTransactionParams.addressTo args);
   ANumber (Bridge.BridgeTransactionParams.chainIdTo args);
   AString (address tok (Bridge.chainId this));
   ABigNumber (Bridge.BridgeTransactionParams.amountFrom args)].

(** The shapes that send the amount as native value. *)
Definition carriesNativeValue (m : Method) : bool :=
  match m with
  | depositETH | depositETHAndSwap | swapETHAndRedeem
  | swapETHAndRedeemAndSwap => true
  | _ => false
  end.

(** The native value of an encoded shape for the amount [amount]: the amount
    itself for the four native-value shapes; for [swapAndRedeemAndSwap],
    whatever [makeOverrides] makes of the amount and the literal [false] the
    code passes; nothing for every other shape. *)
Definition shapeValue (m : Method) (amount : Z) : option Z :=
  if carriesNativeValue m then Some amount
  else match m with
       | swapAndRedeemAndSwap => BridgeUtils.makeOverrides amount false
       | _ => None
       end.

(** The keys of [REQUIRED_CONFS]. *)
Definition confirmationChains (cid : ChainId.t) : list Z :=
  [ChainId.ETH cid; ChainId.OPTIMISM cid; ChainId.BSC cid;
   ChainId.POLYGON cid; ChainId.FANTOM cid; ChainId.BOBA cid;
   ChainId.MOONBEAM cid; ChainId.MOONRIVER cid; ChainId.ARBITRUM cid;
   ChainId.AVALANCHE cid; ChainId.HARMONY cid].

(** The keys of [CHAINID_NETWORK_MAP]. *)
Definition networkChains (cid : ChainId.t) : list Z :=
  [ChainId.ETH cid; ChainId.BSC cid; ChainId.POLYGON cid;
   ChainId.FANTOM cid; ChainId.BOBA cid; ChainId.MOONRIVER cid;
   ChainId.ARBITRUM cid; ChainId.AVALANCHE cid; ChainId.HARMONY cid].

(** The origin-side and destination-side pool queries of an estimate
    between two peripheral chains. *)
Definition originSwapQuery (sdk : SDK) (this : Bridge.SynapseBridge)
    (args : Bridge.BridgeParams.t) (targs : Bridge.BridgeTokenArgs.t)
    (a : Z) : Call :=
  let its := TokenSwap.intermediateTokens (tokenSwap sdk)
               (Bridge.BridgeParams.chainIdTo args)
               (Bridge.BridgeTokenArgs.tokenFrom targs) in
  calculateSwap (Bridge.chainId this)
    (address (TokenSwap.intermediateToken its) (Bridge.chainId this))
    (Bridge.BridgeTokenArgs.tokenIndexFrom targs) 0 a.

Definition destSwapQuery (sdk : SDK)
    (args : Bridge.BridgeParams.t) (targs : Bridge.BridgeTokenArgs.t)
    (net : Z) : Call :=
  let chainIdTo := Bridge.BridgeParams.chainIdTo args in
  let its := TokenSwap.intermediateTokens (tokenSwap sdk) chainIdTo
               (Bridge.BridgeTokenArgs.tokenFrom targs) in
  calculateSwap chainIdTo
    (address (TokenSwap.intermediateToken its) chainIdTo)
    0 (Bridge.BridgeTokenArgs.tokenIndexTo targs) net.

(** The bare native-gas token and its wrapped pool form that
    [makeBridgeTokenArgs] exchanges for a source token of swap type [st]. *)
Definition nativeFamily (sdk : SDK) (st : SwapType)
    : option (Token * Token) :=
  match st with
  | SwapType_ETH =>
      Some (Tokens.ETH (catalogue sdk), Tokens.WETH (catalogue sdk))
  | SwapType_AVAX =>
      Some (Tokens.AVAX (catalogue sdk), Tokens.WAVAX (catalogue sdk))
  | SwapType_MOVR =>
      Some (Tokens.MOVR (catalogue sdk), Tokens.WMOVR (catalogue sdk))
  | SwapType_other _ => None
  end.

Definition isFeeQuery (c : Call) : bool :=
  match c with
  | calculateSwapFee _ _ _ => true
  | _ => false
  end.

(** The composite shapes of the mainnet zap, those of the L2 zap, and among
    the latter the ones that end with a liquidity removal and the ones that
    end with a pool swap on the destination chain. *)
Definition isMainnetComposite (m : Method) : bool :=
  match m with
  | zapAndDeposit | depositETHAndSwap | zapAndDepositAndSwap => true
  | _ => false
  end.

Definition isL2Composite (m : Method) : bool :=
  match m with
  | redeemAndSwap | swapAndRedeemAndSwap | swapETHAndRedeemAndSwap
  | swapAndRedeem | swapETHAndRedeem
  | redeemAndRemove | swapAndRedeemAndRemove => true
  | _ => false
  end.

Definition isRemoveShape (m : Method) : bool :=
  match m with
  | redeemAndRemove | swapAndRedeemAndRemove => true
  | _ => false
  end.

Definition isDestSwapShapeL2 (m : Method) : bool :=
  match m with
  | redeemAndSwap | swapAndRedeemAndSwap | swapETHAndRedeemAndSwap => true
  | _ => false
  end.

(** The two reads of the pre-flight check of a transfer of [amount] of
    [token] by [owner]. *)
Definition balanceRead (this : Bridge.SynapseBridge) (owner : string)
    (token : Token) : Call :=
  balanceOf owner (address token (Bridge.chainId this))
    (Bridge.chainId this).

Definition allowanceRead (this : Bridge.SynapseBridge) (owner : string)
    (token : Token) : Call :=
  allowanceOf owner (Bridge.zapBridgeAddress this)
    (address token (Bridge.chainId this)) (Bridge.chainId this).


(** An entry of [DepositIfChainTokens] is a deposit entry for this bridge
    when it is for this bridge's chain ([eth] telling a native-value deposit
    from a plain one), and a redeem entry when it is for another chain and
    either names no alternative chain or names this one. *)
Definition depositsHere (this : Bridge.SynapseBridge) (eth : bool)
    (a : BridgeUtils.DepositIfChainArgs) : Prop :=
  Bridge.chainId this = BridgeUtils.chainId a
  /\ BridgeUtils.depositEth a = eth.

Definition redeemsHere (this : Bridge.SynapseBridge)
    (a : BridgeUtils.DepositIfChainArgs) : Prop :=
  Bridge.chainId this <> BridgeUtils.chainId a
  /\ (BridgeUtils.altChainId a = None
      \/ BridgeUtils.altChainId a = Some (Bridge.chainId this)).

(** The shape [buildL2BridgeTxn] selects between two peripheral chains, read
    as a table of the source token. *)
Definition peripheralShape (sdk : SDK) (tokenFrom : Token) (amountFrom : Z)
    : Method * option Z :=
  if isEqual tokenFrom (Tokens.NUSD (catalogue sdk))
     || isEqual tokenFrom (Tokens.NETH (catalogue sdk))
  then (redeemAndSwap, None)
  else if bool_decide (swapType tokenFrom = SwapType_ETH)
          && negb (BridgeUtils.isETHLikeToken (utils sdk) tokenFrom)
  then (swapETHAndRedeemAndSwap, Some amountFrom)
  else (swapAndRedeemAndSwap, BridgeUtils.makeOverrides amountFrom false).





(** ** A reference deployment

    Concrete values for the imported modules, in the shape of the deployed
    SDK, on which the general statements are instantiated. *)

Module Demo.

Definition chains : ChainId.t :=
  {| ChainId.ETH := 1; ChainId.OPTIMISM := 10; ChainId.BSC := 56;
     ChainId.POLYGON := 137; ChainId.FANTOM := 250; ChainId.BOBA := 288;
     ChainId.MOONBEAM := 1284; ChainId.MOONRIVER := 1285;
     ChainId.ARBITRUM := 42161; ChainId.AVALANCHE := 43114;
     ChainId.HARMONY := 1666600000 |}.

(** A base token deployed at [addr] on the chains [on]. *)
Definition baseToken (i : ID) (sym : string) (st : SwapType)
    (on : list Z) (addr : string) (dec : Z) : Token :=
  {| id := i; symbol := sym; swapType := st; underlyingToken := None;
     address := fun c => if includes on c then Some addr else None;
     wrapperAddress := fun _ => None;
     decimals := fun _ => dec |}.

Definition wrappedToken (i : ID) (sym : string) (st : SwapType)
    (on : list Z) (addr : string) (dec : Z) (u : Token) : Token :=
  {| id := i; symbol := sym; swapType := st; underlyingToken := Some u;
     address := fun c => if includes on c then Some addr else None;
     wrapperAddress := fun _ => None;
     decimals := fun _ => dec |}.

Definition USD : SwapType := SwapType_other "USD".

Definition allChains : list Z :=
  [1; 10; 56; 137; 250; 288; 1284; 1285; 42161; 43114; 1666600000].

Definition NUSD   := baseToken 1%N "nUSD" USD allChains "0xnUSD" 18.
Definition SYN    := baseToken 2%N "SYN" (SwapType_other "SYN") allChains "0xSYN" 18.
Definition HIGH   := baseToken 3%N "HIGH" (SwapType_other "HIGH") [1; 56] "0xHIGH" 18.
Definition DOG    := baseToken 4%N "DOG" (SwapType_other "DOG") [1; 56; 137] "0xDOG" 18.
Definition FRAX   := baseToken 5%N "FRAX" (SwapType_other "FRAX") [1; 1285; 1666600000] "0xFRAX" 18.
Definition NETH   := baseToken 6%N "nETH" SwapType_ETH [288; 42161; 43114; 10] "0xnETH" 18.
Definition GMX    :=
  {| id := 7%N; symbol := "GMX"; swapType := SwapType_other "GMX";
     underlyingToken := None;
     address := fun c => if includes [42161; 43114] c then Some "0xGMX" else None;
     wrapperAddress := fun c => if c =? 43114 then Some "0xGMXwrapper" else None;
     decimals := fun _ => 18 |}.
Definition ETH    := baseToken 8%N "ETH" SwapType_ETH [1; 288; 42161; 10] EmptyString 18.
Definition WETH   := baseToken 9%N "WETH" SwapType_ETH [1; 288; 42161; 10] "0xWETH" 18.
Definition WETH_E := baseToken 10%N "WETH.e" SwapType_ETH [43114] "0xWETHe" 18.
Definition AVWETH := baseToken 11%N "AVWETH" SwapType_ETH [43114] "0xAVWETH" 18.
Definition AVAX   := baseToken 12%N "AVAX" SwapType_AVAX [43114] EmptyString 18.
Definition WAVAX  := wrappedToken 13%N "wAVAX" SwapType_AVAX [43114; 1284] "0xwAVAX" 18 AVAX.
Definition MOVR   := baseToken 14%N "MOVR" SwapType_MOVR [1285] EmptyString 18.
Definition WMOVR  := wrappedToken 15%N "wMOVR" SwapType_MOVR [1285; 1284] "0xwMOVR" 18 MOVR.
Definition DAI    := baseToken 16%N "DAI" USD [1; 56; 137; 42161; 43114] "0xDAI" 18.
Definition USDC   := baseToken 17%N "USDC" USD allChains "0xUSDC" 6.
Definition USDT   := baseToken 18%N "USDT" USD allChains "0xUSDT" 6.

Definition tokenCatalogue : Tokens.t :=
  {| Tokens.NUSD := NUSD; Tokens.SYN := SYN; Tokens.HIGH := HIGH;
     Tokens.DOG := DOG; Tokens.FRAX := FRAX; Tokens.NETH := NETH;
     Tokens.GMX := GMX; Tokens.ETH := ETH; Tokens.WETH := WETH;
     Tokens.WETH_E := WETH_E; Tokens.AVWETH := AVWETH;
     Tokens.AVAX := AVAX; Tokens.WAVAX := WAVAX;
     Tokens.MOVR := MOVR; Tokens.WMOVR := WMOVR;
     Tokens.isMintBurnToken := fun t =>
       includes (map id [NUSD; SYN; NETH; HIGH; DOG; FRAX; GMX]) (id t) |}.

Definition poolTokens (c : Z) (st : SwapType) : option (list Token) :=
  match st with
  | SwapType_ETH =>
      if c =? 1 then Some [WETH]
      else if includes [288; 42161; 10] c then Some [NETH; WETH]
      else if c =? 43114 then Some [NETH; AVWETH]
      else None
  | SwapType_AVAX =>
      if includes [43114; 1284] c then Some [WAVAX] else None
  | SwapType_MOVR =>
      if includes [1285; 1284] c then Some [WMOVR] else None
  | SwapType_other "USD" =>
      if c =? 1 then Some [DAI; USDC; USDT]
      else if includes [56; 137; 42161; 43114] c
      then Some [NUSD; DAI; USDC; USDT]
      else None
  | SwapType_other "SYN" => if includes allChains c then Some [SYN] else None
  | SwapType_other _ => None
  end.

Definition swapPools : SwapPools.t :=
  {| SwapPools.bridgeSwappableTypePoolsByChain := poolTokens;
     SwapPools.getAllSwappableTokensForNetwork := fun c =>
       default [] (poolTokens c USD) ++ default [] (poolTokens c SwapType_ETH) |}.

Definition swapRules : TokenSwap.t :=
  {| TokenSwap.bridgeSwapSupported := fun tokenFrom tokenTo chainIdTo chainIdFrom =>
       if negb (bool_decide (swapType tokenFrom = swapType tokenTo)) then
         {| TokenSwap.swapSupported := false;
            TokenSwap.reasonNotSupported := Some "Token swap types do not match" |}
       else if negb (includes allChains chainIdTo) then
         {| TokenSwap.swapSupported := false;
            TokenSwap.reasonNotSupported := Some "Unsupported destination chain" |}
       else
         {| TokenSwap.swapSupported := true;
            TokenSwap.reasonNotSupported := None |};
     TokenSwap.intermediateTokens := fun chainIdTo tokenFrom =>
       if bool_decide (swapType tokenFrom = SwapType_ETH)
       then {| TokenSwap.intermediateToken := NETH;
               TokenSwap.bridgeConfigIntermediateToken :=
                 if chainIdTo =? 1 then WETH else NETH |}
       else {| TokenSwap.intermediateToken := NUSD;
               TokenSwap.bridgeConfigIntermediateToken := NUSD |} |}.

Definition bridgeUtils : BridgeUtils.t :=
  {| BridgeUtils.isL2ETHChain := fun c =>
       includes [10; 250; 288; 1284; 42161; 43114; 1666600000] c;
     BridgeUtils.isETHLikeToken := fun t => includes [id WETH_E] (id t);
     BridgeUtils.DepositIfChainTokens :=
       [ {| BridgeUtils.chainId := 43114;
            BridgeUtils.tokens := [AVAX; WAVAX];
            BridgeUtils.depositEth := true;
            BridgeUtils.altChainId := Some 1284 |};
         {| BridgeUtils.chainId := 1285;
            BridgeUtils.tokens := [MOVR; WMOVR];
            BridgeUtils.depositEth := true;
            BridgeUtils.altChainId := Some 1284 |} ];
     BridgeUtils.getSlippages := fun amountFrom amountTo =>
       {| BridgeUtils.transactionDeadline := 1700000600;
          BridgeUtils.bridgeTransactionDeadline := 1700604800;
          BridgeUtils.minToSwapDestFromOrigin := amountTo * 99 / 100;
          BridgeUtils.minToSwapDest := amountTo * 99 / 100;
          BridgeUtils.minToSwapOriginMediumSlippage := amountFrom * 97 / 100;
          BridgeUtils.minToSwapDestFromOriginMediumSlippage := amountTo * 97 / 100;
          BridgeUtils.minToSwapOriginHighSlippage := amountFrom * 90 / 100;
          BridgeUtils.minToSwapDestFromOriginHighSlippage := amountTo * 90 / 100 |};
     BridgeUtils.depositETHParams := fun a =>
       [AString (BridgeUtils.addressTo a); ANumber (BridgeUtils.chainIdTo a);
        ABigNumber (BridgeUtils.amountFrom a)] |}.

Definition gas : GasUtils.t :=
  {| GasUtils.populateGasParams := fun c tx _ =>
       {| target := target tx; method := method tx; args := args tx;
          value := value tx;
          gasPrice := if c =? 1 then None else Some 1000000000;
          gasLimit := Some 200000 |} |}.

(** Sending: the transaction is built first, then handed to the signer. *)
Definition send : CommonUtils.t :=
  {| CommonUtils.executePopulatedTransaction := fun txnProm signer =>
       bind txnProm (fun tx =>
         match Signer.address signer with
         | Some _ => ret {| hash := "0xhash" |}
         | None => throw SendFailed
         end) |}.

Definition synapseEntities : SynapseEntities.t :=
  {| SynapseEntities.zapBridgeAddress := fun c =>
       if c =? 1 then "0xL1BridgeZap" else "0xL2BridgeZap" |}.

Definition sdk : SDK :=
  {| chainIds := chains; catalogue := tokenCatalogue; pools := swapPools;
     tokenSwap := swapRules; utils := bridgeUtils; gasUtils := gas;
     commonUtils := send; entities := synapseEntities |}.

Definition wallet : Signer.t := {| Signer.address := Some "0xabc" |}.

Definition network (nm : string) (c : Z) (cur : string) : Networks.Network :=
  Networks.new_Network
    (SwapPools.getAllSwappableTokensForNetwork swapPools) nm None c cur.

Definition mainnet   : Networks.Network := network "Ethereum Mainnet" 1 "ETH".
Definition arbitrum  : Networks.Network := network "Arbitrum" 42161 "ETH".
Definition avalanche : Networks.Network := network "Avalanche C-Chain" 43114 "AVAX".
Definition bsc       : Networks.Network := network "Binance Smart Chain" 56 "BNB".

(** A chain that answers every fee query with a 0.1% fee and every
    swap-math query with the amount sent. *)
Definition chainUp (c : Call) : option N :=
  match c with
  | calculateSwapFee _ _ amount => Some (Z.to_N (amount / 1000))
  | calculateTokenAmount amounts _ => Some (Z.to_N (foldr Z.add 0 amounts))
  | calculateSwap _ _ _ _ dx => Some (Z.to_N dx)
  | calculateRemoveLiquidityOneToken _ amount _ => Some (Z.to_N amount)
  | populateTransaction _ | getAddress => None
  | balanceOf _ _ _ => Some 5000000%N
  | allowanceOf _ _ _ _ => Some 5000000%N
  end.

(** The same chain with the fee oracle unreachable. *)
Definition feeOracleDown (c : Call) : option N :=
  match c with
  | calculateSwapFee _ _ _ => None
  | _ => chainUp c
  end.

(** Bridges bound to three of the networks. *)
Definition onMainnet   := Bridge.new_SynapseBridge sdk mainnet.
Definition onArbitrum  := Bridge.new_SynapseBridge sdk arbitrum.
Definition onAvalanche := Bridge.new_SynapseBridge sdk avalanche.
Definition onBsc       := Bridge.new_SynapseBridge sdk bsc.

Definition estimateRequest (tf tt : Token) (chainIdTo : Z)
    (amount : Z) : Bridge.BridgeParams.t :=
  {| Bridge.BridgeParams.tokenFrom := tf;
     Bridge.BridgeParams.tokenTo := tt;
     Bridge.BridgeParams.chainIdTo := chainIdTo;
     Bridge.BridgeParams.amountFrom := Some amount |}.

Definition buildRequest (tf tt : Token) (chainIdTo : Z)
    (amountFrom amountTo : Z) (addressTo : option string)
    : Bridge.BridgeTransactionParams.t :=
  {| Bridge.BridgeTransactionParams.tokenFrom := tf;
     Bridge.BridgeTransactionParams.tokenTo := tt;
     Bridge.BridgeTransactionParams.chainIdTo := chainIdTo;
     Bridge.BridgeTransactionParams.amountFrom := amountFrom;
     Bridge.BridgeTransactionParams.amountTo := amountTo;
     Bridge.BridgeTransactionParams.addressTo := addressTo |}.

End Demo.

(** C10: a token whose symbol is "ETH" is supported on the Ethereum, Boba and
    Arbitrum networks whatever the network's token-address list holds; on
    every other network [supportsToken] is exactly the membership of the
    token's address for that chain in the list. *)
Theorem supportsToken_ETH_symbol :
  forall (cid : ChainId.t) (n : Networks.Network) (token : Token),
    symbol token = "ETH" ->
    ((Networks.chainId n = ChainId.ETH cid \/
      Networks.chainId n = ChainId.BOBA cid \/
      Networks.chainId n = ChainId.ARBITRUM cid) ->
       Networks.supportsToken cid n token = true)
    /\
    (~ (Networks.chainId n = ChainId.ETH cid \/
        Networks.chainId n = ChainId.BOBA cid \/
        Networks.chainId n = ChainId.ARBITRUM cid) ->
       Networks.supportsToken cid n token
       = includes (Networks.tokenAddresses n)
                  (address token (Networks.chainId n))).
Proof.
  intros cid n token Hsym.
  unfold Networks.supportsToken, Networks.ETH_TOKEN_CHAINS, includes.
  rewrite (bool_decide_eq_true_2 _ Hsym). cbn [andb].
  split; intros H.
  - rewrite bool_decide_eq_true_2; [reflexivity|].
    rewrite !elem_of_cons. tauto.
  - rewrite bool_decide_eq_false_2; [reflexivity|].
    rewrite !elem_of_cons, elem_of_nil. tauto.
Qed.

(** C10, instantiated: the bare "ETH" token has no contract address, yet
    Arbitrum supports it. *)
Lemma supportsToken_ETH_symbol_witness :
  Networks.supportsToken Demo.chains Demo.arbitrum Demo.ETH = true.
Proof.
  apply (supportsToken_ETH_symbol Demo.chains Demo.arbitrum Demo.ETH).
  - reflexivity.
  - right; right. reflexivity.
Defined.

(** ** Required confirmations *)

Lemma REQUIRED_CONFS_ETH (cid : ChainId.t) :
  ChainId.distinct cid ->
  Bridge.REQUIRED_CONFS cid !! ChainId.ETH cid = Some 7.
Proof.
  unfold ChainId.distinct. intros Hd.
  apply NoDup_cons in Hd as [Hnotin _].
  rewrite !not_elem_of_cons in Hnotin.
  unfold Bridge.REQUIRED_CONFS.
  rewrite !lookup_insert_ne by (intros E; symmetry in E; tauto).
  apply lookup_insert_eq.
Qed.

Lemma REQUIRED_CONFS_absent (cid : ChainId.t) (c : Z) :
  c ∉ [ChainId.ETH cid; ChainId.OPTIMISM cid; ChainId.BSC cid;
       ChainId.POLYGON cid; ChainId.FANTOM cid; ChainId.BOBA cid;
       ChainId.MOONBEAM cid; ChainId.MOONRIVER cid; ChainId.ARBITRUM cid;
       ChainId.AVALANCHE cid; ChainId.HARMONY cid] ->
  Bridge.REQUIRED_CONFS cid !! c = None.
Proof.
  intros Hnotin. rewrite !not_elem_of_cons in Hnotin.
  unfold Bridge.REQUIRED_CONFS.
  rewrite !lookup_insert_ne by (intros E; symmetry in E; tauto).
  apply lookup_empty.
Qed.

(** C9: for the canonical chain (Ethereum mainnet) the required-confirmation
    count is 7, both through [getRequiredConfirmationsForBridge] and as the
    [requiredConfirmations] field of a bridge bound to that chain; for a
    chain id that is not a key of the table the result is the sentinel [-1],
    not a failure. *)
Theorem requiredConfirmations_canonical_and_unknown :
  forall (sdk : SDK),
    ChainId.distinct (chainIds sdk) ->
    Bridge.getRequiredConfirmationsForBridge (chainIds sdk)
      (inr (ChainId.ETH (chainIds sdk))) = 7
    /\ (forall net : Networks.Network,
          Networks.chainId net = ChainId.ETH (chainIds sdk) ->
          Bridge.requiredConfirmations (Bridge.new_SynapseBridge sdk net) = 7)
    /\ (forall c : Z,
          c ∉ [ChainId.ETH (chainIds sdk); ChainId.OPTIMISM (chainIds sdk);
               ChainId.BSC (chainIds sdk); ChainId.POLYGON (chainIds sdk);
               ChainId.FANTOM (chainIds sdk); ChainId.BOBA (chainIds sdk);
               ChainId.MOONBEAM (chainIds sdk);
               ChainId.MOONRIVER (chainIds sdk);
               ChainId.ARBITRUM (chainIds sdk);
               ChainId.AVALANCHE (chainIds sdk);
               ChainId.HARMONY (chainIds sdk)] ->
          Bridge.getRequiredConfirmationsForBridge (chainIds sdk) (inr c)
          = -1).
Proof.
  intros sdk Hd. repeat split.
  - unfold Bridge.getRequiredConfirmationsForBridge.
    now rewrite REQUIRED_CONFS_ETH.
  - intros net Hnet. cbn.
    unfold Bridge.getRequiredConfirmationsForBridge.
    rewrite Hnet. now rewrite REQUIRED_CONFS_ETH.
  - intros c Hc. unfold Bridge.getRequiredConfirmationsForBridge.
    now rewrite REQUIRED_CONFS_absent.
Qed.

(** C9, instantiated on the reference deployment: mainnet needs 7
    confirmations and the unlisted chain 999 yields [-1]. *)
Lemma requiredConfirmations_canonical_and_unknown_witness :
  Bridge.requiredConfirmations (Bridge.new_SynapseBridge Demo.sdk Demo.mainnet)
  = 7
  /\ Bridge.getRequiredConfirmationsForBridge Demo.chains (inr 999) = -1.
Proof.
  assert (Hd : ChainId.distinct (chainIds Demo.sdk)).
  { unfold ChainId.distinct. cbn. apply NoDup_ListNoDup.
    repeat (constructor; [cbn; intuition lia|]). constructor. }
  destruct (requiredConfirmations_canonical_and_unknown Demo.sdk Hd)
    as (_ & Hnet & Habs).
  split.
  - apply Hnet. reflexivity.
  - apply (Habs 999). cbn. rewrite !not_elem_of_cons.
    repeat split; try lia. apply not_elem_of_nil.
Defined.

(** ** [findIndex] *)


Lemma findIndex_lower {A} (p : A -> bool) (l : list A) :
  -1 <= findIndex p l.
Proof.
  induction l as [|x l IH]; cbn; [lia|].
  destruct (p x); [lia|].
  destruct (Z.ltb_spec (findIndex p l) 0); lia.
Qed.

(** When some element satisfies [p], the result is the position of one. *)
Lemma findIndex_found {A} (p : A -> bool) (l : list A) :
  (exists x, x ∈ l /\ p x = true) ->
  0 <= findIndex p l < Z.of_nat (length l)
  /\ exists y, l !! Z.to_nat (findIndex p l) = Some y /\ p y = true.
Proof.
  induction l as [|x l IH]; intros (y & Hin & Hy).
  - now apply elem_of_nil in Hin.
  - cbn [findIndex]. destruct (p x) eqn:Hpx.
    + split; [cbn; lia|]. exists x. now split.
    + apply elem_of_cons in Hin as [->|Hin]; [congruence|].
      destruct IH as (Hr & z & Hz & Hpz); [now exists y|].
      destruct (Z.ltb_spec (findIndex p l) 0) as [Hlt|Hge]; [lia|].
      split; [cbn [length]; lia|].
      exists z. split; [|assumption].
      replace (Z.to_nat (findIndex p l + 1))
        with (S (Z.to_nat (findIndex p l))) by lia.
      exact Hz.
Qed.

(** When no element satisfies [p], the result is [-1]. *)
Lemma findIndex_absent {A} (p : A -> bool) (l : list A) :
  (forall x, x ∈ l -> p x = false) -> findIndex p l = -1.
Proof.
  induction l as [|x l IH]; intros Hall; cbn; [reflexivity|].
  rewrite (Hall x) by apply list_elem_of_here.
  rewrite IH; [reflexivity|].
  intros y Hy. apply Hall. now apply list_elem_of_further.
Qed.

(** ** Pool-index resolution of the wrapped alias *)











(** ** Promises: equations *)

Lemma bind_ret {A B} (a : A) (f : A -> Promise B) : bind (ret a) f = f a.
Proof. unfold bind, ret. now destruct (f a). Qed.

Lemma bind_lift_Resolved {A B} (a : A) (f : A -> Promise B) :
  bind (lift (Resolved a)) f = f a.
Proof. apply bind_ret. Qed.

Lemma bind_lift_Rejected {A B} (e : Error) (f : A -> Promise B) :
  bind (lift (Rejected e)) f = ([], Rejected e).
Proof. reflexivity. Qed.

Lemma bind_throw {A B} (e : Error) (f : A -> Promise B) :
  bind (throw e) f = throw e.
Proof. reflexivity. Qed.

Lemma calls_bind_Rejected {A B} (m : Promise A) (f : A -> Promise B) e :
  outcome m = Rejected e -> calls (bind m f) = calls m.
Proof. destruct m as [l o]. cbn. now intros ->. Qed.

Lemma calls_bind_Resolved {A B} (m : Promise A) (f : A -> Promise B) a :
  outcome m = Resolved a -> calls (bind m f) = calls m ++ calls (f a).
Proof.
  destruct m as [l o]. cbn. intros ->. unfold calls. cbn.
  now destruct (f a).
Qed.

(** ** Output estimation *)

Lemma checkSwapSupported_true sdk this args reason :
  Bridge.swapSupported sdk this args = (true, reason) ->
  Bridge.checkSwapSupported sdk this args = ret true.
Proof. unfold Bridge.checkSwapSupported. now intros ->. Qed.

Lemma checkSwapSupported_false sdk this args reason :
  Bridge.swapSupported sdk this args = (false, reason) ->
  Bridge.checkSwapSupported sdk this args = throw (RouteUnsupported reason).
Proof. unfold Bridge.checkSwapSupported. now intros ->. Qed.

(** An unsupported route is rejected before [calculateBridgeRate] runs. *)
Lemma estimate_unsupported sdk reply this args reason :
  Bridge.swapSupported sdk this args = (false, reason) ->
  Bridge.estimateBridgeTokenOutput sdk reply this args
  = ([], Rejected (RouteUnsupported reason)).
Proof.
  intros H. unfold Bridge.estimateBridgeTokenOutput.
  now rewrite (checkSwapSupported_false _ _ _ _ H).
Qed.

Lemma estimate_supported sdk reply this args reason :
  Bridge.swapSupported sdk this args = (true, reason) ->
  Bridge.estimateBridgeTokenOutput sdk reply this args
  = Bridge.calculateBridgeRate sdk reply this args.
Proof.
  intros H. unfold Bridge.estimateBridgeTokenOutput.
  rewrite (checkSwapSupported_true _ _ _ _ H). now rewrite bind_ret.
Qed.

Lemma subBigNumSafe_max (a b : Z) :
  BridgeUtils.subBigNumSafe a b = Z.max 0 (a - b).
Proof.
  unfold BridgeUtils.subBigNumSafe.
  destruct (Z.ltb_spec (a - b) 0); lia.
Qed.

(** The rate for a zero amount: one fee query, then [{0, fee}]. *)
Lemma calculateBridgeRate_zero sdk reply this args targs fee :
  Bridge.BridgeParams.amountFrom args = Some 0 ->
  Bridge.makeBridgeTokenArgs sdk this args = Resolved targs ->
  decimals (Bridge.BridgeTokenArgs.tokenFrom targs) (Bridge.chainId this)
    <= 18 ->
  reply (bridgeFeeQuery sdk this args targs 0) = Some fee ->
  Bridge.calculateBridgeRate sdk reply this args
  = ([bridgeFeeQuery sdk this args targs 0],
     Resolved (Some {| Bridge.amountToReceive := 0;
                       Bridge.bridgeFee := Z.of_N fee |})).
Proof.
  intros Ha Hres Hdec Hfee.
  unfold Bridge.calculateBridgeRate.
  rewrite Hres, bind_lift_Resolved, Ha, bind_lift_Resolved.
  unfold Bridge.bigNumTen_pow.
  destruct (Z.ltb_spec
              (18 - decimals (Bridge.BridgeTokenArgs.tokenFrom targs)
                      (Bridge.chainId this)) 0) as [Hlt|_]; [lia|].
  rewrite bind_lift_Resolved.
  unfold bridgeFeeQuery in Hfee. cbn zeta in Hfee.
  unfold Bridge.issue. cbn [bind]. rewrite Hfee.
  cbn [Z.eqb]. rewrite bind_ret.
  rewrite subBigNumSafe_max.
  replace (Z.max 0 (0 - Z.of_N fee)) with 0 by lia.
  cbn [Z.eqb]. rewrite bind_ret. reflexivity.
Qed.

(** For a zero amount no path of [calculateBridgeRate] reaches a swap-math
    query, whatever the fee oracle does. *)
Lemma calculateBridgeRate_zero_calls sdk reply this args :
  Bridge.BridgeParams.amountFrom args = Some 0 ->
  forall c, c ∈ calls (Bridge.calculateBridgeRate sdk reply this args) ->
            isSwapMathQuery c = false.
Proof.
  intros Ha c. unfold Bridge.calculateBridgeRate.
  destruct (Bridge.makeBridgeTokenArgs sdk this args) as [targs|e].
  2:{ cbn. intros H. now apply elem_of_nil in H. }
  rewrite bind_lift_Resolved, Ha, bind_lift_Resolved.
  destruct (Bridge.bigNumTen_pow _) as [scale|e].
  2:{ cbn. intros H. now apply elem_of_nil in H. }
  rewrite bind_lift_Resolved.
  unfold Bridge.issue. cbn [bind Z.eqb]. rewrite bind_ret.
  destruct (reply _) as [fee|].
  - rewrite subBigNumSafe_max.
    replace (Z.max 0 (0 - Z.of_N fee)) with 0 by lia.
    cbn [Z.eqb]. rewrite bind_ret. cbn.
    intros H. apply list_elem_of_singleton in H. now subst c.
  - cbn. intros H. apply list_elem_of_singleton in H. now subst c.
Qed.

(** C4: for a request with [amountFrom = 0], the estimate issues no
    swap-math (pool or liquidity) query on any path; and when the route is
    supported, the tokens resolve and the fee query is answered with [fee],
    the estimate is exactly [{amountToReceive: 0, bridgeFee: fee}], the fee
    query being the only call issued. *)
Theorem zero_amount_estimate_skips_swap_math :
  forall (sdk : SDK) (reply : Call -> option N)
         (this : Bridge.SynapseBridge) (args : Bridge.BridgeParams.t),
    Bridge.BridgeParams.amountFrom args = Some 0 ->
    (forall c,
       c ∈ calls (Bridge.estimateBridgeTokenOutput sdk reply this args) ->
       isSwapMathQuery c = false)
    /\
    (forall (targs : Bridge.BridgeTokenArgs.t) (fee : N),
       fst (Bridge.swapSupported sdk this args) = true ->
       Bridge.makeBridgeTokenArgs sdk this args = Resolved targs ->
       decimals (Bridge.BridgeTokenArgs.tokenFrom targs)
                (Bridge.chainId this) <= 18 ->
       reply (bridgeFeeQuery sdk this args targs 0) = Some fee ->
       Bridge.estimateBridgeTokenOutput sdk reply this args
       = ([bridgeFeeQuery sdk this args targs 0],
          Resolved (Some {| Bridge.amountToReceive := 0;
                            Bridge.bridgeFee := Z.of_N fee |}))).
Proof.
  intros sdk reply this args Ha. split.
  - intros c.
    destruct (Bridge.swapSupported sdk this args) as [[|] reason] eqn:Hs.
    + rewrite (estimate_supported _ _ _ _ _ Hs).
      now apply calculateBridgeRate_zero_calls.
    + rewrite (estimate_unsupported _ _ _ _ _ Hs). cbn.
      intros H. now apply elem_of_nil in H.
  - intros targs fee Hs Hres Hdec Hfee.
    destruct (Bridge.swapSupported sdk this args) as [b reason] eqn:Hs'.
    cbn in Hs. subst b.
    rewrite (estimate_supported _ _ _ _ _ Hs').
    now apply calculateBridgeRate_zero.
Qed.

(** C4, instantiated: USDC from mainnet to BSC with a zero amount issues the
    fee query alone and yields [{0, 0}]. *)
Lemma zero_amount_estimate_skips_swap_math_witness :
  Bridge.estimateBridgeTokenOutput Demo.sdk Demo.chainUp Demo.onMainnet
    (Demo.estimateRequest Demo.USDC Demo.USDC 56 0)
  = ([calculateSwapFee (Some "0xnUSD") 56 0],
     Resolved (Some {| Bridge.amountToReceive := 0;
                       Bridge.bridgeFee := 0 |})).
Proof.
  destruct (zero_amount_estimate_skips_swap_math Demo.sdk Demo.chainUp
              Demo.onMainnet
              (Demo.estimateRequest Demo.USDC Demo.USDC 56 0) eq_refl)
    as [_ H].
  refine (H {| Bridge.BridgeTokenArgs.fromChainTokens :=
                 [Demo.DAI; Demo.USDC; Demo.USDT];
               Bridge.BridgeTokenArgs.toChainTokens :=
                 [Demo.NUSD; Demo.DAI; Demo.USDC; Demo.USDT];
               Bridge.BridgeTokenArgs.tokenFrom := Demo.USDC;
               Bridge.BridgeTokenArgs.tokenTo := Demo.USDC;
               Bridge.BridgeTokenArgs.tokenIndexFrom := 1;
               Bridge.BridgeTokenArgs.tokenIndexTo := 2 |}
            0%N _ _ _ _).
  - reflexivity.
  - reflexivity.
  - cbn. lia.
  - reflexivity.
Defined.

(** The rate when neither leg needs pool math. *)
Lemma calculateBridgeRate_pass_through sdk reply this args targs a fee :
  Bridge.BridgeParams.amountFrom args = Some a ->
  Bridge.makeBridgeTokenArgs sdk this args = Resolved targs ->
  decimals (Bridge.BridgeTokenArgs.tokenFrom targs) (Bridge.chainId this)
    <= 18 ->
  reply (bridgeFeeQuery sdk this args targs a) = Some fee ->
  mintBurnOrWrapped sdk (Bridge.BridgeTokenArgs.tokenFrom targs) = true ->
  mintBurnOrWrapped sdk (Bridge.BridgeTokenArgs.tokenTo targs) = true ->
  Bridge.calculateBridgeRate sdk reply this args
  = ([bridgeFeeQuery sdk this args targs a],
     Resolved (Some {| Bridge.amountToReceive := Z.max 0 (a - Z.of_N fee);
                       Bridge.bridgeFee := Z.of_N fee |})).
Proof.
  unfold mintBurnOrWrapped. intros Ha Hres Hdec Hfee Hfrom Hto.
  unfold Bridge.calculateBridgeRate.
  rewrite Hres, bind_lift_Resolved, Ha, bind_lift_Resolved.
  unfold Bridge.bigNumTen_pow.
  destruct (Z.ltb_spec
              (18 - decimals (Bridge.BridgeTokenArgs.tokenFrom targs)
                      (Bridge.chainId this)) 0) as [Hlt|_]; [lia|].
  rewrite bind_lift_Resolved.
  unfold bridgeFeeQuery in Hfee. cbn zeta in Hfee.
  unfold Bridge.issue. cbn [bind]. rewrite Hfee.
  rewrite <- !orb_assoc, Hfrom, Hto, !orb_true_r.
  assert (Hfirst :
    (if a =? 0 then ret 0 else ret a : Promise Z) = ret a).
  { destruct (Z.eqb_spec a 0); now subst. }
  rewrite Hfirst, bind_ret.
  rewrite subBigNumSafe_max.
  assert (Hsecond :
    (if Z.max 0 (a - Z.of_N fee) =? 0 then ret 0
     else ret (Z.max 0 (a - Z.of_N fee)) : Promise Z)
    = ret (Z.max 0 (a - Z.of_N fee))).
  { destruct (Z.eqb_spec (Z.max 0 (a - Z.of_N fee)) 0) as [->|];
      reflexivity. }
  rewrite Hsecond, bind_ret. reflexivity.
Qed.

(** C5: for a supported request whose two tokens, as token-argument
    resolution hands them to the estimator (a bare native-gas token standing
    for its wrapped form), are both mint/burn or wrapped tokens, the estimate
    is [amountFrom - bridgeFee] clamped at zero, and the fee query is the
    only call issued: no pool or liquidity math is applied. *)
Theorem mint_burn_or_wrapped_estimate_is_amount_minus_fee :
  forall (sdk : SDK) (reply : Call -> option N)
         (this : Bridge.SynapseBridge) (args : Bridge.BridgeParams.t)
         (targs : Bridge.BridgeTokenArgs.t) (a : Z) (fee : N),
    fst (Bridge.swapSupported sdk this args) = true ->
    Bridge.BridgeParams.amountFrom args = Some a ->
    Bridge.makeBridgeTokenArgs sdk this args = Resolved targs ->
    decimals (Bridge.BridgeTokenArgs.tokenFrom targs) (Bridge.chainId this)
      <= 18 ->
    reply (bridgeFeeQuery sdk this args targs a) = Some fee ->
    mintBurnOrWrapped sdk (Bridge.BridgeTokenArgs.tokenFrom targs) = true ->
    mintBurnOrWrapped sdk (Bridge.BridgeTokenArgs.tokenTo targs) = true ->
    Bridge.estimateBridgeTokenOutput sdk reply this args
    = ([bridgeFeeQuery sdk this args targs a],
       Resolved (Some {| Bridge.amountToReceive := Z.max 0 (a - Z.of_N fee);
                         Bridge.bridgeFee := Z.of_N fee |}))
    /\ 0 <= Z.max 0 (a - Z.of_N fee)
    /\ isSwapMathQuery (bridgeFeeQuery sdk this args targs a) = false.
Proof.
  intros sdk reply this args targs a fee Hs Ha Hres Hdec Hfee Hfrom Hto.
  destruct (Bridge.swapSupported sdk this args) as [b reason] eqn:Hs'.
  cbn in Hs. subst b. repeat split; [|lia].
  rewrite (estimate_supported _ _ _ _ _ Hs').
  now apply calculateBridgeRate_pass_through.
Qed.

(** C5, instantiated: AVAX from Avalanche to wAVAX on Moonbeam. Resolution
    turns the bare AVAX into wAVAX, a wrapped token, on both legs; 5000 units
    in, a fee of 5, 4995 out, and the fee query is the only call. *)
Lemma mint_burn_or_wrapped_estimate_is_amount_minus_fee_witness :
  Bridge.estimateBridgeTokenOutput Demo.sdk Demo.chainUp Demo.onAvalanche
    (Demo.estimateRequest Demo.AVAX Demo.WAVAX 1284 5000)
  = ([calculateSwapFee (Some "0xnUSD") 1284 5000],
     Resolved (Some {| Bridge.amountToReceive := 4995;
                       Bridge.bridgeFee := 5 |})).
Proof.
  refine (proj1
    (mint_burn_or_wrapped_estimate_is_amount_minus_fee
       Demo.sdk Demo.chainUp Demo.onAvalanche
       (Demo.estimateRequest Demo.AVAX Demo.WAVAX 1284 5000)
       {| Bridge.BridgeTokenArgs.fromChainTokens := [Demo.WAVAX];
          Bridge.BridgeTokenArgs.toChainTokens := [Demo.WAVAX];
          Bridge.BridgeTokenArgs.tokenFrom := Demo.WAVAX;
          Bridge.BridgeTokenArgs.tokenTo := Demo.WAVAX;
          Bridge.BridgeTokenArgs.tokenIndexFrom := -1;
          Bridge.BridgeTokenArgs.tokenIndexTo := -1 |}
       5000 5%N _ _ _ _ _ _ _)).
  - reflexivity.
  - reflexivity.
  - reflexivity.
  - cbn. lia.
  - reflexivity.
  - reflexivity.
  - reflexivity.
Defined.

(** Resolution leaves alone every token that is not one of the three bare
    native-gas tokens, so for such request tokens the condition of C5 is a
    condition on the request itself. *)
Lemma bridgeTokens_unchanged sdk (tokenFrom t1 t2 : Token) :
  (forall native,
     native ∈ [Tokens.ETH (catalogue sdk); Tokens.AVAX (catalogue sdk);
               Tokens.MOVR (catalogue sdk)] ->
     isEqual t1 native = false /\ isEqual t2 native = false) ->
  Bridge.bridgeTokens sdk tokenFrom t1 t2 = (t1, t2).
Proof.
  intros H. unfold Bridge.bridgeTokens, Bridge.checkAndChangeTokens,
    Bridge.checkAndChangeToken.
  destruct (swapType tokenFrom); try reflexivity.
  - destruct (H (Tokens.ETH (catalogue sdk))) as [-> ->];
      [rewrite !elem_of_cons; tauto | reflexivity].
  - destruct (H (Tokens.AVAX (catalogue sdk))) as [-> ->];
      [rewrite !elem_of_cons; tauto | reflexivity].
  - destruct (H (Tokens.MOVR (catalogue sdk))) as [-> ->];
      [rewrite !elem_of_cons; tauto | reflexivity].
Qed.

(** ** Fee-oracle failure *)

(** When the fee query is not answered, no outcome of [calculateBridgeRate]
    carries the failure: the promise resolves to [null], unless the
    origin-side swap-math query rejected first. *)
Lemma calculateBridgeRate_fee_failure sdk reply this args targs a :
  Bridge.BridgeParams.amountFrom args = Some a ->
  Bridge.makeBridgeTokenArgs sdk this args = Resolved targs ->
  decimals (Bridge.BridgeTokenArgs.tokenFrom targs) (Bridge.chainId this)
    <= 18 ->
  reply (bridgeFeeQuery sdk this args targs a) = None ->
  outcome (Bridge.calculateBridgeRate sdk reply this args) = Resolved None
  \/ exists c, isSwapMathQuery c = true
               /\ outcome (Bridge.calculateBridgeRate sdk reply this args)
                  = Rejected (CallException c).
Proof.
  intros Ha Hres Hdec Hfee.
  unfold Bridge.calculateBridgeRate.
  rewrite Hres, bind_lift_Resolved, Ha, bind_lift_Resolved.
  unfold Bridge.bigNumTen_pow.
  destruct (Z.ltb_spec
              (18 - decimals (Bridge.BridgeTokenArgs.tokenFrom targs)
                      (Bridge.chainId this)) 0) as [Hlt|_]; [lia|].
  rewrite bind_lift_Resolved.
  unfold bridgeFeeQuery in Hfee. cbn zeta in Hfee.
  unfold Bridge.issue. cbn [bind]. rewrite Hfee.
  destruct (a =? 0); [left; reflexivity|].
  destruct (_ || _ || _); [left; reflexivity|].
  destruct (Bridge.chainId this =? ChainId.ETH (chainIds sdk)).
  - unfold Bridge.request. cbn [bind].
    destruct (reply (calculateTokenAmount _ _)) eqn:E.
    + left. reflexivity.
    + right. eexists. split; [|reflexivity]. reflexivity.
  - unfold Bridge.calculateSwapL2Zap, Bridge.request. cbn [bind].
    destruct (reply (calculateSwap _ _ _ _ _)) eqn:E.
    + left. reflexivity.
    + right. eexists. split; [|reflexivity]. reflexivity.
Qed.

(** C2, at a failing input: USDC from mainnet to BSC with the fee oracle
    unreachable. The route is supported and both queries are sent; the fee
    query rejects, and the estimate resolves to [null]: no rejection, and no
    error value naming the fee query, reaches the caller. *)
Theorem fee_query_failure_resolves_to_null :
  fst (Bridge.swapSupported Demo.sdk Demo.onMainnet
         (Demo.estimateRequest Demo.USDC Demo.USDC 56 1000000)) = true
  /\ Demo.feeOracleDown
       (calculateSwapFee (Some "0xnUSD") 56 1000000000000000000) = None
  /\ Bridge.estimateBridgeTokenOutput Demo.sdk Demo.feeOracleDown
       Demo.onMainnet (Demo.estimateRequest Demo.USDC Demo.USDC 56 1000000)
     = ([calculateSwapFee (Some "0xnUSD") 56 1000000000000000000;
         calculateTokenAmount [0; 1000000; 0] true],
        Resolved None).
Proof.
  split; [reflexivity|]. split; [reflexivity|].
  vm_compute. reflexivity.
Qed.

(** ** Transaction building: the gates *)

(** The outcome of [buildBridgeTokenTransaction] once the tokens resolved:
    the address check, then the shape. *)
Lemma buildBridgeTokenTransaction_resolved sdk this args targs :
  Bridge.makeBridgeTokenArgs sdk this
    (Bridge.BridgeTransactionParams.asBridgeParams args) = Resolved targs ->
  Bridge.buildBridgeTokenTransaction sdk this args
  = if Bridge.addressIsEmpty (Bridge.BridgeTransactionParams.addressTo args)
    then throw EmptyDestinationAddress
    else
      let args' :=
        Bridge.BridgeTransactionParams.withTokens args
          (Bridge.BridgeTokenArgs.tokenFrom targs)
          (Bridge.BridgeTokenArgs.tokenTo targs) in
      bind (if Bridge.chainId this =? ChainId.ETH (chainIds sdk)
            then Bridge.buildETHMainnetBridgeTxn sdk this args' targs
            else Bridge.buildL2BridgeTxn sdk this args' targs)
           (fun txn =>
              ret (GasUtils.populateGasParams (gasUtils sdk)
                     (Bridge.chainId this) txn "bridge")).
Proof.
  intros Hres. unfold Bridge.buildBridgeTokenTransaction.
  now rewrite Hres, bind_lift_Resolved.
Qed.

Lemma buildBridgeTokenTransaction_unresolved sdk this args e :
  Bridge.makeBridgeTokenArgs sdk this
    (Bridge.BridgeTransactionParams.asBridgeParams args) = Rejected e ->
  Bridge.buildBridgeTokenTransaction sdk this args = ([], Rejected e).
Proof.
  intros Hres. unfold Bridge.buildBridgeTokenTransaction.
  now rewrite Hres.
Qed.

(** C1, as stated, fails for [buildTransaction]: USDC to WETH from mainnet to
    Arbitrum is not a supported route (the swap types differ), yet the
    builder resolves with a [depositETHAndSwap] transaction, after one call
    to the encoder. *)
Lemma unsupported_route_is_built :
  Bridge.swapSupported Demo.sdk Demo.onMainnet
    (Bridge.BridgeTransactionParams.asBridgeParams
       (Demo.buildRequest Demo.USDC Demo.WETH 42161 1000000 990000
          (Some "0xabc")))
  = (false, "Token swap types do not match")
  /\ exists tx tx',
       Bridge.buildBridgeTokenTransaction Demo.sdk Demo.onMainnet
         (Demo.buildRequest Demo.USDC Demo.WETH 42161 1000000 990000
            (Some "0xabc"))
       = ([populateTransaction tx], Resolved tx')
       /\ method tx' = depositETHAndSwap.
Proof.
  split; [reflexivity|].
  do 2 eexists. split; [vm_compute; reflexivity | reflexivity].
Qed.

(** The sending entry point checks eligibility first, before the signer or
    any contract is asked anything. *)
Lemma execute_unsupported sdk reply this args signer reason :
  Bridge.swapSupported sdk this
    (Bridge.BridgeTransactionParams.asBridgeParams args) = (false, reason) ->
  Bridge.executeBridgeTokenTransaction sdk reply this args signer
  = ([], Rejected (RouteUnsupported reason)).
Proof.
  intros H. unfold Bridge.executeBridgeTokenTransaction.
  now rewrite (checkSwapSupported_false _ _ _ _ H).
Qed.

(** C1, amended: when [swapSupported] answers [(false, reason)],
    [estimateBridgeTokenOutput] rejects with that reason and issues no
    collaborator call at all, and so does [executeBridgeTokenTransaction],
    the entry point that builds and sends; [buildBridgeTokenTransaction]
    itself never consults the eligibility check: whatever
    [TokenSwap.bridgeSwapSupported] answers, it issues the same calls and
    has the same outcome. *)
Theorem unsupported_route_short_circuits_estimate :
  forall (sdk : SDK) (this : Bridge.SynapseBridge),
    (forall (reply : Call -> option N) (args : Bridge.BridgeParams.t)
            (reason : string),
       Bridge.swapSupported sdk this args = (false, reason) ->
       Bridge.estimateBridgeTokenOutput sdk reply this args
       = ([], Rejected (RouteUnsupported reason)))
    /\
    (forall (reply : Call -> option N)
            (args : Bridge.BridgeTransactionParams.t) (signer : Signer.t)
            (reason : string),
       Bridge.swapSupported sdk this
         (Bridge.BridgeTransactionParams.asBridgeParams args)
       = (false, reason) ->
       Bridge.executeBridgeTokenTransaction sdk reply this args signer
       = ([], Rejected (RouteUnsupported reason)))
    /\
    (forall (args : Bridge.BridgeTransactionParams.t)
            (f : Token -> Token -> Z -> Z -> TokenSwap.SwapSupportedResult),
       Bridge.buildBridgeTokenTransaction (withBridgeSwapSupported sdk f)
         this args
       = Bridge.buildBridgeTokenTransaction sdk this args).
Proof.
  intros sdk this. split; [|split].
  - intros reply args reason H. now apply estimate_unsupported.
  - intros reply args signer reason H. now apply execute_unsupported.
  - intros args f. reflexivity.
Qed.

(** C3, as stated, fails: token resolution and pool indexing run before the
    address check. With no destination address and a destination chain
    (999) for which there is no pool list, the builder rejects with the
    [TypeError] of the pool lookup, not with [EmptyDestinationAddress]. *)
Lemma empty_address_checked_after_token_resolution :
  Bridge.BridgeTransactionParams.addressTo
    (Demo.buildRequest Demo.USDC Demo.USDC 999 1000000 990000 None) = None
  /\ Bridge.buildBridgeTokenTransaction Demo.sdk Demo.onMainnet
       (Demo.buildRequest Demo.USDC Demo.USDC 999 1000000 990000 None)
     = ([], Rejected TypeError)
  /\ outcome (Bridge.buildBridgeTokenTransaction Demo.sdk Demo.onMainnet
                (Demo.buildRequest Demo.USDC Demo.USDC 999 1000000 990000
                   None))
     <> Rejected EmptyDestinationAddress.
Proof.
  split; [reflexivity|]. split; [reflexivity|].
  cbn. discriminate.
Qed.

(** C3, amended: for a request whose destination address is empty or absent,
    [buildBridgeTokenTransaction] first resolves the token arguments (token
    normalisation and pool indexing); when that resolution succeeds it
    rejects with [EmptyDestinationAddress], with no call to any collaborator:
    no shape is selected, no slippage is computed, nothing is encoded. *)
Theorem empty_address_rejected_before_shape_selection :
  forall (sdk : SDK) (this : Bridge.SynapseBridge)
         (args : Bridge.BridgeTransactionParams.t)
         (targs : Bridge.BridgeTokenArgs.t),
    Bridge.addressIsEmpty (Bridge.BridgeTransactionParams.addressTo args)
      = true ->
    Bridge.makeBridgeTokenArgs sdk this
      (Bridge.BridgeTransactionParams.asBridgeParams args) = Resolved targs ->
    Bridge.buildBridgeTokenTransaction sdk this args
    = ([], Rejected EmptyDestinationAddress).
Proof.
  intros sdk this args targs Hempty Hres.
  rewrite (buildBridgeTokenTransaction_resolved _ _ _ _ Hres).
  now rewrite Hempty.
Qed.

(** C3 amended, instantiated: USDC from mainnet to BSC with the empty string
    as destination address. *)
Lemma empty_address_rejected_before_shape_selection_witness :
  Bridge.buildBridgeTokenTransaction Demo.sdk Demo.onMainnet
    (Demo.buildRequest Demo.USDC Demo.USDC 56 1000000 990000 (Some EmptyString))
  = ([], Rejected EmptyDestinationAddress).
Proof.
  refine (empty_address_rejected_before_shape_selection
            Demo.sdk Demo.onMainnet
            (Demo.buildRequest Demo.USDC Demo.USDC 56 1000000 990000
               (Some EmptyString))
            {| Bridge.BridgeTokenArgs.fromChainTokens :=
                 [Demo.DAI; Demo.USDC; Demo.USDT];
               Bridge.BridgeTokenArgs.toChainTokens :=
                 [Demo.NUSD; Demo.DAI; Demo.USDC; Demo.USDT];
               Bridge.BridgeTokenArgs.tokenFrom := Demo.USDC;
               Bridge.BridgeTokenArgs.tokenTo := Demo.USDC;
               Bridge.BridgeTokenArgs.tokenIndexFrom := 1;
               Bridge.BridgeTokenArgs.tokenIndexTo := 2 |} _ _).
  - reflexivity.
  - reflexivity.
Defined.

(** C1 amended, instantiated: the unsupported USDC-to-WETH route is rejected
    by the estimator, and by the sending entry point, before any call. *)
Lemma unsupported_route_short_circuits_estimate_witness :
  Bridge.estimateBridgeTokenOutput Demo.sdk Demo.chainUp Demo.onMainnet
    (Demo.estimateRequest Demo.USDC Demo.WETH 42161 1000000)
  = ([], Rejected (RouteUnsupported "Token swap types do not match"))
  /\ Bridge.executeBridgeTokenTransaction Demo.sdk Demo.chainUp
       Demo.onMainnet
       (Demo.buildRequest Demo.USDC Demo.WETH 42161 1000000 990000
          (Some "0xabc"))
       Demo.wallet
     = ([], Rejected (RouteUnsupported "Token swap types do not match")).
Proof.
  destruct (unsupported_route_short_circuits_estimate
              Demo.sdk Demo.onMainnet) as (Hest & Hexec & _).
  split.
  - apply Hest. reflexivity.
  - apply Hexec. reflexivity.
Defined.

(** ** Shape selection on an L2 towards mainnet *)

Lemma l2EasyCheck_castArgs sdk this args :
  Bridge.castArgs (l2EasyCheck sdk this args)
  = Bridge.BridgeTransactionParams.asBridgeTxParams args.
Proof.
  unfold l2EasyCheck.
  destruct (Bridge.l2EasySets _ _ _) as [[d r] e].
  unfold Bridge.checkEasyArgs.
  repeat (destruct (includes _ _); [reflexivity|]). reflexivity.
Qed.

(** The selector on an L2 ETH chain, towards mainnet, past the gate and the
    two named destination tokens: the source token alone decides. *)
Lemma buildL2BridgeTxn_ETH_chain_to_mainnet sdk this args targs :
  Bridge.isL2ETHChain this = true ->
  Bridge.BridgeTransactionParams.chainIdTo args = ChainId.ETH (chainIds sdk) ->
  Bridge.isEasy (l2EasyCheck sdk this args) = false ->
  id (Bridge.BridgeTransactionParams.tokenTo args)
    <> id (Tokens.NUSD (catalogue sdk)) ->
  id (Bridge.BridgeTransactionParams.tokenTo args)
    <> id (Tokens.GMX (catalogue sdk)) ->
  Bridge.buildL2BridgeTxn sdk this args targs
  = Bridge.populate
      (if isEqual (Bridge.BridgeTransactionParams.tokenFrom args)
                  (Tokens.NETH (catalogue sdk))
       then mkCall L2BridgeZap redeem
              (directArgs this args (Tokens.NETH (catalogue sdk))) None
       else if BridgeUtils.isETHLikeToken (utils sdk)
                 (Bridge.BridgeTransactionParams.tokenFrom args)
       then mkCall L2BridgeZap swapAndRedeem
              (swapAndRedeemArgs sdk this args targs
                 (Tokens.NETH (catalogue sdk))) None
       else mkCall L2BridgeZap swapETHAndRedeem
              (swapAndRedeemArgs sdk this args targs
                 (Tokens.NETH (catalogue sdk)))
              (Some (Bridge.BridgeTransactionParams.amountFrom args))).
Proof.
  intros HL2 Hto Heasy Hnusd Hgmx.
  pose proof (l2EasyCheck_castArgs sdk this args) as Hcast.
  unfold Bridge.buildL2BridgeTxn.
  unfold l2EasyCheck in Heasy, Hcast.
  destruct (Bridge.l2EasySets _ _ _) as [[d r] e].
  rewrite Heasy, Hcast.
  rewrite (bool_decide_eq_false_2 _ Hnusd), (bool_decide_eq_false_2 _ Hgmx).
  rewrite Hto, Z.eqb_refl, HL2.
  destruct (isEqual _ (Tokens.NETH _)); [reflexivity|].
  destruct (BridgeUtils.isETHLikeToken _ _); reflexivity.
Qed.

(** C6: on a peripheral chain that is itself an ETH chain, bridging towards
    mainnet a request that the direct-route gate does not take and whose
    destination token is neither nUSD nor GMX (the canonical chain's
    native-gas token, in the scenario), [buildBridgeTokenTransaction] encodes
    exactly one call, on the L2 zap: it is the direct [redeem] exactly when
    the source token is nETH, the chain's wrapped-native bridge token;
    for any other source token it is a swap-then-redeem shape through nETH,
    [swapAndRedeem] for an ETH-like token and [swapETHAndRedeem], which
    carries the amount as native value, otherwise. *)
Theorem native_gas_to_mainnet_redeem_or_swap_then_redeem :
  forall (sdk : SDK) (this : Bridge.SynapseBridge)
         (args : Bridge.BridgeTransactionParams.t)
         (targs : Bridge.BridgeTokenArgs.t),
    Bridge.chainId this <> ChainId.ETH (chainIds sdk) ->
    Bridge.isL2ETHChain this = true ->
    Bridge.BridgeTransactionParams.chainIdTo args
      = ChainId.ETH (chainIds sdk) ->
    Bridge.addressIsEmpty (Bridge.BridgeTransactionParams.addressTo args)
      = false ->
    Bridge.makeBridgeTokenArgs sdk this
      (Bridge.BridgeTransactionParams.asBridgeParams args) = Resolved targs ->
    let tokenFrom := Bridge.BridgeTokenArgs.tokenFrom targs in
    let tokenTo := Bridge.BridgeTokenArgs.tokenTo targs in
    Bridge.isEasy
      (l2EasyCheck sdk this
         (Bridge.BridgeTransactionParams.withTokens args tokenFrom tokenTo))
      = false ->
    id tokenTo <> id (Tokens.NUSD (catalogue sdk)) ->
    id tokenTo <> id (Tokens.GMX (catalogue sdk)) ->
    exists tx : PopulatedTransaction,
      Bridge.buildBridgeTokenTransaction sdk this args
      = ([populateTransaction tx],
         Resolved (GasUtils.populateGasParams (gasUtils sdk)
                     (Bridge.chainId this) tx "bridge"))
      /\ target tx = L2BridgeZap
      /\ (method tx = redeem
          <-> isEqual tokenFrom (Tokens.NETH (catalogue sdk)) = true)
      /\ (isEqual tokenFrom (Tokens.NETH (catalogue sdk)) = true ->
          tx = mkCall L2BridgeZap redeem
                 (directArgs this args (Tokens.NETH (catalogue sdk))) None)
      /\ (isEqual tokenFrom (Tokens.NETH (catalogue sdk)) = false ->
          BridgeUtils.isETHLikeToken (utils sdk) tokenFrom = true ->
          tx = mkCall L2BridgeZap swapAndRedeem
                 (swapAndRedeemArgs sdk this args targs
                    (Tokens.NETH (catalogue sdk))) None)
      /\ (isEqual tokenFrom (Tokens.NETH (catalogue sdk)) = false ->
          BridgeUtils.isETHLikeToken (utils sdk) tokenFrom = false ->
          tx = mkCall L2BridgeZap swapETHAndRedeem
                 (swapAndRedeemArgs sdk this args targs
                    (Tokens.NETH (catalogue sdk)))
                 (Some (Bridge.BridgeTransactionParams.amountFrom args))).
Proof.
  intros sdk this args targs Hper HL2 Hto Haddr Hres tokenFrom tokenTo
    Heasy Hnusd Hgmx.
  subst tokenFrom tokenTo.
  rewrite (buildBridgeTokenTransaction_resolved _ _ _ _ Hres), Haddr.
  cbn zeta.
  rewrite (proj2 (Z.eqb_neq _ _) Hper).
  rewrite (buildL2BridgeTxn_ETH_chain_to_mainnet sdk this
             (Bridge.BridgeTransactionParams.withTokens args
                (Bridge.BridgeTokenArgs.tokenFrom targs)
                (Bridge.BridgeTokenArgs.tokenTo targs))
             targs HL2 Hto Heasy Hnusd Hgmx).
  cbn [Bridge.BridgeTransactionParams.tokenFrom
       Bridge.BridgeTransactionParams.withTokens].
  eexists. split; [reflexivity|].
  destruct (isEqual (Bridge.BridgeTokenArgs.tokenFrom targs)
                    (Tokens.NETH (catalogue sdk))) eqn:Hneth.
  - repeat split; try reflexivity; try discriminate.
  - destruct (BridgeUtils.isETHLikeToken (utils sdk)
                (Bridge.BridgeTokenArgs.tokenFrom targs)) eqn:Hlike.
    + repeat split; try reflexivity; try discriminate.
    + repeat split; try reflexivity; try discriminate.
Qed.

(** C6, instantiated: WETH.e, an ETH-like token, from Avalanche to ETH on
    mainnet is built as [swapAndRedeem] through nETH. *)
Lemma native_gas_to_mainnet_redeem_or_swap_then_redeem_witness :
  exists tx : PopulatedTransaction,
    Bridge.buildBridgeTokenTransaction Demo.sdk Demo.onAvalanche
      (Demo.buildRequest Demo.WETH_E Demo.ETH 1 1000 990 (Some "0xabc"))
    = ([populateTransaction tx],
       Resolved (GasUtils.populateGasParams Demo.gas 43114 tx "bridge"))
    /\ method tx = swapAndRedeem.
Proof.
  destruct (native_gas_to_mainnet_redeem_or_swap_then_redeem
              Demo.sdk Demo.onAvalanche
              (Demo.buildRequest Demo.WETH_E Demo.ETH 1 1000 990
                 (Some "0xabc"))
              {| Bridge.BridgeTokenArgs.fromChainTokens :=
                   [Demo.NETH; Demo.AVWETH];
                 Bridge.BridgeTokenArgs.toChainTokens := [Demo.WETH];
                 Bridge.BridgeTokenArgs.tokenFrom := Demo.WETH_E;
                 Bridge.BridgeTokenArgs.tokenTo := Demo.WETH;
                 Bridge.BridgeTokenArgs.tokenIndexFrom := 1;
                 Bridge.BridgeTokenArgs.tokenIndexTo := 0 |})
    as (tx & Hbuild & _ & _ & _ & Hlike & _).
  - cbn. discriminate.
  - reflexivity.
  - reflexivity.
  - reflexivity.
  - reflexivity.
  - reflexivity.
  - cbn. discriminate.
  - cbn. discriminate.
  - exists tx. split; [exact Hbuild|].
    rewrite (Hlike eq_refl eq_refl). reflexivity.
Defined.

(** ** The stable asset in the direct-route gate *)

(** The [forEach] over [DepositIfChainTokens] only appends ids of tokens the
    table lists, and drops nothing. *)
Lemma l2_fold_sets this (l : list BridgeUtils.DepositIfChainArgs) :
  forall d0 r0 e0 d r e,
    fold_left (Bridge.addDepositIfChain this) l (d0, r0, e0) = (d, r, e) ->
    (forall x, x ∈ r0 -> x ∈ r)
    /\ (forall x, x ∈ d ->
          x ∈ d0 \/ x ∈ flat_map (fun a => map id (BridgeUtils.tokens a)) l)
    /\ (forall x, x ∈ r ->
          x ∈ r0 \/ x ∈ flat_map (fun a => map id (BridgeUtils.tokens a)) l)
    /\ (forall x, x ∈ e ->
          x ∈ e0 \/ x ∈ flat_map (fun a => map id (BridgeUtils.tokens a)) l).
Proof.
  induction l as [|a l IH]; intros d0 r0 e0 d r e Hfold.
  - cbn in Hfold. injection Hfold as <- <- <-. repeat split; auto.
  - cbn [fold_left] in Hfold.
    destruct (Bridge.addDepositIfChain this (d0, r0, e0) a)
      as [[d1 r1] e1] eqn:Hstep.
    specialize (IH _ _ _ _ _ _ Hfold) as (Hmono & Hd & Hr & He).
    assert (Hstep' :
      (forall x, x ∈ r0 -> x ∈ r1)
      /\ (forall x, x ∈ d1 -> x ∈ d0 \/ x ∈ map id (BridgeUtils.tokens a))
      /\ (forall x, x ∈ r1 -> x ∈ r0 \/ x ∈ map id (BridgeUtils.tokens a))
      /\ (forall x, x ∈ e1 -> x ∈ e0 \/ x ∈ map id (BridgeUtils.tokens a))).
    { unfold Bridge.addDepositIfChain in Hstep.
      destruct (Bridge.chainId this =? BridgeUtils.chainId a).
      - destruct (BridgeUtils.depositEth a); injection Hstep as <- <- <-;
          repeat split; intros x; rewrite ?elem_of_app; tauto.
      - destruct (BridgeUtils.altChainId a) as [alt|].
        + destruct (Bridge.chainId this =? alt); injection Hstep as <- <- <-;
            repeat split; intros x; rewrite ?elem_of_app; tauto.
        + injection Hstep as <- <- <-;
            repeat split; intros x; rewrite ?elem_of_app; tauto. }
    destruct Hstep' as (Hmono1 & Hd1 & Hr1 & He1).
    cbn [flat_map].
    repeat split; intros x Hx; rewrite ?elem_of_app.
    + auto.
    + destruct (Hd x Hx) as [H|H]; [destruct (Hd1 x H)|]; tauto.
    + destruct (Hr x Hx) as [H|H]; [destruct (Hr1 x H)|]; tauto.
    + destruct (He x Hx) as [H|H]; [destruct (He1 x H)|]; tauto.
Qed.

Lemma includes_false {A} `{EqDecision A} (l : list A) (x : A) :
  x ∉ l -> includes l x = false.
Proof. intros H. unfold includes. now apply bool_decide_eq_false_2. Qed.

Lemma isEqual_true_iff (a b : Token) : isEqual a b = true <-> id a = id b.
Proof. unfold isEqual. apply bool_decide_eq_true. Qed.

Lemma checkEasyArgs_not_member sdk this args zapBridge d r e :
  includes r (id (Bridge.BridgeTransactionParams.tokenTo args)) = false ->
  includes d (id (Bridge.BridgeTransactionParams.tokenTo args)) = false ->
  includes e (id (Bridge.BridgeTransactionParams.tokenTo args)) = false ->
  Bridge.checkEasyArgs sdk this args zapBridge d r e
  = {| Bridge.castArgs := Bridge.BridgeTransactionParams.asBridgeTxParams args;
       Bridge.isEasy := false;
       Bridge.txn := None |}.
Proof. unfold Bridge.checkEasyArgs. now intros -> -> ->. Qed.

Lemma includes_true {A} `{EqDecision A} (l : list A) (x : A) :
  x ∈ l -> includes l x = true.
Proof. intros H. unfold includes. now apply bool_decide_eq_true_2. Qed.

Lemma checkEasyArgs_redeem sdk this args zapBridge d r e :
  includes r (id (Bridge.BridgeTransactionParams.tokenTo args)) = true ->
  Bridge.checkEasyArgs sdk this args zapBridge d r e
  = {| Bridge.castArgs := Bridge.BridgeTransactionParams.asBridgeTxParams args;
       Bridge.isEasy := true;
       Bridge.txn :=
         Some (Bridge.populate
                 (mkCall zapBridge redeem
                    (directArgs this args
                       (Bridge.BridgeTransactionParams.tokenTo args))
                    None)) |}.
Proof. unfold Bridge.checkEasyArgs. now intros ->. Qed.

Lemma checkEasyArgs_deposit sdk this args zapBridge d r e :
  includes r (id (Bridge.BridgeTransactionParams.tokenTo args)) = false ->
  includes d (id (Bridge.BridgeTransactionParams.tokenTo args)) = true ->
  Bridge.checkEasyArgs sdk this args zapBridge d r e
  = {| Bridge.castArgs := Bridge.BridgeTransactionParams.asBridgeTxParams args;
       Bridge.isEasy := true;
       Bridge.txn :=
         Some (Bridge.populate
                 (mkCall zapBridge deposit
                    (directArgs this args
                       (Bridge.BridgeTransactionParams.tokenTo args))
                    None)) |}.
Proof. unfold Bridge.checkEasyArgs. now intros -> ->. Qed.

(** Membership of nUSD in the three sets of the mainnet gate. *)
Lemma mainnet_sets_NUSD sdk (tokenFrom : Token) :
  id (Tokens.NUSD (catalogue sdk))
    ∉ [id (Tokens.SYN (catalogue sdk)); id (Tokens.HIGH (catalogue sdk));
       id (Tokens.DOG (catalogue sdk)); id (Tokens.FRAX (catalogue sdk));
       id (Tokens.NETH (catalogue sdk))] ->
  ((id (Tokens.NUSD (catalogue sdk)) ∈ Bridge.mainnetEasyDeposits sdk tokenFrom)
   <-> isEqual tokenFrom (Tokens.NUSD (catalogue sdk)) = true)
  /\ (id (Tokens.NUSD (catalogue sdk)) ∉ Bridge.mainnetEasyRedeems sdk)
  /\ (id (Tokens.NUSD (catalogue sdk)) ∉ Bridge.mainnetEasyDepositETH sdk).
Proof.
  intros Hd. rewrite !not_elem_of_cons in Hd.
  unfold Bridge.mainnetEasyDeposits, Bridge.mainnetEasyRedeems,
    Bridge.mainnetEasyDepositETH.
  repeat split.
  - rewrite elem_of_app, !elem_of_cons, elem_of_nil.
    destruct (isEqual tokenFrom _); [reflexivity|].
    rewrite elem_of_nil. tauto.
  - intros ->. rewrite elem_of_app. right. apply list_elem_of_here.
  - rewrite !not_elem_of_cons. split; [tauto | apply not_elem_of_nil].
  - rewrite !not_elem_of_cons. split; [tauto | apply not_elem_of_nil].
Qed.

(** Membership of nUSD in the three sets of the L2 gate. *)
Lemma l2_sets_NUSD sdk this (tokenFrom : Token) d r e :
  id (Tokens.NUSD (catalogue sdk))
    ∉ [id (Tokens.SYN (catalogue sdk)); id (Tokens.HIGH (catalogue sdk));
       id (Tokens.DOG (catalogue sdk)); id (Tokens.FRAX (catalogue sdk));
       id (Tokens.NETH (catalogue sdk))] ->
  id (Tokens.NUSD (catalogue sdk)) ∉ depositIfChainTokenIds sdk ->
  Bridge.l2EasySets sdk this tokenFrom = (d, r, e) ->
  ((id (Tokens.NUSD (catalogue sdk)) ∈ r)
   <-> isEqual tokenFrom (Tokens.NUSD (catalogue sdk)) = true)
  /\ (id (Tokens.NUSD (catalogue sdk)) ∉ d)
  /\ (id (Tokens.NUSD (catalogue sdk)) ∉ e).
Proof.
  intros Hd Htab Hsets. rewrite !not_elem_of_cons in Hd.
  unfold depositIfChainTokenIds in Htab.
  unfold Bridge.l2EasySets in Hsets.
  destruct (l2_fold_sets _ _ _ _ _ _ _ _ Hsets) as (Hmono & Hind & Hinr & Hine).
  repeat split.
  - intros Hin. destruct (Hinr _ Hin) as [H|H]; [|contradiction].
    rewrite elem_of_app, !elem_of_cons, elem_of_nil in H.
    destruct (isEqual tokenFrom _); [reflexivity|].
    rewrite elem_of_nil in H. tauto.
  - intros Heq. apply Hmono. rewrite Heq, elem_of_app. right.
    apply list_elem_of_here.
  - intros Hin. destruct (Hind _ Hin) as [H|H]; [|contradiction].
    now apply elem_of_nil in H.
  - intros Hin. destruct (Hine _ Hin) as [H|H]; [|contradiction].
    now apply elem_of_nil in H.
Qed.

(** C7: provided nUSD is a token of its own (distinct from SYN, HIGH, DOG,
    FRAX and nETH) and [DepositIfChainTokens] does not list it, nUSD is a
    member of the direct-deposit set of the mainnet gate, and of the
    direct-redeem set of the L2 gate, exactly when the source token is nUSD
    itself. For any other source token a request with nUSD as destination
    passes neither gate: mainnet builds the composite [zapAndDeposit] and
    an L2 builds [swapAndRedeem]. From nUSD itself both gates accept. *)
Theorem stable_asset_direct_only_from_itself :
  forall (sdk : SDK) (this : Bridge.SynapseBridge)
         (args : Bridge.BridgeTransactionParams.t)
         (targs : Bridge.BridgeTokenArgs.t),
    let NUSD := Tokens.NUSD (catalogue sdk) in
    let tokenFrom := Bridge.BridgeTransactionParams.tokenFrom args in
    let tokenTo := Bridge.BridgeTransactionParams.tokenTo args in
    id NUSD
      ∉ [id (Tokens.SYN (catalogue sdk)); id (Tokens.HIGH (catalogue sdk));
         id (Tokens.DOG (catalogue sdk)); id (Tokens.FRAX (catalogue sdk));
         id (Tokens.NETH (catalogue sdk))] ->
    id NUSD ∉ depositIfChainTokenIds sdk ->
    ((id NUSD ∈ Bridge.mainnetEasyDeposits sdk tokenFrom)
     <-> isEqual tokenFrom NUSD = true)
    /\ ((id NUSD ∈ snd (fst (Bridge.l2EasySets sdk this tokenFrom)))
        <-> isEqual tokenFrom NUSD = true)
    /\ (id tokenTo = id NUSD ->
        isEqual tokenFrom NUSD = false ->
        Bridge.isEasy (mainnetEasyCheck sdk this args) = false
        /\ Bridge.isEasy (l2EasyCheck sdk this args) = false
        /\ (exists tx,
              Bridge.buildETHMainnetBridgeTxn sdk this args targs
              = Bridge.populate tx
              /\ target tx = L1BridgeZap /\ method tx = zapAndDeposit)
        /\ Bridge.buildL2BridgeTxn sdk this args targs
           = Bridge.populate
               (mkCall L2BridgeZap swapAndRedeem
                  (swapAndRedeemArgs sdk this args targs NUSD) None))
    /\ (id tokenTo = id NUSD ->
        isEqual tokenFrom NUSD = true ->
        Bridge.buildETHMainnetBridgeTxn sdk this args targs
        = Bridge.populate
            (mkCall L1BridgeZap deposit (directArgs this args tokenTo) None)
        /\ Bridge.buildL2BridgeTxn sdk this args targs
           = Bridge.populate
               (mkCall L2BridgeZap redeem (directArgs this args tokenTo)
                  None)).
Proof.
  intros sdk this args targs NUSD tokenFrom tokenTo Hd Htab.
  destruct (mainnet_sets_NUSD sdk tokenFrom Hd) as (Hmd & Hmr & Hme).
  destruct (Bridge.l2EasySets sdk this tokenFrom) as [[d r] e] eqn:Hsets.
  destruct (l2_sets_NUSD sdk this tokenFrom d r e Hd Htab Hsets)
    as (Hlr & Hld & Hle).
  fold NUSD in Hmd, Hmr, Hme, Hlr, Hld, Hle.
  split; [exact Hmd|]. split; [exact Hlr|]. split.
  - intros Hto Hfrom.
    assert (Hm : mainnetEasyCheck sdk this args
                 = {| Bridge.castArgs :=
                        Bridge.BridgeTransactionParams.asBridgeTxParams args;
                      Bridge.isEasy := false; Bridge.txn := None |}).
    { unfold mainnetEasyCheck. apply checkEasyArgs_not_member;
        fold tokenTo; rewrite Hto; apply includes_false; try assumption.
      intros Hin. apply Hmd in Hin. congruence. }
    assert (Hl : l2EasyCheck sdk this args
                 = {| Bridge.castArgs :=
                        Bridge.BridgeTransactionParams.asBridgeTxParams args;
                      Bridge.isEasy := false; Bridge.txn := None |}).
    { unfold l2EasyCheck. fold tokenFrom. rewrite Hsets.
      apply checkEasyArgs_not_member;
        fold tokenTo; rewrite Hto; apply includes_false; try assumption.
      intros Hin. apply Hlr in Hin. congruence. }
    split; [now rewrite Hm|]. split; [now rewrite Hl|]. split.
    + eexists. unfold Bridge.buildETHMainnetBridgeTxn.
      unfold mainnetEasyCheck in Hm. rewrite Hm. cbn [Bridge.isEasy].
      fold tokenTo tokenFrom NUSD.
      rewrite (bool_decide_eq_true_2 _ Hto), Hfrom. cbn [negb].
      split; [reflexivity|]. split; reflexivity.
    + unfold Bridge.buildL2BridgeTxn.
      unfold l2EasyCheck in Hl. fold tokenFrom in Hl |- *.
      rewrite Hsets in Hl |- *. rewrite Hl. cbn [Bridge.isEasy].
      fold tokenTo NUSD.
      rewrite (bool_decide_eq_true_2 _ Hto). reflexivity.
  - intros Hto Hfrom. split.
    + unfold Bridge.buildETHMainnetBridgeTxn.
      rewrite checkEasyArgs_deposit; [reflexivity| |];
        fold tokenTo; rewrite Hto.
      * now apply includes_false.
      * apply includes_true. now apply Hmd.
    + unfold Bridge.buildL2BridgeTxn. fold tokenFrom. rewrite Hsets.
      rewrite checkEasyArgs_redeem; [reflexivity|].
      fold tokenTo. rewrite Hto. apply includes_true. now apply Hlr.
Qed.

(** C7, instantiated: on the reference deployment, USDC to nUSD passes
    neither gate, on mainnet or on Arbitrum. *)
Lemma stable_asset_direct_only_from_itself_witness :
  Bridge.isEasy
    (mainnetEasyCheck Demo.sdk Demo.onMainnet
       (Demo.buildRequest Demo.USDC Demo.NUSD 56 1000 990 (Some "0xabc")))
  = false
  /\ Bridge.isEasy
       (l2EasyCheck Demo.sdk Demo.onArbitrum
          (Demo.buildRequest Demo.USDC Demo.NUSD 56 1000 990 (Some "0xabc")))
     = false.
Proof.
  assert (Hd : id Demo.NUSD
               ∉ [id Demo.SYN; id Demo.HIGH; id Demo.DOG; id Demo.FRAX;
                  id Demo.NETH]).
  { cbn. rewrite !not_elem_of_cons.
    repeat split; try discriminate. apply not_elem_of_nil. }
  assert (Htab : id Demo.NUSD ∉ depositIfChainTokenIds Demo.sdk).
  { cbn. rewrite !not_elem_of_cons.
    repeat split; try discriminate. apply not_elem_of_nil. }
  pose (req := Demo.buildRequest Demo.USDC Demo.NUSD 56 1000 990
                 (Some "0xabc")).
  pose (targs :=
    {| Bridge.BridgeTokenArgs.fromChainTokens := [];
       Bridge.BridgeTokenArgs.toChainTokens := [];
       Bridge.BridgeTokenArgs.tokenFrom := Demo.USDC;
       Bridge.BridgeTokenArgs.tokenTo := Demo.NUSD;
       Bridge.BridgeTokenArgs.tokenIndexFrom := 1;
       Bridge.BridgeTokenArgs.tokenIndexTo := 0 |}).
  split.
  - destruct (stable_asset_direct_only_from_itself Demo.sdk Demo.onMainnet
                req targs Hd Htab) as (_ & _ & H & _).
    exact (proj1 (H eq_refl eq_refl)).
  - destruct (stable_asset_direct_only_from_itself Demo.sdk Demo.onArbitrum
                req targs Hd Htab) as (_ & _ & H & _).
    exact (proj1 (proj2 (H eq_refl eq_refl))).
Defined.

(** * Further properties of the code *)

(** ** The network registry *)

(** What [fromChainId] finds under a key of the map was built by the
    constructor for that very chain id. *)
Lemma fromChainId_Some cid swappable c n :
  Networks.fromChainId cid swappable c = Some n ->
  c ∈ networkChains cid
  /\ exists nm nms cur, n = Networks.new_Network swappable nm nms c cur.
Proof.
  unfold Networks.fromChainId, Networks.CHAINID_NETWORK_MAP, networkChains.
  intros H.
  repeat (rewrite lookup_insert in H; case_decide;
          [ simplify_eq; split;
            [ rewrite !elem_of_cons; tauto | do 3 eexists; reflexivity ]
          | ]).
  now rewrite lookup_empty in H.
Qed.

Lemma fromChainId_None cid swappable c :
  Networks.fromChainId cid swappable c = None <-> c ∉ networkChains cid.
Proof.
  unfold Networks.fromChainId, Networks.CHAINID_NETWORK_MAP, networkChains.
  rewrite !not_elem_of_cons. split.
  - intros H.
    repeat (rewrite lookup_insert in H; case_decide; [discriminate|]).
    repeat split; try congruence. apply not_elem_of_nil.
  - intros H.
    rewrite !lookup_insert_ne by (intros E; symmetry in E; tauto).
    apply lookup_empty.
Qed.

(** X1: [Networks.fromChainId] answers exactly for the nine chain ids of
    [CHAINID_NETWORK_MAP] and returns [null] for every other id; the network
    it returns is bound to the id that was asked for, and its token and
    token-address lists are those of that chain. *)
Theorem fromChainId_round_trip :
  forall (cid : ChainId.t) (swappable : Z -> list Token) (c : Z),
    (is_Some (Networks.fromChainId cid swappable c)
     <-> c ∈ networkChains cid)
    /\ forall n : Networks.Network,
         Networks.fromChainId cid swappable c = Some n ->
         Networks.chainId n = c
         /\ Networks.tokens n = swappable c
         /\ Networks.tokenAddresses n
            = map (fun t => address t c) (swappable c).
Proof.
  intros cid swappable c. split.
  - split.
    + intros [n Hn]. now apply fromChainId_Some in Hn.
    + intros Hin. destruct (Networks.fromChainId cid swappable c) eqn:E.
      * eauto.
      * apply fromChainId_None in E. contradiction.
  - intros n Hn. apply fromChainId_Some in Hn as (_ & nm & nms & cur & ->).
    repeat split.
Qed.

(** X1, instantiated: chain 42161 of the reference deployment is Arbitrum. *)
Lemma fromChainId_round_trip_witness :
  exists n,
    Networks.fromChainId Demo.chains
      (SwapPools.getAllSwappableTokensForNetwork Demo.swapPools) 42161
    = Some n
    /\ Networks.chainId n = 42161.
Proof.
  destruct (fromChainId_round_trip Demo.chains
              (SwapPools.getAllSwappableTokensForNetwork Demo.swapPools)
              42161) as [[_ Hsome] Hsound].
  destruct Hsome as [n Hn].
  { unfold networkChains. cbn. rewrite !elem_of_cons. tauto. }
  exists n. split; [exact Hn|]. now apply Hsound.
Defined.

(** X2: called with a chain id, [Networks.networkSupportsToken] throws (the
    [supportsToken] call on [null]) exactly when the id is not one of the
    nine networks; for a listed id it answers as [supportsToken] does on
    that chain: [true] for the symbol "ETH" on an ETH-token chain, otherwise
    the membership of the token's address among the addresses of the chain's
    swappable tokens. *)
Theorem networkSupportsToken_by_chain_id :
  forall (cid : ChainId.t) (swappable : Z -> list Token) (c : Z)
         (token : Token),
    (Networks.networkSupportsToken cid swappable (inr c) token = None
     <-> c ∉ networkChains cid)
    /\ (c ∈ networkChains cid ->
        Networks.networkSupportsToken cid swappable (inr c) token
        = Some (if bool_decide (symbol token = "ETH")
                   && includes (Networks.ETH_TOKEN_CHAINS cid) c
                then true
                else includes (map (fun t => address t c) (swappable c))
                              (address token c))).
Proof.
  intros cid swappable c token. unfold Networks.networkSupportsToken.
  split.
  - rewrite <- (fromChainId_None cid swappable c). cbn zeta.
    destruct (Networks.fromChainId cid swappable c); split; intros H;
      (discriminate || reflexivity).
  - intros Hin.
    destruct (Networks.fromChainId cid swappable c) as [n|] eqn:E.
    + apply fromChainId_Some in E as (_ & nm & nms & cur & ->).
      reflexivity.
    + apply fromChainId_None in E. contradiction.
Qed.

(** X2, instantiated: on the reference deployment, Optimism (chain 10) has
    required confirmations but no network, so the call throws; on Arbitrum
    the bare ETH token is supported. *)
Lemma networkSupportsToken_by_chain_id_witness :
  Networks.networkSupportsToken Demo.chains
    (SwapPools.getAllSwappableTokensForNetwork Demo.swapPools)
    (inr 10) Demo.ETH = None
  /\ Networks.networkSupportsToken Demo.chains
       (SwapPools.getAllSwappableTokensForNetwork Demo.swapPools)
       (inr 42161) Demo.ETH = Some true.
Proof.
  split.
  - apply (proj1 (networkSupportsToken_by_chain_id Demo.chains
                    (SwapPools.getAllSwappableTokensForNetwork
                       Demo.swapPools) 10 Demo.ETH)).
    unfold networkChains. cbn. rewrite !not_elem_of_cons.
    repeat split; try discriminate. apply not_elem_of_nil.
  - rewrite (proj2 (networkSupportsToken_by_chain_id Demo.chains
                      (SwapPools.getAllSwappableTokensForNetwork
                         Demo.swapPools) 42161 Demo.ETH)).
    + reflexivity.
    + unfold networkChains. cbn. rewrite !elem_of_cons. tauto.
Defined.

(** X3: on a network built by the constructor, [supportsToken] holds exactly
    when the token has the symbol "ETH" on one of the three ETH-token
    chains, or some swappable token of the chain has the same address on it
    as the token (two absent addresses count as the same); in particular
    every swappable token of the chain is supported. *)
Theorem supportsToken_of_constructed_network :
  forall (cid : ChainId.t) (swappable : Z -> list Token)
         (nm : string) (nms : option (list string)) (c : Z) (cur : string)
         (token : Token),
    let n := Networks.new_Network swappable nm nms c cur in
    (Networks.supportsToken cid n token = true
     <-> (symbol token = "ETH" /\ c ∈ Networks.ETH_TOKEN_CHAINS cid)
         \/ exists t, t ∈ swappable c /\ address t c = address token c)
    /\ (token ∈ swappable c -> Networks.supportsToken cid n token = true).
Proof.
  intros cid swappable nm nms c cur token n.
  assert (Hiff :
    Networks.supportsToken cid n token = true
    <-> (symbol token = "ETH" /\ c ∈ Networks.ETH_TOKEN_CHAINS cid)
        \/ exists t, t ∈ swappable c /\ address t c = address token c).
  { unfold Networks.supportsToken, includes. subst n. cbn.
    destruct (bool_decide (symbol token = "ETH")) eqn:Hs.
    - apply bool_decide_eq_true_1 in Hs.
      destruct (bool_decide (c ∈ Networks.ETH_TOKEN_CHAINS cid)) eqn:Hc.
      + apply bool_decide_eq_true_1 in Hc. cbn. tauto.
      + apply bool_decide_eq_false_1 in Hc. cbn.
        rewrite bool_decide_eq_true, list_elem_of_fmap.
        split.
        * intros (t & Ht & Hin). right. exists t. auto.
        * intros [[_ H]|(t & Hin & Ht)]; [contradiction|]. exists t. auto.
    - apply bool_decide_eq_false_1 in Hs. cbn.
      rewrite bool_decide_eq_true, list_elem_of_fmap.
      split.
      + intros (t & Ht & Hin). right. exists t. auto.
      + intros [[H _]|(t & Hin & Ht)]; [contradiction|]. exists t. auto. }
  split; [exact Hiff|].
  intros Hin. apply Hiff. right. exists token. auto.
Qed.

(** X3, instantiated: USDC is a swappable token of BSC, hence supported
    there. *)
Lemma supportsToken_of_constructed_network_witness :
  Networks.supportsToken Demo.chains Demo.bsc Demo.USDC = true.
Proof.
  apply (proj2 (supportsToken_of_constructed_network Demo.chains
                  (SwapPools.getAllSwappableTokensForNetwork Demo.swapPools)
                  "Binance Smart Chain" None 56 "BNB" Demo.USDC)).
  change (Demo.USDC ∈ [Demo.NUSD; Demo.DAI; Demo.USDC; Demo.USDT] ++ []).
  do 2 apply list_elem_of_further. apply list_elem_of_here.
Defined.

(** ** Required confirmations of every chain *)

Lemma REQUIRED_CONFS_lookup (cid : ChainId.t) (c : Z) :
  match Bridge.REQUIRED_CONFS cid !! c with
  | Some v => c ∈ confirmationChains cid /\ 1 <= v <= 128
  | None => c ∉ confirmationChains cid
  end.
Proof.
  unfold Bridge.REQUIRED_CONFS, confirmationChains.
  repeat (rewrite lookup_insert; case_decide;
          [ subst c; split; [rewrite !elem_of_cons; tauto | lia] | ]).
  rewrite lookup_empty. rewrite !not_elem_of_cons.
  repeat split; try congruence. apply not_elem_of_nil.
Qed.

Lemma requiredConfirmations_listed (cid : ChainId.t) (c : Z) :
  c ∈ confirmationChains cid ->
  1 <= Bridge.getRequiredConfirmationsForBridge cid (inr c) <= 128.
Proof.
  intros Hin. unfold Bridge.getRequiredConfirmationsForBridge.
  pose proof (REQUIRED_CONFS_lookup cid c) as H.
  destruct (Bridge.REQUIRED_CONFS cid !! c) as [v|]; cbn.
  - lia.
  - contradiction.
Qed.

(** X4: [getRequiredConfirmationsForBridge] returns the sentinel [-1]
    exactly for the chain ids that are not keys of [REQUIRED_CONFS]; for a
    key it returns a count between 1 and 128; and a [Network] instance is
    answered as its chain id is. *)
Theorem requiredConfirmations_sentinel_iff_unlisted :
  forall (cid : ChainId.t) (c : Z),
    (Bridge.getRequiredConfirmationsForBridge cid (inr c) = -1
     <-> c ∉ confirmationChains cid)
    /\ (c ∈ confirmationChains cid ->
        1 <= Bridge.getRequiredConfirmationsForBridge cid (inr c) <= 128)
    /\ (forall n : Networks.Network,
          Networks.chainId n = c ->
          Bridge.getRequiredConfirmationsForBridge cid (inl n)
          = Bridge.getRequiredConfirmationsForBridge cid (inr c)).
Proof.
  intros cid c. unfold Bridge.getRequiredConfirmationsForBridge.
  pose proof (REQUIRED_CONFS_lookup cid c) as H.
  destruct (Bridge.REQUIRED_CONFS cid !! c) as [v|] eqn:E; cbn.
  - destruct H as [Hin Hv]. split; [|split].
    + split; [intros Hm; lia | intros Hn; contradiction].
    + intros _. lia.
    + intros n ->. now rewrite E.
  - split; [|split].
    + tauto.
    + intros Hin. contradiction.
    + intros n ->. now rewrite E.
Qed.

(** X4, instantiated: Polygon (137) is listed, chain 999 is not. *)
Lemma requiredConfirmations_sentinel_iff_unlisted_witness :
  1 <= Bridge.getRequiredConfirmationsForBridge Demo.chains (inr 137) <= 128
  /\ Bridge.getRequiredConfirmationsForBridge Demo.chains (inr 999) = -1.
Proof.
  split.
  - apply (requiredConfirmations_sentinel_iff_unlisted Demo.chains 137).
    unfold confirmationChains. cbn. rewrite !elem_of_cons. tauto.
  - apply (requiredConfirmations_sentinel_iff_unlisted Demo.chains 999).
    unfold confirmationChains. cbn. rewrite !not_elem_of_cons.
    repeat split; try discriminate. apply not_elem_of_nil.
Defined.

Lemma networkChains_confirmationChains (cid : ChainId.t) (c : Z) :
  c ∈ networkChains cid -> c ∈ confirmationChains cid.
Proof.
  unfold networkChains, confirmationChains. rewrite !elem_of_cons. tauto.
Qed.

(** X5: constructing a [SynapseBridge] from a chain id succeeds exactly for
    the nine chain ids that have a [Network]; for any other id the
    constructor throws. A bridge so constructed is bound to that chain, is an
    L2 zap unless the chain is Ethereum mainnet, and always has a known
    confirmation count (between 1 and 128, never the sentinel). *)
Theorem bridge_by_chain_id :
  forall (sdk : SDK) (c : Z),
    (Bridge.new_SynapseBridge_of sdk (inr c) = Rejected TypeError
     <-> c ∉ networkChains (chainIds sdk))
    /\ forall b : Bridge.SynapseBridge,
         Bridge.new_SynapseBridge_of sdk (inr c) = Resolved b ->
         c ∈ networkChains (chainIds sdk)
         /\ Bridge.chainId b = c
         /\ Bridge.isL2Zap b
            = negb (bool_decide (c = ChainId.ETH (chainIds sdk)))
         /\ Bridge.isL2ETHChain b = BridgeUtils.isL2ETHChain (utils sdk) c
         /\ 1 <= Bridge.requiredConfirmations b <= 128.
Proof.
  intros sdk c. unfold Bridge.new_SynapseBridge_of.
  destruct (Networks.fromChainId (chainIds sdk) _ c) as [n|] eqn:E.
  - pose proof E as E'.
    apply fromChainId_Some in E' as (Hin & nm & nms & cur & ->).
    split.
    + split; [discriminate|]. intros Hn. contradiction.
    + intros b Hb. injection Hb as <-. cbn.
      repeat split; try assumption;
        apply (requiredConfirmations_listed (chainIds sdk) c);
        now apply networkChains_confirmationChains.
  - apply fromChainId_None in E. split.
    + tauto.
    + intros b Hb. discriminate.
Qed.

(** X5, instantiated: a bridge for chain 43114 is bound to Avalanche, with
    5 confirmations; there is none for Moonbeam (1284), although
    [REQUIRED_CONFS] lists it. *)
Lemma bridge_by_chain_id_witness :
  (exists b, Bridge.new_SynapseBridge_of Demo.sdk (inr 43114) = Resolved b
             /\ Bridge.chainId b = 43114
             /\ Bridge.requiredConfirmations b = 5)
  /\ Bridge.new_SynapseBridge_of Demo.sdk (inr 1284) = Rejected TypeError
  /\ Bridge.getRequiredConfirmationsForBridge Demo.chains (inr 1284) = 21.
Proof.
  split; [|split].
  - eexists. split; [reflexivity|].
    split.
    + refine (proj1 (proj2 (proj2 (bridge_by_chain_id Demo.sdk 43114) _ _))).
      reflexivity.
    + reflexivity.
  - apply (proj1 (bridge_by_chain_id Demo.sdk 1284)).
    unfold networkChains. cbn. rewrite !not_elem_of_cons.
    repeat split; try discriminate. apply not_elem_of_nil.
  - reflexivity.
Defined.

(** ** Token-argument resolution *)

Lemma findIndex_upper {A} (p : A -> bool) (l : list A) :
  findIndex p l < Z.of_nat (length l).
Proof.
  induction l as [|x l IH]; cbn [findIndex length]; [lia|].
  destruct (p x); [lia|].
  destruct (Z.ltb_spec (findIndex p l) 0); lia.
Qed.

(** A non-negative result is the first position whose element satisfies
    [p]. *)
Lemma findIndex_first {A} (p : A -> bool) (l : list A) :
  0 <= findIndex p l ->
  (exists x, l !! Z.to_nat (findIndex p l) = Some x /\ p x = true)
  /\ forall (j : nat) (y : A),
       (j < Z.to_nat (findIndex p l))%nat -> l !! j = Some y -> p y = false.
Proof.
  induction l as [|x l IH]; cbn [findIndex]; [lia|].
  destruct (p x) eqn:Hpx.
  - intros _. split; [exists x; now split|]. intros j y Hj. cbn in Hj. lia.
  - destruct (Z.ltb_spec (findIndex p l) 0) as [Hlt|Hge]; [lia|].
    intros _. destruct (IH Hge) as [(z & Hz & Hpz) Hbefore].
    replace (Z.to_nat (findIndex p l + 1))
      with (S (Z.to_nat (findIndex p l))) by lia.
    split; [exists z; now split|].
    intros [|j] y Hj Hy.
    + cbn in Hy. now injection Hy as <-.
    + cbn in Hy. apply (Hbefore j y); [lia | exact Hy].
Qed.

Lemma findIndex_minus_one_iff {A} (p : A -> bool) (l : list A) :
  findIndex p l = -1 <-> forall x, x ∈ l -> p x = false.
Proof.
  split.
  - intros H x Hin. destruct (p x) eqn:Hpx; [|reflexivity].
    destruct (findIndex_found p l) as [Hr _]; [now exists x|]. lia.
  - apply findIndex_absent.
Qed.

(** X6: [makeTokenArgs] throws exactly when the chain has no pool list for
    the token's swap type. Otherwise it never fails: the index it returns is
    [-1] exactly when no pool entry matches the token, and else the position
    of the first matching entry of the list. *)
Theorem makeTokenArgs_index :
  forall (sdk : SDK) (chain : Z) (t : Token),
    (Bridge.makeTokenArgs sdk chain t = Rejected TypeError
     <-> SwapPools.bridgeSwappableTypePoolsByChain (pools sdk) chain
           (swapType t) = None)
    /\ forall (toks : list Token),
         SwapPools.bridgeSwappableTypePoolsByChain (pools sdk) chain
           (swapType t) = Some toks ->
         exists i : Z,
           Bridge.makeTokenArgs sdk chain t = Resolved (toks, i)
           /\ -1 <= i < Z.of_nat (length toks)
           /\ (i = -1
               <-> forall tok, tok ∈ toks ->
                     Bridge.findSymbol sdk tok t = false)
           /\ (0 <= i ->
               (exists tok, toks !! Z.to_nat i = Some tok
                            /\ Bridge.findSymbol sdk tok t = true)
               /\ forall (j : nat) (tok : Token),
                    (j < Z.to_nat i)%nat -> toks !! j = Some tok ->
                    Bridge.findSymbol sdk tok t = false).
Proof.
  intros sdk chain t. unfold Bridge.makeTokenArgs.
  destruct (SwapPools.bridgeSwappableTypePoolsByChain _ _ _) as [toks|].
  - split; [split; discriminate|].
    intros toks' [= <-].
    exists (findIndex (fun tok => Bridge.findSymbol sdk tok t) toks).
    split; [reflexivity|]. split.
    + split; [apply findIndex_lower | apply findIndex_upper].
    + split; [apply findIndex_minus_one_iff|].
      apply (findIndex_first (fun tok => Bridge.findSymbol sdk tok t)).
  - split; [tauto|]. discriminate.
Qed.

(** X6, instantiated: USDT has a position in the four-token USD pool of BSC;
    on chain 999 the lookup throws. *)
Lemma makeTokenArgs_index_witness :
  (exists i,
     Bridge.makeTokenArgs Demo.sdk 56 Demo.USDT
     = Resolved ([Demo.NUSD; Demo.DAI; Demo.USDC; Demo.USDT], i)
     /\ -1 <= i < 4)
  /\ Bridge.makeTokenArgs Demo.sdk 999 Demo.USDT = Rejected TypeError.
Proof.
  split.
  - destruct (proj2 (makeTokenArgs_index Demo.sdk 56 Demo.USDT)
                [Demo.NUSD; Demo.DAI; Demo.USDC; Demo.USDT] eq_refl)
      as (i & Hres & Hrange & _).
    exists i. split; [exact Hres | exact Hrange].
  - apply (proj1 (makeTokenArgs_index Demo.sdk 999 Demo.USDT)). reflexivity.
Defined.

Lemma makeBridgeTokenArgs_rejects_TypeError sdk this args e :
  Bridge.makeBridgeTokenArgs sdk this args = Rejected e -> e = TypeError.
Proof.
  unfold Bridge.makeBridgeTokenArgs, Bridge.makeTokenArgs.
  destruct (Bridge.bridgeTokens sdk _ _ _) as [tf tt].
  destruct (SwapPools.bridgeSwappableTypePoolsByChain (pools sdk)
              (Bridge.chainId this) (swapType tf)) as [l1|].
  - destruct (SwapPools.bridgeSwappableTypePoolsByChain (pools sdk)
                (Bridge.BridgeParams.chainIdTo args) (swapType tt)) as [l2|].
    + discriminate.
    + now intros [= <-].
  - now intros [= <-].
Qed.

(** X7: [makeBridgeTokenArgs] has one failure, the [TypeError] of a missing
    pool list, and it fails exactly when the source chain has no pool list
    for the resolved source token's swap type or the destination chain has
    none for the resolved destination token's. When it succeeds, the two
    lists it returns are those pool lists and the two tokens are the
    request's tokens after the native-to-wrapped rewriting, which is keyed on
    the source token's swap type for both. *)
Theorem makeBridgeTokenArgs_outcome :
  forall (sdk : SDK) (this : Bridge.SynapseBridge)
         (args : Bridge.BridgeParams.t),
    let tokenFrom :=
      fst (Bridge.bridgeTokens sdk (Bridge.BridgeParams.tokenFrom args)
             (Bridge.BridgeParams.tokenFrom args)
             (Bridge.BridgeParams.tokenTo args)) in
    let tokenTo :=
      snd (Bridge.bridgeTokens sdk (Bridge.BridgeParams.tokenFrom args)
             (Bridge.BridgeParams.tokenFrom args)
             (Bridge.BridgeParams.tokenTo args)) in
    let fromPool :=
      SwapPools.bridgeSwappableTypePoolsByChain (pools sdk)
        (Bridge.chainId this) (swapType tokenFrom) in
    let toPool :=
      SwapPools.bridgeSwappableTypePoolsByChain (pools sdk)
        (Bridge.BridgeParams.chainIdTo args) (swapType tokenTo) in
    (forall e, Bridge.makeBridgeTokenArgs sdk this args = Rejected e ->
               e = TypeError /\ (fromPool = None \/ toPool = None))
    /\ (forall targs,
          Bridge.makeBridgeTokenArgs sdk this args = Resolved targs ->
          fromPool = Some (Bridge.BridgeTokenArgs.fromChainTokens targs)
          /\ toPool = Some (Bridge.BridgeTokenArgs.toChainTokens targs)
          /\ Bridge.BridgeTokenArgs.tokenFrom targs = tokenFrom
          /\ Bridge.BridgeTokenArgs.tokenTo targs = tokenTo
          /\ -1 <= Bridge.BridgeTokenArgs.tokenIndexFrom targs
             < Z.of_nat (length (Bridge.BridgeTokenArgs.fromChainTokens targs))
          /\ -1 <= Bridge.BridgeTokenArgs.tokenIndexTo targs
             < Z.of_nat (length (Bridge.BridgeTokenArgs.toChainTokens targs))).
Proof.
  intros sdk this args tokenFrom tokenTo fromPool toPool.
  subst tokenFrom tokenTo fromPool toPool.
  unfold Bridge.makeBridgeTokenArgs, Bridge.makeTokenArgs.
  destruct (Bridge.bridgeTokens sdk _ _ _) as [tf tt]. cbn [fst snd].
  destruct (SwapPools.bridgeSwappableTypePoolsByChain (pools sdk)
              (Bridge.chainId this) (swapType tf)) as [l1|].
  - destruct (SwapPools.bridgeSwappableTypePoolsByChain (pools sdk)
                (Bridge.BridgeParams.chainIdTo args) (swapType tt)) as [l2|].
    + split; [discriminate|]. intros targs [= <-]. cbn.
      repeat split;
        first [apply findIndex_lower | apply findIndex_upper].
    + split; [|discriminate]. intros e [= <-]. auto.
  - split; [|discriminate]. intros e [= <-]. auto.
Qed.

(** X7, instantiated: bare AVAX towards wAVAX resolves to wAVAX on both
    legs. *)
Lemma makeBridgeTokenArgs_outcome_witness :
  exists targs,
    Bridge.makeBridgeTokenArgs Demo.sdk Demo.onAvalanche
      (Demo.estimateRequest Demo.AVAX Demo.WAVAX 1284 5000) = Resolved targs
    /\ id (Bridge.BridgeTokenArgs.tokenFrom targs) = id Demo.WAVAX
    /\ id (Bridge.BridgeTokenArgs.tokenTo targs) = id Demo.WAVAX.
Proof.
  eexists. split; [reflexivity|].
  destruct (proj2 (makeBridgeTokenArgs_outcome Demo.sdk Demo.onAvalanche
                     (Demo.estimateRequest Demo.AVAX Demo.WAVAX 1284 5000))
              _ eq_refl) as (_ & _ & Hf & Ht & _).
  rewrite Hf, Ht. split; reflexivity.
Defined.

(** X8: token-argument resolution exchanges only the bare native-gas token
    of the source token's swap-type family (ETH, AVAX or MOVR) for its
    wrapped form, in both tokens of the request: every other token is left
    as it is, a request whose source token belongs to no such family is left
    untouched, and (the wrapped form being a token of its own) neither
    resolved token is that bare native token any more. *)
Theorem bridgeTokens_normalises_family :
  forall (sdk : SDK) (tokenFrom t1 t2 : Token),
    match nativeFamily sdk (swapType tokenFrom) with
    | None => Bridge.bridgeTokens sdk tokenFrom t1 t2 = (t1, t2)
    | Some (bare, wrapped) =>
        forall r1 r2,
          Bridge.bridgeTokens sdk tokenFrom t1 t2 = (r1, r2) ->
          (isEqual t1 bare = false -> r1 = t1)
          /\ (isEqual t2 bare = false -> r2 = t2)
          /\ (isEqual t1 bare = true -> r1 = wrapped)
          /\ (isEqual t2 bare = true -> r2 = wrapped)
          /\ (isEqual wrapped bare = false ->
              isEqual r1 bare = false /\ isEqual r2 bare = false)
    end.
Proof.
  intros sdk tokenFrom t1 t2.
  unfold nativeFamily, Bridge.bridgeTokens, Bridge.checkAndChangeTokens,
    Bridge.checkAndChangeToken.
  destruct (swapType tokenFrom); try reflexivity;
    intros r1 r2 [= <- <-];
    match goal with
    | |- context [isEqual t1 ?b] =>
        destruct (isEqual t1 b) eqn:E1; destruct (isEqual t2 b) eqn:E2
    end;
    repeat split; intros; try reflexivity; try discriminate; assumption.
Qed.

(** X8, instantiated: from WETH.e (ETH family) towards bare ETH, the
    destination becomes WETH; towards bare AVAX it stays bare AVAX. *)
Lemma bridgeTokens_normalises_family_witness :
  id (snd (Bridge.bridgeTokens Demo.sdk Demo.WETH_E Demo.WETH_E Demo.ETH))
  = id Demo.WETH
  /\ id (snd (Bridge.bridgeTokens Demo.sdk Demo.WETH_E Demo.WETH_E Demo.AVAX))
     = id Demo.AVAX.
Proof.
  pose proof (bridgeTokens_normalises_family Demo.sdk Demo.WETH_E
                Demo.WETH_E Demo.ETH) as H1.
  pose proof (bridgeTokens_normalises_family Demo.sdk Demo.WETH_E
                Demo.WETH_E Demo.AVAX) as H2.
  cbn [nativeFamily Demo.WETH_E Demo.baseToken swapType] in H1, H2.
  split.
  - destruct (H1 _ _ (surjective_pairing _)) as (_ & _ & _ & H & _).
    now rewrite (H eq_refl).
  - destruct (H2 _ _ (surjective_pairing _)) as (_ & H & _).
    now rewrite (H eq_refl).
Defined.

(** ** Output estimation: calls and outcomes *)

Lemma bind_cons {A B} (c : Call) (a : A) (f : A -> Promise B) :
  bind ([c], Resolved a) f = (c :: fst (f a), snd (f a)).
Proof. unfold bind. now destruct (f a). Qed.

Ltac rate_cases sdk reply this args :=
  unfold Bridge.calculateBridgeRate;
  destruct (Bridge.makeBridgeTokenArgs sdk this args) as [?targs|?e];
  [ rewrite bind_lift_Resolved;
    destruct (Bridge.BridgeParams.amountFrom args) as [?a|];
    [ rewrite bind_lift_Resolved;
      destruct (Bridge.bigNumTen_pow _) as [?scale|?e];
      [ rewrite bind_lift_Resolved;
        unfold Bridge.issue, Bridge.calculateSwapL2Zap, Bridge.request,
          bind, ret, lift, throw;
        repeat match goal with
               | |- context [if ?b then _ else _] => destruct b
               | |- context [match reply ?c with _ => _ end] =>
                   destruct (reply c) eqn:?
               end
      | ]
    | ]
  | ].

Lemma calculateBridgeRate_call_discipline sdk reply this args :
  (length (calls (Bridge.calculateBridgeRate sdk reply this args)) <= 3)%nat
  /\ forall c rest,
       calls (Bridge.calculateBridgeRate sdk reply this args) = c :: rest ->
       isFeeQuery c = true
       /\ forall c', c' ∈ rest -> isSwapMathQuery c' = true.
Proof.
  rate_cases sdk reply this args;
    (split; [cbn; lia|]);
    intros c rest Hc; cbn in Hc; try discriminate;
    injection Hc as <- <-; (split; [reflexivity|]);
    intros c' Hin;
    repeat (apply elem_of_cons in Hin as [->|Hin]; [reflexivity|]);
    now apply elem_of_nil in Hin.
Qed.

(** X9: whatever the request and whatever the chain answers,
    [estimateBridgeTokenOutput] issues at most three collaborator calls; if
    it issues any, the first is the fee query and every later one is a
    swap-math query. It never asks the encoder, the signer or a token
    contract. *)
Theorem estimate_call_discipline :
  forall (sdk : SDK) (reply : Call -> option N)
         (this : Bridge.SynapseBridge) (args : Bridge.BridgeParams.t),
    (length (calls (Bridge.estimateBridgeTokenOutput sdk reply this args))
     <= 3)%nat
    /\ forall c rest,
         calls (Bridge.estimateBridgeTokenOutput sdk reply this args)
         = c :: rest ->
         isFeeQuery c = true
         /\ forall c', c' ∈ rest -> isSwapMathQuery c' = true.
Proof.
  intros sdk reply this args.
  destruct (Bridge.swapSupported sdk this args) as [[|] reason] eqn:Hs.
  - rewrite (estimate_supported _ _ _ _ _ Hs).
    apply calculateBridgeRate_call_discipline.
  - rewrite (estimate_unsupported _ _ _ _ _ Hs). cbn.
    split; [lia | discriminate].
Qed.

(** X9, instantiated: the estimate for USDC from Arbitrum to BSC stays within
    three calls. *)
Lemma estimate_call_discipline_witness :
  (length (calls (Bridge.estimateBridgeTokenOutput Demo.sdk Demo.chainUp
                    Demo.onArbitrum
                    (Demo.estimateRequest Demo.USDC Demo.USDC 56 1000000)))
   <= 3)%nat.
Proof.
  apply (proj1 (estimate_call_discipline Demo.sdk Demo.chainUp
                  Demo.onArbitrum
                  (Demo.estimateRequest Demo.USDC Demo.USDC 56 1000000))).
Defined.

Lemma calculateBridgeRate_outcomes sdk reply this args :
  match outcome (Bridge.calculateBridgeRate sdk reply this args) with
  | Resolved (Some est) =>
      exists c fee,
        c ∈ calls (Bridge.calculateBridgeRate sdk reply this args)
        /\ isFeeQuery c = true /\ reply c = Some fee
        /\ Bridge.bridgeFee est = Z.of_N fee
  | Resolved None =>
      exists c, c ∈ calls (Bridge.calculateBridgeRate sdk reply this args)
                /\ isFeeQuery c = true /\ reply c = None
  | Rejected TypeError | Rejected NumericFault =>
      calls (Bridge.calculateBridgeRate sdk reply this args) = []
  | Rejected (CallException c) =>
      isSwapMathQuery c = true /\ reply c = None
      /\ c ∈ calls (Bridge.calculateBridgeRate sdk reply this args)
  | Rejected _ => False
  end.
Proof.
  unfold Bridge.calculateBridgeRate.
  destruct (Bridge.makeBridgeTokenArgs sdk this args) as [targs|e] eqn:Hres.
  2:{ rewrite (makeBridgeTokenArgs_rejects_TypeError _ _ _ _ Hres).
      reflexivity. }
  rewrite bind_lift_Resolved.
  destruct (Bridge.BridgeParams.amountFrom args) as [a|]; [|reflexivity].
  rewrite bind_lift_Resolved.
  unfold Bridge.bigNumTen_pow.
  destruct (_ <? 0); [reflexivity|].
  rewrite bind_lift_Resolved.
  unfold Bridge.issue, Bridge.calculateSwapL2Zap, Bridge.request,
    bind, ret, lift, throw.
  repeat match goal with
         | |- context [if ?b then _ else _] => destruct b
         | |- context [match reply ?c with _ => _ end] =>
             destruct (reply c) eqn:?
         end;
    cbn [outcome calls fst snd app Bridge.amountToReceive Bridge.bridgeFee];
    try (do 2 eexists; split; [apply list_elem_of_here|]; split;
         [reflexivity|]; split; [eassumption | reflexivity]);
    try (eexists; split; [apply list_elem_of_here|]; split;
         [reflexivity | assumption]);
    try (split; [reflexivity|]; split; [assumption|];
         rewrite !elem_of_cons; tauto).
Qed.

(** X10: the outcomes of [estimateBridgeTokenOutput] are these and no
    others. An estimate is returned only for a supported route and after a
    fee query that was answered, and the fee it reports is that answer.
    [null] is returned only after a fee query that was sent and rejected. A
    rejection is the reason of an unsupported route, with no call issued; a
    [TypeError] or an arithmetic fault, with no call issued; or the failure
    of a swap-math query that was sent. A failed fee query is never a
    rejection. *)
Theorem estimate_outcomes :
  forall (sdk : SDK) (reply : Call -> option N)
         (this : Bridge.SynapseBridge) (args : Bridge.BridgeParams.t),
    match outcome (Bridge.estimateBridgeTokenOutput sdk reply this args) with
    | Resolved (Some est) =>
        fst (Bridge.swapSupported sdk this args) = true
        /\ exists c fee,
             c ∈ calls (Bridge.estimateBridgeTokenOutput sdk reply this args)
             /\ isFeeQuery c = true /\ reply c = Some fee
             /\ Bridge.bridgeFee est = Z.of_N fee
    | Resolved None =>
        exists c,
          c ∈ calls (Bridge.estimateBridgeTokenOutput sdk reply this args)
          /\ isFeeQuery c = true /\ reply c = None
    | Rejected (RouteUnsupported reason) =>
        Bridge.swapSupported sdk this args = (false, reason)
        /\ calls (Bridge.estimateBridgeTokenOutput sdk reply this args) = []
    | Rejected TypeError | Rejected NumericFault =>
        calls (Bridge.estimateBridgeTokenOutput sdk reply this args) = []
    | Rejected (CallException c) =>
        isSwapMathQuery c = true /\ reply c = None
        /\ c ∈ calls (Bridge.estimateBridgeTokenOutput sdk reply this args)
    | Rejected _ => False
    end.
Proof.
  intros sdk reply this args.
  destruct (Bridge.swapSupported sdk this args) as [[|] reason] eqn:Hs.
  - rewrite (estimate_supported _ _ _ _ _ Hs).
    pose proof (calculateBridgeRate_outcomes sdk reply this args) as H.
    destruct (outcome (Bridge.calculateBridgeRate sdk reply this args))
      as [[est|]|[]]; try exact H; try contradiction.
    split; [reflexivity | exact H].
  - rewrite (estimate_unsupported _ _ _ _ _ Hs). cbn. auto.
Qed.

(** X11: an estimate between two peripheral chains, for a non-zero amount of
    tokens that are neither mint/burn nor wrapped, is a pipeline of three
    queries in this order: the fee query, the origin pool swap from the
    source token's index to index 0, and the destination pool swap from
    index 0 to the destination token's index, fed with what [subBigNumSafe]
    leaves of the origin output after the fee. When that is zero the
    destination query is not sent and the estimate is zero. *)
Theorem estimate_between_peripheral_chains :
  forall (sdk : SDK) (reply : Call -> option N)
         (this : Bridge.SynapseBridge) (args : Bridge.BridgeParams.t)
         (targs : Bridge.BridgeTokenArgs.t) (a : Z) (fee o : N),
    fst (Bridge.swapSupported sdk this args) = true ->
    Bridge.makeBridgeTokenArgs sdk this args = Resolved targs ->
    Bridge.BridgeParams.amountFrom args = Some a ->
    a <> 0 ->
    decimals (Bridge.BridgeTokenArgs.tokenFrom targs) (Bridge.chainId this)
      <= 18 ->
    Bridge.chainId this <> ChainId.ETH (chainIds sdk) ->
    Bridge.BridgeParams.chainIdTo args <> ChainId.ETH (chainIds sdk) ->
    mintBurnOrWrapped sdk (Bridge.BridgeTokenArgs.tokenFrom targs) = false ->
    mintBurnOrWrapped sdk (Bridge.BridgeTokenArgs.tokenTo targs) = false ->
    reply (bridgeFeeQuery sdk this args targs a) = Some fee ->
    reply (originSwapQuery sdk this args targs a) = Some o ->
    let net := BridgeUtils.subBigNumSafe (Z.of_N o) (Z.of_N fee) in
    (net = 0 ->
     Bridge.estimateBridgeTokenOutput sdk reply this args
     = ([bridgeFeeQuery sdk this args targs a;
         originSwapQuery sdk this args targs a],
        Resolved (Some {| Bridge.amountToReceive := 0;
                          Bridge.bridgeFee := Z.of_N fee |})))
    /\ (net <> 0 ->
        forall d : N,
          reply (destSwapQuery sdk args targs net) = Some d ->
          Bridge.estimateBridgeTokenOutput sdk reply this args
          = ([bridgeFeeQuery sdk this args targs a;
              originSwapQuery sdk this args targs a;
              destSwapQuery sdk args targs net],
             Resolved (Some {| Bridge.amountToReceive := Z.of_N d;
                               Bridge.bridgeFee := Z.of_N fee |}))).
Proof.
  intros sdk reply this args targs a fee o Hs Hres Ha Hnz Hdec Hfrom Hto
    Hmf Hmt Hfee Ho net.
  destruct (Bridge.swapSupported sdk this args) as [b reason] eqn:Hs'.
  cbn in Hs. subst b.
  rewrite (estimate_supported _ _ _ _ _ Hs').
  unfold mintBurnOrWrapped in Hmf, Hmt.
  unfold bridgeFeeQuery in Hfee. unfold originSwapQuery in Ho.
  cbn zeta in Hfee, Ho.
  unfold Bridge.calculateBridgeRate.
  rewrite Hres, bind_lift_Resolved, Ha, bind_lift_Resolved.
  unfold Bridge.bigNumTen_pow.
  destruct (Z.ltb_spec
              (18 - decimals (Bridge.BridgeTokenArgs.tokenFrom targs)
                      (Bridge.chainId this)) 0) as [Hlt|_]; [lia|].
  rewrite bind_lift_Resolved.
  unfold Bridge.issue. rewrite bind_cons, Hfee.
  rewrite (proj2 (Z.eqb_neq _ _) Hnz).
  rewrite (proj2 (Z.eqb_neq _ _) Hfrom), (proj2 (Z.eqb_neq _ _) Hto).
  cbn [andb]. rewrite <- !orb_assoc, Hmf, Hmt. cbn [orb].
  unfold Bridge.calculateSwapL2Zap, Bridge.request. rewrite Ho.
  cbv iota. rewrite bind_cons. cbn [ret fst snd]. rewrite bind_cons.
  fold net.
  unfold bridgeFeeQuery, originSwapQuery, destSwapQuery. cbn zeta.
  split.
  - intros Hnet. rewrite Hnet. cbn [Z.eqb]. rewrite bind_ret. reflexivity.
  - intros Hnet d Hd.
    rewrite (proj2 (Z.eqb_neq _ _) Hnet).
    unfold destSwapQuery in Hd. cbn zeta in Hd.
    rewrite Hd. cbv iota. rewrite bind_cons. cbn [ret fst snd].
    rewrite bind_cons. reflexivity.
Qed.

(** X11, instantiated: 1000000 units of DAI from Arbitrum to BSC. *)
Lemma estimate_between_peripheral_chains_witness :
  Bridge.estimateBridgeTokenOutput Demo.sdk Demo.chainUp Demo.onArbitrum
    (Demo.estimateRequest Demo.DAI Demo.DAI 56 1000000)
  = ([calculateSwapFee (Some "0xnUSD") 56 1000000;
      calculateSwap 42161 (Some "0xnUSD") 1 0 1000000;
      calculateSwap 56 (Some "0xnUSD") 0 1 999000],
     Resolved (Some {| Bridge.amountToReceive := 999000;
                       Bridge.bridgeFee := 1000 |})).
Proof.
  refine (proj2
    (estimate_between_peripheral_chains Demo.sdk Demo.chainUp
       Demo.onArbitrum (Demo.estimateRequest Demo.DAI Demo.DAI 56 1000000)
       {| Bridge.BridgeTokenArgs.fromChainTokens :=
            [Demo.NUSD; Demo.DAI; Demo.USDC; Demo.USDT];
          Bridge.BridgeTokenArgs.toChainTokens :=
            [Demo.NUSD; Demo.DAI; Demo.USDC; Demo.USDT];
          Bridge.BridgeTokenArgs.tokenFrom := Demo.DAI;
          Bridge.BridgeTokenArgs.tokenTo := Demo.DAI;
          Bridge.BridgeTokenArgs.tokenIndexFrom := 1;
          Bridge.BridgeTokenArgs.tokenIndexTo := 1 |}
       1000000 1000%N 1000000%N _ _ _ _ _ _ _ _ _ _ _) _ 999000%N _);
    try reflexivity; cbn; try lia; try discriminate.
Defined.

(** X12: [amountFrom] is optional in [BridgeParams], but an estimate cannot do
    without it: for a supported route, a request that leaves it out is
    rejected with a [TypeError] before any call is issued. *)
Theorem estimate_without_amount :
  forall (sdk : SDK) (reply : Call -> option N)
         (this : Bridge.SynapseBridge) (args : Bridge.BridgeParams.t),
    fst (Bridge.swapSupported sdk this args) = true ->
    Bridge.BridgeParams.amountFrom args = None ->
    Bridge.estimateBridgeTokenOutput sdk reply this args
    = ([], Rejected TypeError).
Proof.
  intros sdk reply this args Hs Ha.
  destruct (Bridge.swapSupported sdk this args) as [b reason] eqn:Hs'.
  cbn in Hs. subst b.
  rewrite (estimate_supported _ _ _ _ _ Hs').
  unfold Bridge.calculateBridgeRate.
  destruct (Bridge.makeBridgeTokenArgs sdk this args) as [targs|e] eqn:Hres.
  - now rewrite bind_lift_Resolved, Ha.
  - rewrite (makeBridgeTokenArgs_rejects_TypeError _ _ _ _ Hres).
    reflexivity.
Qed.

(** X12, instantiated. *)
Lemma estimate_without_amount_witness :
  Bridge.estimateBridgeTokenOutput Demo.sdk Demo.chainUp Demo.onArbitrum
    {| Bridge.BridgeParams.tokenFrom := Demo.DAI;
       Bridge.BridgeParams.tokenTo := Demo.DAI;
       Bridge.BridgeParams.chainIdTo := 56;
       Bridge.BridgeParams.amountFrom := None |}
  = ([], Rejected TypeError).
Proof.
  apply estimate_without_amount; reflexivity.
Defined.

(** ** Transaction building: what is encoded *)

Ltac split_ifs :=
  repeat match goal with
         | |- context [if ?b then _ else _] => destruct b eqn:?
         end.

(** Every path of the L2 selector ends in one encoder call. *)
Lemma buildL2BridgeTxn_shape sdk this args targs :
  exists tx,
    Bridge.buildL2BridgeTxn sdk this args targs = Bridge.populate tx
    /\ (target tx = L2BridgeZap
        \/ (target tx = SynapseBridgeContract /\ method tx = redeem
            /\ id (Bridge.BridgeTransactionParams.tokenTo args)
               = id (Tokens.GMX (catalogue sdk))
            /\ Bridge.chainId this <> ChainId.ARBITRUM (chainIds sdk)))
    /\ value tx
       = shapeValue (method tx)
           (Bridge.BridgeTransactionParams.amountFrom args)
    /\ isMainnetComposite (method tx) = false
    /\ (isRemoveShape (method tx) = true ->
        Bridge.BridgeTransactionParams.chainIdTo args
          = ChainId.ETH (chainIds sdk)
        /\ Bridge.isL2ETHChain this = false)
    /\ (isDestSwapShapeL2 (method tx) = true ->
        Bridge.BridgeTransactionParams.chainIdTo args
          <> ChainId.ETH (chainIds sdk)).
Proof.
  unfold Bridge.buildL2BridgeTxn.
  destruct (Bridge.l2EasySets sdk this _) as [[d r] e].
  unfold Bridge.checkEasyArgs.
  split_ifs; cbn [Bridge.isEasy Bridge.txn Bridge.castArgs];
    split_ifs;
    (eexists; split; [reflexivity|]);
    cbn [target method value mkCall carriesNativeValue isMainnetComposite
         isRemoveShape isDestSwapShapeL2 shapeValue];
    repeat split; try discriminate; auto;
    try (left; reflexivity);
    try (right; split; [reflexivity|]; split; [reflexivity|]; split;
         [ eapply bool_decide_eq_true_1; eassumption
         | apply Z.eqb_neq; assumption ]);
    try intros _;
    try (apply Z.eqb_eq; assumption);
    try (apply Z.eqb_neq; assumption).
Qed.

(** Every path of the mainnet selector ends in one encoder call: the
    [break] of the nUSD case is never reached, since a request from nUSD to
    nUSD is taken by the direct-route gate. *)
Lemma buildETHMainnetBridgeTxn_shape sdk this args targs :
  exists tx,
    Bridge.buildETHMainnetBridgeTxn sdk this args targs = Bridge.populate tx
    /\ target tx = L1BridgeZap
    /\ value tx
       = (if carriesNativeValue (method tx)
          then Some (Bridge.BridgeTransactionParams.amountFrom args)
          else None)
    /\ isL2Composite (method tx) = false.
Proof.
  unfold Bridge.buildETHMainnetBridgeTxn, Bridge.checkEasyArgs.
  destruct (includes (Bridge.mainnetEasyRedeems sdk) _) eqn:Hr;
    [eexists; split; [reflexivity|]; repeat split|].
  destruct (includes (Bridge.mainnetEasyDeposits sdk _) _) eqn:Hd;
    [eexists; split; [reflexivity|]; repeat split|].
  destruct (includes (Bridge.mainnetEasyDepositETH sdk) _) eqn:He;
    [eexists; split; [reflexivity|]; repeat split|].
  cbn [Bridge.isEasy Bridge.txn Bridge.castArgs].
  destruct (bool_decide (id _ = id (Tokens.NUSD _))) eqn:Hn.
  - destruct (isEqual _ (Tokens.NUSD _)) eqn:Hf; cbn [negb].
    + exfalso. apply bool_decide_eq_true_1 in Hn.
      unfold includes in Hd. apply bool_decide_eq_false_1 in Hd.
      apply Hd. rewrite Hn. unfold Bridge.mainnetEasyDeposits.
      rewrite Hf, elem_of_app. right. apply list_elem_of_here.
    + eexists; split; [reflexivity|]; repeat split.
  - destruct (_ || _); eexists; (split; [reflexivity|]); repeat split.
Qed.

(** X13: [buildBridgeTokenTransaction] rejects before anything is encoded in
    exactly two cases: with the [TypeError] of a missing pool list when the
    tokens do not resolve, and else with [EmptyDestinationAddress] when the
    destination address is empty or absent. In every other case exactly one
    call is handed to the encoder, whatever the route, and no contract is
    read; how the promise then settles is the encoder's answer, which is
    not stated here. *)
Theorem build_outcomes :
  forall (sdk : SDK) (this : Bridge.SynapseBridge)
         (args : Bridge.BridgeTransactionParams.t),
    match Bridge.makeBridgeTokenArgs sdk this
            (Bridge.BridgeTransactionParams.asBridgeParams args) with
    | Rejected _ =>
        Bridge.buildBridgeTokenTransaction sdk this args
        = ([], Rejected TypeError)
    | Resolved _ =>
        if Bridge.addressIsEmpty
             (Bridge.BridgeTransactionParams.addressTo args)
        then Bridge.buildBridgeTokenTransaction sdk this args
             = ([], Rejected EmptyDestinationAddress)
        else exists tx,
               calls (Bridge.buildBridgeTokenTransaction sdk this args)
               = [populateTransaction tx]
    end.
Proof.
  intros sdk this args.
  destruct (Bridge.makeBridgeTokenArgs sdk this _) as [targs|e] eqn:Hres.
  - rewrite (buildBridgeTokenTransaction_resolved _ _ _ _ Hres).
    destruct (Bridge.addressIsEmpty _); [reflexivity|]. cbn zeta.
    destruct (Bridge.chainId this =? ChainId.ETH (chainIds sdk)).
    + destruct (buildETHMainnetBridgeTxn_shape sdk this
                  (Bridge.BridgeTransactionParams.withTokens args
                     (Bridge.BridgeTokenArgs.tokenFrom targs)
                     (Bridge.BridgeTokenArgs.tokenTo targs)) targs)
        as (tx & -> & _).
      exists tx. reflexivity.
    + destruct (buildL2BridgeTxn_shape sdk this
                  (Bridge.BridgeTransactionParams.withTokens args
                     (Bridge.BridgeTokenArgs.tokenFrom targs)
                     (Bridge.BridgeTokenArgs.tokenTo targs)) targs)
        as (tx & -> & _).
      exists tx. reflexivity.
  - rewrite (buildBridgeTokenTransaction_unresolved _ _ _ _ Hres).
    now rewrite (makeBridgeTokenArgs_rejects_TypeError _ _ _ _ Hres).
Qed.

(** What [buildBridgeTokenTransaction] encodes, when it encodes. *)
Lemma build_encodes sdk this args tx :
  calls (Bridge.buildBridgeTokenTransaction sdk this args)
    = [populateTransaction tx] ->
  exists targs,
    Bridge.makeBridgeTokenArgs sdk this
      (Bridge.BridgeTransactionParams.asBridgeParams args) = Resolved targs
    /\ let args' :=
         Bridge.BridgeTransactionParams.withTokens args
           (Bridge.BridgeTokenArgs.tokenFrom targs)
           (Bridge.BridgeTokenArgs.tokenTo targs) in
       if Bridge.chainId this =? ChainId.ETH (chainIds sdk)
       then Bridge.buildETHMainnetBridgeTxn sdk this args' targs
            = Bridge.populate tx
       else Bridge.buildL2BridgeTxn sdk this args' targs
            = Bridge.populate tx.
Proof.
  destruct (Bridge.makeBridgeTokenArgs sdk this _) as [targs|e] eqn:Hres.
  - rewrite (buildBridgeTokenTransaction_resolved _ _ _ _ Hres).
    destruct (Bridge.addressIsEmpty _); [discriminate|]. cbn zeta.
    intros H. exists targs. split; [reflexivity|].
    destruct (Bridge.chainId this =? ChainId.ETH (chainIds sdk)).
    + destruct (buildETHMainnetBridgeTxn_shape sdk this
                  (Bridge.BridgeTransactionParams.withTokens args
                     (Bridge.BridgeTokenArgs.tokenFrom targs)
                     (Bridge.BridgeTokenArgs.tokenTo targs)) targs)
        as (tx' & Hb & _).
      rewrite Hb in H |- *. cbn in H. now injection H as ->.
    + destruct (buildL2BridgeTxn_shape sdk this
                  (Bridge.BridgeTransactionParams.withTokens args
                     (Bridge.BridgeTokenArgs.tokenFrom targs)
                     (Bridge.BridgeTokenArgs.tokenTo targs)) targs)
        as (tx' & Hb & _).
      rewrite Hb in H |- *. cbn in H. now injection H as ->.
  - rewrite (buildBridgeTokenTransaction_unresolved _ _ _ _ Hres).
    discriminate.
Qed.

Lemma populate_inj tx tx' : Bridge.populate tx = Bridge.populate tx' -> tx = tx'.
Proof. unfold Bridge.populate. now intros [= ->]. Qed.

(** X14: in every transaction [buildBridgeTokenTransaction] encodes, the
    target is the L1 zap exactly when the bridge is bound to Ethereum
    mainnet; off mainnet it is the L2 zap, except for the [redeem] of GMX off
    Arbitrum, which goes to the bridge contract itself. The native value is
    [amountFrom] for the shapes [depositETH], [depositETHAndSwap],
    [swapETHAndRedeem] and [swapETHAndRedeemAndSwap]; for
    [swapAndRedeemAndSwap] it is what [makeOverrides] makes of [amountFrom]
    and [false]; every other shape carries none. *)
Theorem built_transaction_target_and_value :
  forall (sdk : SDK) (this : Bridge.SynapseBridge)
         (args : Bridge.BridgeTransactionParams.t)
         (tx : PopulatedTransaction),
    calls (Bridge.buildBridgeTokenTransaction sdk this args)
      = [populateTransaction tx] ->
    (target tx = L1BridgeZap
     <-> Bridge.chainId this = ChainId.ETH (chainIds sdk))
    /\ (target tx = SynapseBridgeContract ->
        method tx = redeem
        /\ Bridge.chainId this <> ChainId.ARBITRUM (chainIds sdk)
        /\ exists targs,
             Bridge.makeBridgeTokenArgs sdk this
               (Bridge.BridgeTransactionParams.asBridgeParams args)
             = Resolved targs
             /\ id (Bridge.BridgeTokenArgs.tokenTo targs)
                = id (Tokens.GMX (catalogue sdk)))
    /\ value tx
       = shapeValue (method tx)
           (Bridge.BridgeTransactionParams.amountFrom args).
Proof.
  intros sdk this args tx Hcalls.
  destruct (build_encodes sdk this args tx Hcalls) as (targs & Hres & Hb).
  cbn zeta in Hb.
  destruct (Z.eqb_spec (Bridge.chainId this) (ChainId.ETH (chainIds sdk)))
    as [Heq|Hne].
  - destruct (buildETHMainnetBridgeTxn_shape sdk this
                (Bridge.BridgeTransactionParams.withTokens args
                   (Bridge.BridgeTokenArgs.tokenFrom targs)
                   (Bridge.BridgeTokenArgs.tokenTo targs)) targs)
      as (tx' & Hb' & Ht & Hv & Hl2).
    rewrite Hb in Hb'. apply populate_inj in Hb'. subst tx'.
    split; [tauto|]. split; [congruence|].
    rewrite Hv. unfold shapeValue.
    cbn [Bridge.BridgeTransactionParams.amountFrom
         Bridge.BridgeTransactionParams.withTokens].
    destruct (method tx); try reflexivity; discriminate Hl2.
  - destruct (buildL2BridgeTxn_shape sdk this
                (Bridge.BridgeTransactionParams.withTokens args
                   (Bridge.BridgeTokenArgs.tokenFrom targs)
                   (Bridge.BridgeTokenArgs.tokenTo targs)) targs)
      as (tx' & Hb' & Ht & Hv & _).
    rewrite Hb in Hb'. apply populate_inj in Hb'. subst tx'.
    split; [|split; [|exact Hv]].
    + split; [|contradiction].
      destruct Ht as [Ht|(Ht & _)]; rewrite Ht; discriminate.
    + intros Hs. destruct Ht as [Ht|(_ & Hm & Hg & Harb)]; [congruence|].
      split; [exact Hm|]. split; [exact Harb|].
      exists targs. split; [exact Hres | exact Hg].
Qed.

(** X14, instantiated: bare ETH from Arbitrum to mainnet is encoded for the
    L2 zap and carries the amount as value. *)
Lemma built_transaction_target_and_value_witness :
  exists tx,
    calls (Bridge.buildBridgeTokenTransaction Demo.sdk Demo.onArbitrum
             (Demo.buildRequest Demo.ETH Demo.ETH 1 1000 990 (Some "0xabc")))
      = [populateTransaction tx]
    /\ target tx <> L1BridgeZap
    /\ value tx = Some 1000.
Proof.
  eexists. split; [vm_compute; reflexivity|].
  match goal with
  | |- target ?t <> _ /\ _ =>
      destruct (built_transaction_target_and_value Demo.sdk Demo.onArbitrum
                  (Demo.buildRequest Demo.ETH Demo.ETH 1 1000 990
                     (Some "0xabc")) t eq_refl) as (Ht & _ & Hv)
  end.
  split.
  - intros H. apply Ht in H. discriminate H.
  - rewrite Hv. reflexivity.
Defined.

(** X15: the legs of an encoded transaction fit the roles of the two
    chains. The liquidity shapes of the mainnet zap ([zapAndDeposit],
    [depositETHAndSwap], [zapAndDepositAndSwap]) are encoded only on
    mainnet, the swap shapes of the L2 zap only off mainnet. A shape ending
    with a liquidity removal is encoded only towards mainnet, and never from
    an L2 ETH chain; an L2 shape ending with a destination pool swap is
    encoded only towards a chain other than mainnet. *)
Theorem built_transaction_legs_fit_roles :
  forall (sdk : SDK) (this : Bridge.SynapseBridge)
         (args : Bridge.BridgeTransactionParams.t)
         (tx : PopulatedTransaction),
    calls (Bridge.buildBridgeTokenTransaction sdk this args)
      = [populateTransaction tx] ->
    (isMainnetComposite (method tx) = true ->
     Bridge.chainId this = ChainId.ETH (chainIds sdk))
    /\ (isL2Composite (method tx) = true ->
        Bridge.chainId this <> ChainId.ETH (chainIds sdk))
    /\ (isRemoveShape (method tx) = true ->
        Bridge.BridgeTransactionParams.chainIdTo args
          = ChainId.ETH (chainIds sdk)
        /\ Bridge.isL2ETHChain this = false)
    /\ (isDestSwapShapeL2 (method tx) = true ->
        Bridge.BridgeTransactionParams.chainIdTo args
          <> ChainId.ETH (chainIds sdk)).
Proof.
  intros sdk this args tx Hcalls.
  destruct (build_encodes sdk this args tx Hcalls) as (targs & Hres & Hb).
  cbn zeta in Hb.
  destruct (Z.eqb_spec (Bridge.chainId this) (ChainId.ETH (chainIds sdk)))
    as [Heq|Hne].
  - destruct (buildETHMainnetBridgeTxn_shape sdk this
                (Bridge.BridgeTransactionParams.withTokens args
                   (Bridge.BridgeTokenArgs.tokenFrom targs)
                   (Bridge.BridgeTokenArgs.tokenTo targs)) targs)
      as (tx' & Hb' & _ & _ & Hl2).
    rewrite Hb in Hb'. apply populate_inj in Hb'. subst tx'.
    repeat split; try tauto; try congruence;
      destruct (method tx); cbn in *; congruence.
  - destruct (buildL2BridgeTxn_shape sdk this
                (Bridge.BridgeTransactionParams.withTokens args
                   (Bridge.BridgeTokenArgs.tokenFrom targs)
                   (Bridge.BridgeTokenArgs.tokenTo targs)) targs)
      as (tx' & Hb' & _ & _ & Hm & Hrem & Hswap).
    rewrite Hb in Hb'. apply populate_inj in Hb'. subst tx'.
    split; [congruence|]. split; [tauto|]. split; [exact Hrem | exact Hswap].
Qed.

(** X15, instantiated: DAI from BSC to mainnet ends with a liquidity
    removal, and BSC is not an L2 ETH chain. *)
Lemma built_transaction_legs_fit_roles_witness :
  exists tx,
    calls (Bridge.buildBridgeTokenTransaction Demo.sdk Demo.onBsc
             (Demo.buildRequest Demo.DAI Demo.DAI 1 1000 990 (Some "0xabc")))
      = [populateTransaction tx]
    /\ method tx = swapAndRedeemAndRemove
    /\ Bridge.isL2ETHChain Demo.onBsc = false.
Proof.
  eexists. split; [vm_compute; reflexivity|]. split; [reflexivity|].
  refine (proj2 (proj1 (proj2 (proj2
    (built_transaction_legs_fit_roles Demo.sdk Demo.onBsc
       (Demo.buildRequest Demo.DAI Demo.DAI 1 1000 990 (Some "0xabc"))
       _ eq_refl))) eq_refl)).
Defined.

(** ** Pre-flight checks and execution *)

(** [checkCanBridge] as a decision on the replies to its two reads. *)
Lemma checkCanBridge_eq :
  forall (reply : Call -> option N) (this : Bridge.SynapseBridge)
         (owner : string) (token : Token) (amount : Z),
    let p := {| Bridge.CheckCanBridgeParams.address := owner;
                Bridge.CheckCanBridgeParams.token := token;
                Bridge.CheckCanBridgeParams.amount := amount |} in
    let bal := balanceRead this owner token in
    let alw := allowanceRead this owner token in
    Bridge.checkCanBridge reply this p
    = ([bal; alw],
       match reply alw with
       | None => Rejected (CallException alw)
       | Some allowance =>
           if Z.of_N allowance <? amount then
             Resolved (Bridge.CannotBridge
                         (InsufficientAllowance (symbol token)
                            (Z.of_N allowance)
                            (decimals token (Bridge.chainId this))))
           else
             match reply bal with
             | None => Rejected (CallException bal)
             | Some balance =>
                 if amount <=? Z.of_N balance then Resolved Bridge.CanBridge
                 else Resolved (Bridge.CannotBridge
                                  (InsufficientBalance (symbol token)
                                     (Z.of_N balance)
                                     (decimals token (Bridge.chainId this))))
             end
       end).
Proof.
  intros reply this owner token amount p bal alw. subst p bal alw.
  unfold Bridge.checkCanBridge, Bridge.checkHasBalance,
    Bridge.checkNeedsApprove, Bridge.buildERC20ApproveArgs,
    Bridge.ERC20_balanceOf, Bridge.ERC20_allowanceOf, Bridge.request,
    balanceRead, allowanceRead, start, bind, ret, lift.
  cbn [Bridge.CheckCanBridgeParams.address Bridge.CheckCanBridgeParams.token
       Bridge.CheckCanBridgeParams.amount fst snd app].
  destruct (reply (balanceOf _ _ _)) as [b|];
    destruct (reply (allowanceOf _ _ _ _)) as [al|];
    cbn [fst snd app negb]; try reflexivity;
    repeat match goal with
           | |- context [negb ?c] => destruct c; cbn [negb]
           | |- context [if ?c then _ else _] => destruct c
           end;
    reflexivity.
Qed.

(** X16: [checkCanBridge] always issues two reads, the balance and then the
    allowance granted to the zap contract, and the allowance decides first.
    The bridge may go on exactly when both reads answer and neither amount
    is below the requested one. A failed allowance read rejects, and an
    allowance below the amount is reported as such, whatever the balance
    read did, even when it failed. Past the allowance, a failed balance read
    rejects and a balance below the amount is reported. *)
Theorem checkCanBridge_decision :
  forall (reply : Call -> option N) (this : Bridge.SynapseBridge)
         (owner : string) (token : Token) (amount : Z),
    let p := {| Bridge.CheckCanBridgeParams.address := owner;
                Bridge.CheckCanBridgeParams.token := token;
                Bridge.CheckCanBridgeParams.amount := amount |} in
    let bal := balanceRead this owner token in
    let alw := allowanceRead this owner token in
    let res := Bridge.checkCanBridge reply this p in
    calls res = [bal; alw]
    /\ (outcome res = Resolved Bridge.CanBridge
        <-> exists allowance balance,
              reply alw = Some allowance /\ reply bal = Some balance
              /\ amount <= Z.of_N allowance /\ amount <= Z.of_N balance)
    /\ (reply alw = None -> outcome res = Rejected (CallException alw))
    /\ (forall allowance,
          reply alw = Some allowance -> Z.of_N allowance < amount ->
          outcome res
          = Resolved (Bridge.CannotBridge
                        (InsufficientAllowance (symbol token)
                           (Z.of_N allowance)
                           (decimals token (Bridge.chainId this)))))
    /\ (forall allowance,
          reply alw = Some allowance -> amount <= Z.of_N allowance ->
          match reply bal with
          | None => outcome res = Rejected (CallException bal)
          | Some balance =>
              Z.of_N balance < amount ->
              outcome res
              = Resolved (Bridge.CannotBridge
                            (InsufficientBalance (symbol token)
                               (Z.of_N balance)
                               (decimals token (Bridge.chainId this))))
          end).
Proof.
  intros reply this owner token amount p bal alw res.
  subst res p. rewrite checkCanBridge_eq. fold bal alw.
  cbn [calls outcome fst snd].
  split; [reflexivity|].
  destruct (reply alw) as [al|] eqn:Ea.
  - destruct (Z.ltb_spec (Z.of_N al) amount) as [Hlt|Hge].
    + split; [|split; [discriminate|split]].
      * split; [discriminate|].
        intros (a & b & [= <-] & _ & Ha & _). lia.
      * intros a [= <-] _. reflexivity.
      * intros a [= <-] Ha. lia.
    + destruct (reply bal) as [bl|] eqn:Eb.
      * destruct (Z.leb_spec amount (Z.of_N bl)) as [Hb|Hb].
        -- split; [|split; [discriminate|split]].
           ++ split; [|reflexivity]. intros _. exists al, bl. auto.
           ++ intros a [= <-] Ha. lia.
           ++ intros a _ _ Hbl. lia.
        -- split; [|split; [discriminate|split]].
           ++ split; [discriminate|].
              intros (a & b & _ & [= <-] & _ & Hb'). lia.
           ++ intros a [= <-] Ha. lia.
           ++ intros a _ _ _. reflexivity.
      * split; [|split; [discriminate|split]].
        -- split; [discriminate|]. intros (a & b & _ & [=] & _).
        -- intros a [= <-] Ha. lia.
        -- intros a _ _. reflexivity.
  - split; [|split; [reflexivity|split]].
    + split; [discriminate|]. intros (a & b & [=] & _).
    + intros a [=].
    + intros a [=].
Qed.

(** X16, instantiated: on the reference chain every allowance and balance is
    5000000, so 6000000 units of USDC on Arbitrum are reported as lacking
    allowance. *)
Lemma checkCanBridge_decision_witness :
  outcome (Bridge.checkCanBridge Demo.chainUp Demo.onArbitrum
             {| Bridge.CheckCanBridgeParams.address := "0xabc";
                Bridge.CheckCanBridgeParams.token := Demo.USDC;
                Bridge.CheckCanBridgeParams.amount := 6000000 |})
  = Resolved (Bridge.CannotBridge
                (InsufficientAllowance "USDC" 5000000
                   (decimals Demo.USDC 42161))).
Proof.
  refine (proj1 (proj2 (proj2 (proj2
    (checkCanBridge_decision Demo.chainUp Demo.onArbitrum "0xabc" Demo.USDC
       6000000)))) 5000000%N eq_refl _).
  reflexivity.
Defined.

(** X17: [getAllowanceForAddress] and the pre-flight check read the same
    allowance: when [getAllowanceForAddress] resolves to an allowance of at
    least [amount], [checkCanBridge] for that owner, token and amount does
    not report an insufficient allowance, and its verdict is that of the
    balance read alone. *)
Theorem sufficient_allowance_passes_preflight :
  forall (reply : Call -> option N) (this : Bridge.SynapseBridge)
         (owner : string) (token : Token) (amount allowance : Z),
    outcome (Bridge.getAllowanceForAddress reply this owner token)
      = Resolved allowance ->
    amount <= allowance ->
    outcome (Bridge.checkCanBridge reply this
               {| Bridge.CheckCanBridgeParams.address := owner;
                  Bridge.CheckCanBridgeParams.token := token;
                  Bridge.CheckCanBridgeParams.amount := amount |})
    = match reply (balanceRead this owner token) with
      | None => Rejected (CallException (balanceRead this owner token))
      | Some balance =>
          if amount <=? Z.of_N balance then Resolved Bridge.CanBridge
          else Resolved (Bridge.CannotBridge
                           (InsufficientBalance (symbol token)
                              (Z.of_N balance)
                              (decimals token (Bridge.chainId this))))
      end.
Proof.
  intros reply this owner token amount allowance Hget Hle.
  rewrite checkCanBridge_eq. cbn [outcome snd].
  unfold Bridge.getAllowanceForAddress, Bridge.ERC20_allowanceOf,
    Bridge.request, bind, ret in Hget.
  fold (allowanceRead this owner token) in Hget.
  destruct (reply (allowanceRead this owner token)) as [al|];
    cbn in Hget; [|discriminate].
  injection Hget as <-.
  destruct (Z.ltb_spec (Z.of_N al) amount); [lia | reflexivity].
Qed.

(** X17, instantiated: on the reference chain every allowance and balance is
    5000000, enough for 1000000 units of USDC on Arbitrum. *)
Lemma sufficient_allowance_passes_preflight_witness :
  outcome (Bridge.checkCanBridge Demo.chainUp Demo.onArbitrum
             {| Bridge.CheckCanBridgeParams.address := "0xabc";
                Bridge.CheckCanBridgeParams.token := Demo.USDC;
                Bridge.CheckCanBridgeParams.amount := 1000000 |})
  = Resolved Bridge.CanBridge.
Proof.
  rewrite (sufficient_allowance_passes_preflight Demo.chainUp
             Demo.onArbitrum "0xabc" Demo.USDC 1000000 5000000).
  - reflexivity.
  - reflexivity.
  - lia.
Defined.

(** X18: on a supported route [executeBridgeTokenTransaction] first asks the
    signer for its address, then runs the two pre-flight reads for the
    source token and amount of that address. If the signer does not answer,
    or the pre-flight check rejects or reports an insufficient allowance or
    balance, the promise rejects with that error and nothing is built or
    sent. Only when the check passes is the transaction built, for the
    request with the signer's address filled in as destination when the
    request names none, and handed to [executePopulatedTransaction]. *)
Theorem execute_pipeline :
  forall (sdk : SDK) (reply : Call -> option N)
         (this : Bridge.SynapseBridge)
         (args : Bridge.BridgeTransactionParams.t) (signer : Signer.t),
    fst (Bridge.swapSupported sdk this
           (Bridge.BridgeTransactionParams.asBridgeParams args)) = true ->
    match Signer.address signer with
    | None =>
        Bridge.executeBridgeTokenTransaction sdk reply this args signer
        = ([getAddress], Rejected (CallException getAddress))
    | Some signerAddress =>
        let tokenFrom := Bridge.BridgeTransactionParams.tokenFrom args in
        let reads := [balanceRead this signerAddress tokenFrom;
                      allowanceRead this signerAddress tokenFrom] in
        let sent :=
          CommonUtils.executePopulatedTransaction (commonUtils sdk)
            (Bridge.buildBridgeTokenTransaction sdk this
               (Bridge.BridgeTransactionParams.withAddressTo args
                  (Some (default signerAddress
                           (Bridge.BridgeTransactionParams.addressTo args)))))
            signer in
        match outcome
                (Bridge.checkCanBridge reply this
                   {| Bridge.CheckCanBridgeParams.address := signerAddress;
                      Bridge.CheckCanBridgeParams.token := tokenFrom;
                      Bridge.CheckCanBridgeParams.amount :=
                        Bridge.BridgeTransactionParams.amountFrom args |})
        with
        | Rejected e =>
            Bridge.executeBridgeTokenTransaction sdk reply this args signer
            = (getAddress :: reads, Rejected e)
        | Resolved (Bridge.CannotBridge err) =>
            Bridge.executeBridgeTokenTransaction sdk reply this args signer
            = (getAddress :: reads, Rejected err)
        | Resolved Bridge.CanBridge =>
            Bridge.executeBridgeTokenTransaction sdk reply this args signer
            = (getAddress :: reads ++ calls sent, outcome sent)
        end
    end.
Proof.
  intros sdk reply this args signer Hs.
  destruct (Bridge.swapSupported sdk this _) as [b reason] eqn:Hs'.
  cbn in Hs. subst b.
  unfold Bridge.executeBridgeTokenTransaction.
  rewrite (checkSwapSupported_true _ _ _ _ Hs'), bind_ret.
  unfold Bridge.signer_getAddress.
  destruct (Signer.address signer) as [sa|]; [|reflexivity].
  rewrite bind_cons. cbn zeta.
  rewrite checkCanBridge_eq. cbn [outcome snd].
  set (sent := CommonUtils.executePopulatedTransaction _ _ _).
  destruct (reply (allowanceRead this sa _)) as [al|]; [|reflexivity].
  destruct (Z.of_N al <? _); [reflexivity|].
  destruct (reply (balanceRead this sa _)) as [bl|]; [|reflexivity].
  destruct (_ <=? Z.of_N bl); [|reflexivity].
  unfold bind. destruct sent as [l r]. reflexivity.
Qed.

(** X18, instantiated: DAI from Arbitrum to BSC, sent by a wallet that names
    no destination: the transaction is built for the wallet's own address
    after the three reads. *)
Lemma execute_pipeline_witness :
  Bridge.executeBridgeTokenTransaction Demo.sdk Demo.chainUp Demo.onArbitrum
    (Demo.buildRequest Demo.DAI Demo.DAI 56 1000000 990000 None)
    Demo.wallet
  = ([getAddress;
      balanceOf "0xabc" (Some "0xDAI") 42161;
      allowanceOf "0xabc" "0xL2BridgeZap" (Some "0xDAI") 42161]
     ++ calls (Bridge.buildBridgeTokenTransaction Demo.sdk Demo.onArbitrum
                 (Demo.buildRequest Demo.DAI Demo.DAI 56 1000000 990000
                    (Some "0xabc"))),
     Resolved {| hash := "0xhash" |}).
Proof.
  exact (execute_pipeline Demo.sdk Demo.chainUp Demo.onArbitrum
           (Demo.buildRequest Demo.DAI Demo.DAI 56 1000000 990000 None)
           Demo.wallet eq_refl).
Defined.



(** ** The membership sets of the L2 gate *)

Lemma addDepositIfChain_members this d0 r0 e0 a d r e :
  Bridge.addDepositIfChain this (d0, r0, e0) a = (d, r, e) ->
  forall x,
    (x ∈ d <-> x ∈ d0 \/ (depositsHere this false a
                          /\ x ∈ map id (BridgeUtils.tokens a)))
    /\ (x ∈ e <-> x ∈ e0 \/ (depositsHere this true a
                             /\ x ∈ map id (BridgeUtils.tokens a)))
    /\ (x ∈ r <-> x ∈ r0 \/ (redeemsHere this a
                             /\ x ∈ map id (BridgeUtils.tokens a))).
Proof.
  unfold Bridge.addDepositIfChain, depositsHere, redeemsHere.
  intros H x.
  destruct (Z.eqb_spec (Bridge.chainId this) (BridgeUtils.chainId a))
    as [Hc|Hc].
  - destruct (BridgeUtils.depositEth a); injection H as <- <- <-;
      rewrite ?elem_of_app; intuition congruence.
  - destruct (BridgeUtils.altChainId a) as [alt|].
    + destruct (Z.eqb_spec (Bridge.chainId this) alt) as [Ha|Ha];
        injection H as <- <- <-; rewrite ?elem_of_app; intuition congruence.
    + injection H as <- <- <-; rewrite ?elem_of_app; intuition congruence.
Qed.

Lemma l2_fold_members this (l : list BridgeUtils.DepositIfChainArgs) :
  forall d0 r0 e0 d r e,
    fold_left (Bridge.addDepositIfChain this) l (d0, r0, e0) = (d, r, e) ->
    forall x,
      (x ∈ d <-> x ∈ d0 \/ exists a, a ∈ l /\ depositsHere this false a
                                     /\ x ∈ map id (BridgeUtils.tokens a))
      /\ (x ∈ e <-> x ∈ e0 \/ exists a, a ∈ l /\ depositsHere this true a
                                        /\ x ∈ map id (BridgeUtils.tokens a))
      /\ (x ∈ r <-> x ∈ r0 \/ exists a, a ∈ l /\ redeemsHere this a
                                        /\ x ∈ map id (BridgeUtils.tokens a)).
Proof.
  induction l as [|a l IH]; intros d0 r0 e0 d r e Hfold x.
  - cbn in Hfold. injection Hfold as <- <- <-.
    repeat split; try tauto; intros [H|(a & Ha & _)]; try assumption;
      now apply elem_of_nil in Ha.
  - cbn [fold_left] in Hfold.
    destruct (Bridge.addDepositIfChain this (d0, r0, e0) a)
      as [[d1 r1] e1] eqn:Hstep.
    destruct (IH _ _ _ _ _ _ Hfold x) as (Hd & He & Hr).
    destruct (addDepositIfChain_members _ _ _ _ _ _ _ _ Hstep x)
      as (Hd1 & He1 & Hr1).
    rewrite Hd, He, Hr, Hd1, He1, Hr1.
    repeat split.
    all: try (intros [[H|[H1 H2]]|(b & Hb & H1 & H2)];
              [ left; assumption
              | right; exists a; split; [apply list_elem_of_here | tauto]
              | right; exists b; split;
                [now apply list_elem_of_further | tauto] ]).
    all: intros [H|(b & Hb & H1 & H2)]; [tauto|];
      apply elem_of_cons in Hb as [->|Hb];
      [ left; right; tauto | right; exists b; tauto ].
Qed.

(** X20: the three membership sets of the L2 gate. A token is a direct
    deposit exactly when [DepositIfChainTokens] lists it for the bridge's
    own chain, as a native-value deposit if the entry says so and a plain
    one otherwise. It is a direct redeem exactly when it is SYN, HIGH, DOG
    or FRAX, or nUSD for a request from nUSD, or listed for another chain by
    an entry that names no alternative chain or names this one. *)
Theorem l2EasySets_membership :
  forall (sdk : SDK) (this : Bridge.SynapseBridge) (tokenFrom : Token)
         (d r e : list ID) (x : ID),
    Bridge.l2EasySets sdk this tokenFrom = (d, r, e) ->
    let table := BridgeUtils.DepositIfChainTokens (utils sdk) in
    (x ∈ d <-> exists a, a ∈ table /\ depositsHere this false a
                         /\ x ∈ map id (BridgeUtils.tokens a))
    /\ (x ∈ e <-> exists a, a ∈ table /\ depositsHere this true a
                            /\ x ∈ map id (BridgeUtils.tokens a))
    /\ (x ∈ r
        <-> x ∈ [id (Tokens.SYN (catalogue sdk));
                 id (Tokens.HIGH (catalogue sdk));
                 id (Tokens.DOG (catalogue sdk));
                 id (Tokens.FRAX (catalogue sdk))]
            \/ (isEqual tokenFrom (Tokens.NUSD (catalogue sdk)) = true
                /\ x = id (Tokens.NUSD (catalogue sdk)))
            \/ exists a, a ∈ table /\ redeemsHere this a
                         /\ x ∈ map id (BridgeUtils.tokens a)).
Proof.
  intros sdk this tokenFrom d r e x Hsets table. subst table.
  unfold Bridge.l2EasySets in Hsets.
  destruct (l2_fold_members _ _ _ _ _ _ _ _ Hsets x) as (Hd & He & Hr).
  rewrite Hd, He, Hr. repeat split.
  - intros [H|H]; [now apply elem_of_nil in H | exact H].
  - auto.
  - intros [H|H]; [now apply elem_of_nil in H | exact H].
  - auto.
  - intros [H|H]; [|auto]. apply elem_of_app in H as [H|H]; [auto|].
    destruct (isEqual tokenFrom _); [|now apply elem_of_nil in H].
    apply list_elem_of_singleton in H. auto.
  - intros [H|[[Hn ->]|H]]; [| |auto]; left; rewrite elem_of_app.
    + auto.
    + right. rewrite Hn. apply list_elem_of_here.
Qed.

(** X20, instantiated: the reference table lists AVAX and wAVAX for
    Avalanche as a native-value deposit, so on Avalanche wAVAX is in
    [easyDepositETH] and not in [easyDeposits]. *)
Lemma l2EasySets_membership_witness :
  exists d r e,
    Bridge.l2EasySets Demo.sdk Demo.onAvalanche Demo.USDC = (d, r, e)
    /\ e = [id Demo.AVAX; id Demo.WAVAX]
    /\ id Demo.WAVAX ∈ e
    /\ id Demo.WAVAX ∉ d.
Proof.
  do 3 eexists. split; [reflexivity|]. split; [reflexivity|].
  destruct (l2EasySets_membership Demo.sdk Demo.onAvalanche Demo.USDC
              _ _ _ (id Demo.WAVAX) eq_refl) as (Hd & He & _).
  split.
  - apply He. eexists. split; [apply list_elem_of_here|].
    split; [split; reflexivity|].
    apply list_elem_of_further, list_elem_of_here.
  - intros H. apply Hd in H as (a & Ha & (Hc & Hdep) & _).
    apply elem_of_cons in Ha as [->|Ha]; [discriminate Hdep|].
    apply elem_of_cons in Ha as [->|Ha]; [discriminate Hdep|].
    now apply elem_of_nil in Ha.
Defined.

(** ** Shape selection between two peripheral chains *)

Lemma buildL2BridgeTxn_between_peripheral_chains sdk this args targs :
  Bridge.BridgeTransactionParams.chainIdTo args
    <> ChainId.ETH (chainIds sdk) ->
  Bridge.isEasy (l2EasyCheck sdk this args) = false ->
  id (Bridge.BridgeTransactionParams.tokenTo args)
    <> id (Tokens.NUSD (catalogue sdk)) ->
  id (Bridge.BridgeTransactionParams.tokenTo args)
    <> id (Tokens.GMX (catalogue sdk)) ->
  exists tx,
    Bridge.buildL2BridgeTxn sdk this args targs = Bridge.populate tx
    /\ target tx = L2BridgeZap
    /\ (method tx, value tx)
       = peripheralShape sdk (Bridge.BridgeTransactionParams.tokenFrom args)
           (Bridge.BridgeTransactionParams.amountFrom args).
Proof.
  intros Hto Heasy Hnusd Hgmx.
  unfold Bridge.buildL2BridgeTxn, peripheralShape.
  unfold l2EasyCheck in Heasy.
  destruct (Bridge.l2EasySets _ _ _) as [[d r] e].
  rewrite Heasy.
  rewrite (bool_decide_eq_false_2 _ Hnusd), (bool_decide_eq_false_2 _ Hgmx).
  rewrite (proj2 (Z.eqb_neq _ _) Hto).
  destruct (isEqual _ (Tokens.NUSD _));
    [eexists; repeat split; reflexivity|].
  destruct (isEqual _ (Tokens.NETH _));
    [eexists; repeat split; reflexivity|].
  destruct (bool_decide (swapType _ = SwapType_ETH));
    [|eexists; repeat split; reflexivity].
  destruct (BridgeUtils.isETHLikeToken _ _);
    eexists; repeat split; reflexivity.
Qed.

(** X21: between two peripheral chains, for a request that the direct-route
    gate does not take and whose destination token is neither nUSD nor GMX,
    [buildBridgeTokenTransaction] encodes exactly one call, on the L2 zap,
    and the source token alone picks the shape: [redeemAndSwap], without
    value, from nUSD or nETH; [swapETHAndRedeemAndSwap], carrying the amount
    as native value, from a token of swap type ETH that is not ETH-like; and
    [swapAndRedeemAndSwap], with the overrides [makeOverrides] makes of the
    amount and [false], from every other token. *)
Theorem peripheral_to_peripheral_shape :
  forall (sdk : SDK) (this : Bridge.SynapseBridge)
         (args : Bridge.BridgeTransactionParams.t)
         (targs : Bridge.BridgeTokenArgs.t),
    Bridge.chainId this <> ChainId.ETH (chainIds sdk) ->
    Bridge.BridgeTransactionParams.chainIdTo args
      <> ChainId.ETH (chainIds sdk) ->
    Bridge.addressIsEmpty (Bridge.BridgeTransactionParams.addressTo args)
      = false ->
    Bridge.makeBridgeTokenArgs sdk this
      (Bridge.BridgeTransactionParams.asBridgeParams args) = Resolved targs ->
    let tokenFrom := Bridge.BridgeTokenArgs.tokenFrom targs in
    let tokenTo := Bridge.BridgeTokenArgs.tokenTo targs in
    Bridge.isEasy
      (l2EasyCheck sdk this
         (Bridge.BridgeTransactionParams.withTokens args tokenFrom tokenTo))
      = false ->
    id tokenTo <> id (Tokens.NUSD (catalogue sdk)) ->
    id tokenTo <> id (Tokens.GMX (catalogue sdk)) ->
    exists tx : PopulatedTransaction,
      Bridge.buildBridgeTokenTransaction sdk this args
      = ([populateTransaction tx],
         Resolved (GasUtils.populateGasParams (gasUtils sdk)
                     (Bridge.chainId this) tx "bridge"))
      /\ target tx = L2BridgeZap
      /\ (method tx, value tx)
         = peripheralShape sdk tokenFrom
             (Bridge.BridgeTransactionParams.amountFrom args).
Proof.
  intros sdk this args targs Hper Hto Haddr Hres tokenFrom tokenTo
    Heasy Hnusd Hgmx.
  subst tokenFrom tokenTo.
  rewrite (buildBridgeTokenTransaction_resolved _ _ _ _ Hres), Haddr.
  cbn zeta.
  rewrite (proj2 (Z.eqb_neq _ _) Hper).
  destruct (buildL2BridgeTxn_between_peripheral_chains sdk this
              (Bridge.BridgeTransactionParams.withTokens args
                 (Bridge.BridgeTokenArgs.tokenFrom targs)
                 (Bridge.BridgeTokenArgs.tokenTo targs))
              targs Hto Heasy Hnusd Hgmx) as (tx & -> & Ht & Hs).
  exists tx. split; [reflexivity|]. split; [exact Ht | exact Hs].
Qed.

(** X21, instantiated: bare ETH from Arbitrum to WETH.e on Avalanche is
    built as [swapETHAndRedeemAndSwap] and carries the amount as value. *)
Lemma peripheral_to_peripheral_shape_witness :
  exists tx : PopulatedTransaction,
    Bridge.buildBridgeTokenTransaction Demo.sdk Demo.onArbitrum
      (Demo.buildRequest Demo.ETH Demo.WETH_E 43114 1000 990 (Some "0xabc"))
    = ([populateTransaction tx],
       Resolved (GasUtils.populateGasParams Demo.gas 42161 tx "bridge"))
    /\ (method tx, value tx) = (swapETHAndRedeemAndSwap, Some 1000).
Proof.
  destruct (peripheral_to_peripheral_shape
              Demo.sdk Demo.onArbitrum
              (Demo.buildRequest Demo.ETH Demo.WETH_E 43114 1000 990
                 (Some "0xabc"))
              {| Bridge.BridgeTokenArgs.fromChainTokens :=
                   [Demo.NETH; Demo.WETH];
                 Bridge.BridgeTokenArgs.toChainTokens :=
                   [Demo.NETH; Demo.AVWETH];
                 Bridge.BridgeTokenArgs.tokenFrom := Demo.WETH;
                 Bridge.BridgeTokenArgs.tokenTo := Demo.WETH_E;
                 Bridge.BridgeTokenArgs.tokenIndexFrom := 1;
                 Bridge.BridgeTokenArgs.tokenIndexTo := 1 |})
    as (tx & Hbuild & _ & Hshape).
  - cbn. discriminate.
  - cbn. discriminate.
  - reflexivity.
  - reflexivity.
  - reflexivity.
  - cbn. discriminate.
  - cbn. discriminate.
  - exists tx. split; [exact Hbuild|]. rewrite Hshape. reflexivity.
Defined.
